(** * Trace: the agent loop, the process runner and the UI state machine

    A shallow embedding of [pkg/ui/commands.go] ([RunProcessCmd], [InvokeAI]),
    of the [Update] method of the UI model, and of the tool registry of
    package [agent] ([GetAllToolDefinitions], [ExecuteToolByName],
    [ResolveBinary]), followed by the properties of the specification that
    concern them.

    Go strings are byte strings ([string]); Go [int] is [Z], the
    subtraction on a window width wrapping around at 64 bits ([wrapInt]),
    the only other arithmetic being an increment and a decrement guarded by
    a comparison with a slice length, which stay in range; a Go [error] is
    the text it prints with [%v]; a Go [(T, error)] pair is a [Result];
    slices are lists. *)

From Stdlib Require Import String Ascii List ZArith Lia Bool DecimalString.
Import ListNotations.
Open Scope string_scope.
Open Scope list_scope.

Set Implicit Arguments.

(** ** Go values *)

Definition error := string.

Inductive Result (A : Type) : Type :=
| Ok (a : A)
| Err (e : error).
Arguments Ok {A} a.
Arguments Err {A} e.

(** The value of a Go [int] expression whose exact result is [z]: the
    result modulo 2^64, taken between -2^63 and 2^63 - 1. *)
Definition wrapInt (z : Z) : Z :=
  ((z + 9223372036854775808) mod 18446744073709551616 - 9223372036854775808)%Z.

(** ** A state monad for code that talks to the outside world *)

Definition M (S A : Type) : Type := S -> A * S.

Definition ret {S A : Type} (a : A) : M S A := fun s => (a, s).

Definition bind {S A B : Type} (c : M S A) (k : A -> M S B) : M S B :=
  fun s => let (a, s') := c s in k a s'.

Declare Scope monad_scope.
Delimit Scope monad_scope with monad.
Notation "x <- c ;; k" := (bind c (fun x => k))
  (at level 61, c at next level, right associativity) : monad_scope.

(** ** Package [strings] (the functions the UI uses) *)

Module strings.

Definition byte_is (c : ascii) (n : nat) : bool := Nat.eqb (nat_of_ascii c) n.

(** The six ASCII white space bytes of [asciiSpace]. *)
Definition asciiSpace (c : ascii) : bool :=
  let n := nat_of_ascii c in
  (Nat.leb 9 n && Nat.leb n 13) || Nat.eqb n 32.

(** Width in bytes of the white space rune ([unicode.IsSpace]) that starts
    [s], 0 when [s] does not start with one: the ASCII ones, U+0085,
    U+00A0, U+1680, U+2000..U+200A, U+2028, U+2029, U+202F, U+205F and
    U+3000 in their UTF-8 encodings. *)
Definition spaceWidth (s : string) : nat :=
  match s with
  | EmptyString => 0
  | String a r =>
    if asciiSpace a then 1
    else
      match r with
      | EmptyString => 0
      | String b r' =>
        if byte_is a 194 then
          (if byte_is b 133 || byte_is b 160 then 2 else 0)
        else
          match r' with
          | EmptyString => 0
          | String c _ =>
            if byte_is a 225 then
              (if byte_is b 154 && byte_is c 128 then 3 else 0)
            else if byte_is a 226 then
              (if byte_is b 128 then
                 (if (Nat.leb 128 (nat_of_ascii c) && Nat.leb (nat_of_ascii c) 138)
                     || byte_is c 168 || byte_is c 169 || byte_is c 175
                  then 3 else 0)
               else if byte_is b 129 && byte_is c 159 then 3 else 0)
            else if byte_is a 227 then
              (if byte_is b 128 && byte_is c 128 then 3 else 0)
            else 0
          end
      end
  end.

Definition flush (cur : string) : list string :=
  match cur with
  | EmptyString => []
  | _ => [cur]
  end.

(** [skip] counts the bytes of a multi-byte white space rune still to be
    dropped; [cur] is the field being read. *)
Fixpoint fieldsFrom (s : string) (skip : nat) (cur : string) : list string :=
  match s with
  | EmptyString => flush cur
  | String c s' =>
    match skip with
    | S k => fieldsFrom s' k cur
    | O =>
      match spaceWidth s with
      | O => fieldsFrom s' 0 (cur ++ String c EmptyString)%string
      | S k => flush cur ++ fieldsFrom s' k EmptyString
      end
    end
  end.

(** [strings.Fields]: the maximal runs of non white space. *)
Definition Fields (s : string) : list string := fieldsFrom s 0 EmptyString.

Definition HasPrefix (s p : string) : bool := String.prefix p s.

Definition TrimPrefix (s p : string) : string :=
  if HasPrefix s p
  then String.substring (String.length p) (String.length s - String.length p) s
  else s.

Fixpoint Contains (s sub : string) : bool :=
  String.prefix sub s ||
  match s with
  | EmptyString => false
  | String _ s' => Contains s' sub
  end.

Fixpoint Join (elems : list string) (sep : string) : string :=
  match elems with
  | [] => ""
  | [e] => e
  | e :: rest => (e ++ sep ++ Join rest sep)%string
  end.

(** [s[n:]], for [n] up to [len(s)]. *)
Definition from (n : nat) (s : string) : string :=
  String.substring n (String.length s - n) s.

Definition HasSuffix (s suffix : string) : bool :=
  Nat.leb (String.length suffix) (String.length s)
  && String.eqb (from (String.length s - String.length suffix) s) suffix.

(** [strings.Replace(s, old, new, 1)], the one way the tools call it: the
    first occurrence of [old] becomes [new]; an empty [old] occurs at the
    start; without occurrence [s] is returned. *)
Fixpoint ReplaceFirst (s old new : string) : string :=
  if String.prefix old s then (new ++ from (String.length old) s)%string
  else
    match s with
    | EmptyString => s
    | String c s' => String c (ReplaceFirst s' old new)
    end.

(** [skip] counts the bytes of the occurrence of [sep] being passed over. *)
Fixpoint countFrom (s sep : string) (skip : nat) : nat :=
  match s with
  | EmptyString => 0
  | String _ s' =>
    match skip with
    | S k => countFrom s' sep k
    | O =>
      if String.prefix sep s
      then S (countFrom s' sep (String.length sep - 1))
      else countFrom s' sep 0
    end
  end.

(** [strings.Count], for a separator that is not empty: the occurrences
    that do not overlap. *)
Definition Count (s sep : string) : nat := countFrom s sep 0.

Fixpoint splitFrom (s sep : string) (skip : nat) (cur : string) : list string :=
  match s with
  | EmptyString => [cur]
  | String c s' =>
    match skip with
    | S k => splitFrom s' sep k cur
    | O =>
      if String.prefix sep s
      then cur :: splitFrom s' sep (String.length sep - 1) EmptyString
      else splitFrom s' sep 0 (cur ++ String c EmptyString)%string
    end
  end.

(** [strings.Split], for a separator that is not empty. *)
Definition Split (s sep : string) : list string := splitFrom s sep 0 EmptyString.

End strings.

(** ** Package [openai]: the messages exchanged with the endpoint *)

Module openai.

Definition ChatMessageRoleSystem : string := "system".
Definition ChatMessageRoleUser : string := "user".
Definition ChatMessageRoleAssistant : string := "assistant".
Definition ChatMessageRoleTool : string := "tool".

Record FunctionCall : Type := {
  Name : string;
  Arguments : string
}.

Record ToolCall : Type := {
  ID : string;
  Function : FunctionCall
}.

Record ChatCompletionMessage : Type := {
  Role : string;
  Content : string;
  ToolCalls : list ToolCall;
  ToolCallID : string
}.

Record ChatCompletionChoice : Type := {
  Message : ChatCompletionMessage;
  FinishReason : string
}.

Record ChatCompletionResponse : Type := {
  Choices : list ChatCompletionChoice
}.

(** [Tool] with its [FunctionDefinition] flattened; the JSON schema of the
    parameters is produced by reflection and plays no part below. *)
Record Tool : Type := {
  ToolName : string;
  ToolDescription : string
}.

Record ChatCompletionRequest : Type := {
  Model : string;
  Messages : list ChatCompletionMessage;
  Tools : list Tool
}.

End openai.

(** A conversation history, [[]openai.ChatCompletionMessage]. *)
Definition Conversation : Type := list openai.ChatCompletionMessage.

(** ** Package [agent]: the tool registry and the binary fallback table *)

Module agent.

Section Registry.

(** The tools read and write the file system and run programs: [World]
    is the state they act on. *)
Variable World : Type.

Definition ToolFunction : Type := string -> M World (Result string).

Record ToolDefinition : Type := {
  Name : string;
  Description : string;
  Function : ToolFunction
}.

(** The bodies of the seven tools are I/O wrappers; the loop sees each of
    them as an opaque call returning a text or an error. *)
Record ToolFunctions : Type := {
  ReadFile : ToolFunction;
  ListFiles : ToolFunction;
  RunCommand : ToolFunction;
  InitProject : ToolFunction;
  WriteFile : ToolFunction;
  EditFile : ToolFunction;
  ManageWindow : ToolFunction
}.

Variable fns : ToolFunctions.

Definition ReadFileDefinition : ToolDefinition :=
  {| Name := "read_file";
     Description := "Read the contents of a given relative file path.";
     Function := ReadFile fns |}.

Definition ListFilesDefinition : ToolDefinition :=
  {| Name := "list_files";
     Description := "List files in the project. Respects .gitignore.";
     Function := ListFiles fns |}.

Definition RunCommandDefinition : ToolDefinition :=
  {| Name := "run_command";
     Description := "Run a shell command. Use this for git commands like 'git diff', 'git status', 'git log'.";
     Function := RunCommand fns |}.

Definition InitProjectDefinition : ToolDefinition :=
  {| Name := "init_project";
     Description := "Initialize a new git project with a README and .gitignore. Can create a new directory.";
     Function := InitProject fns |}.

Definition WriteFileDefinition : ToolDefinition :=
  {| Name := "write_file";
     Description := "Write content to a file. Creates the file if it doesn't exist, or overwrites it if it does.";
     Function := WriteFile fns |}.

Definition EditFileDefinition : ToolDefinition :=
  {| Name := "edit_file";
     Description := "Edit a file by replacing a specific block of text with new text. Uses exact string matching.";
     Function := EditFile fns |}.

Definition ManageWindowDefinition : ToolDefinition :=
  {| Name := "manage_window";
     Description := "Control the interface layout, such as opening or closing the sidebar to show terminal output.";
     Function := ManageWindow fns |}.

Definition GetAllToolDefinitions : list ToolDefinition :=
  [ ReadFileDefinition; ListFilesDefinition; RunCommandDefinition;
    InitProjectDefinition; WriteFileDefinition; EditFileDefinition;
    ManageWindowDefinition ].

(** The [for] loop of [ExecuteToolByName]: the first definition with the
    name runs. *)
Fixpoint executeIn (defs : list ToolDefinition) (name argsJSON : string)
  : M World (Result string) :=
  match defs with
  | [] => ret (Err ("unknown tool: " ++ name)%string)
  | tool :: rest =>
    if String.eqb (Name tool) name
    then Function tool argsJSON
    else executeIn rest name argsJSON
  end.

Definition ExecuteToolByName (name argsJSON : string) : M World (Result string) :=
  executeIn GetAllToolDefinitions name argsJSON.

End Registry.

(** [ResolveBinary], over [exec.LookPath] as a predicate on names. *)
Definition ResolveBinary (LookPath : string -> bool) (bin : string) : string :=
  if LookPath bin then bin
  else if String.eqb bin "python" then
    (if LookPath "python3" then "python3" else bin)
  else if String.eqb bin "pip" then
    (if LookPath "pip3" then "pip3" else bin)
  else bin.

End agent.

(** ** Package [ui]: messages and commands *)

Module ui.

Inductive SessionState : Type := StateIdle | StateThinking.

(** The messages [Update] receives. [KeyMsg] carries what [msg.String()]
    returns and the [Alt] flag; [OtherMsg] stands for every other message
    of the framework (spinner ticks, cursor blinks, ...). *)
Inductive Msg : Type :=
| WindowControlMsg (Action Target ToolCallID : string) (History : Conversation)
| WindowSizeMsg (Width Height : Z)
| KeyMsg (key : string) (Alt : bool)
| AiResponseMsg (Content : string) (History : Conversation)
| AiCompleteMsg
| ErrMsg (e : error)
| RunCommandMsg (Command : string) (Args : list string) (ToolCallID : string)
                (History : Conversation)
| ProcessOutputMsg (line : string)
| ProcessDoneMsg (Err : option error) (ToolCallID : string)
| OtherMsg (tag : nat).

(** ** The process runner, [RunProcessCmd] *)

(** What the operating system answers: whether a name is on the path, and
    for a command either a start error or a process, given by the lines it
    writes on each pipe and the error [cmd.Wait] returns ([None] is nil). *)
Record Process : Type := {
  stdout : list string;
  stderr : list string;
  wait : option error
}.

Record OS : Type := {
  LookPath : string -> bool;
  Start : string -> list string -> Result Process
}.

(** A run of the command function: the line streams of the reader routines
    it started (each publishes its lines on [sub], in order) and the one
    message it returns. *)
Record ProcessRun : Type := {
  readers : list (list string);
  returned : Msg
}.

Definition RunProcessCmd (os : OS) (command : string) (args : list string)
           (toolCallID : string) : ProcessRun :=
  let resolvedCmd := agent.ResolveBinary (LookPath os) command in
  match Start os resolvedCmd args with
  | Err err =>
    {| readers := []; returned := ProcessDoneMsg (Some err) toolCallID |}
  | Ok p =>
    {| readers := [stdout p; stderr p];
       returned := ProcessDoneMsg (wait p) toolCallID |}
  end.

(** The output events the consumer of [sub] can see: each is the next line
    of one reader, in any interleaving, up to any point. *)
Inductive published : list (list string) -> list Msg -> Prop :=
| published_nil : forall rs, published rs []
| published_line : forall before l ls after evs,
    published (before ++ ls :: after) evs ->
    published (before ++ (l :: ls) :: after) (ProcessOutputMsg l :: evs).

(** ** The agent loop, [InvokeAI] *)

Section AgentLoop.

Variable World : Type.

(** What the loop calls outside the repository: the environment, the
    completion client, [json.Unmarshal] into the two argument structs
    ([None] when it returns an error, which the loop only tests against
    nil), and the tool bodies. *)
Record Platform : Type := {
  Getenv : string -> World -> string;
  CreateChatCompletion :
    openai.ChatCompletionRequest -> M World (Result openai.ChatCompletionResponse);
  UnmarshalCommand : string -> option (string * list string);
  UnmarshalWindow : string -> option (string * string);
  toolFunctions : agent.ToolFunctions World
}.

Variable P : Platform.

(** The world together with the requests sent to the endpoint so far. *)
Record Net : Type := {
  world : World;
  sent : list openai.ChatCompletionRequest
}.

Definition inWorld {A : Type} (c : M World A) : M Net A :=
  fun s => let (a, w) := c (world s) in (a, {| world := w; sent := sent s |}).

Definition callClient (req : openai.ChatCompletionRequest)
  : M Net (Result openai.ChatCompletionResponse) :=
  fun s =>
    let (r, w) := CreateChatCompletion P req (world s) in
    (r, {| world := w; sent := sent s ++ [req] |}).

Definition convertToolsToOpenAI (defs : list (agent.ToolDefinition World))
  : list openai.Tool :=
  map (fun def => {| openai.ToolName := agent.Name def;
                     openai.ToolDescription := agent.Description def |}) defs.

(** The two [if] blocks at the head of the loop over the tool calls: the
    message to return for a call the caller has to carry out, or [None]
    when control reaches "Execute other tools normally". *)
Definition suspendOn (toolCall : openai.ToolCall) (messages : Conversation) : option Msg :=
  let fn := openai.Function toolCall in
  let onCommand :=
    if String.eqb (openai.Name fn) "run_command" then
      match UnmarshalCommand P (openai.Arguments fn) with
      | Some (command, args) =>
        Some (RunCommandMsg command args (openai.ID toolCall) messages)
      | None => None
      end
    else None in
  match onCommand with
  | Some msg => Some msg
  | None =>
    if String.eqb (openai.Name fn) "manage_window" then
      match UnmarshalWindow P (openai.Arguments fn) with
      | Some (action, target) =>
        Some (WindowControlMsg action target (openai.ID toolCall) messages)
      | None => None
      end
    else None
  end.

Definition toolResult (r : Result string) : string :=
  match r with
  | Err err => ("Error executing tool: " ++ err)%string
  | Ok result => result
  end.

Definition toolMsg (toolCall : openai.ToolCall) (result : string)
  : openai.ChatCompletionMessage :=
  {| openai.Role := openai.ChatMessageRoleTool;
     openai.Content := result;
     openai.ToolCalls := [];
     openai.ToolCallID := openai.ID toolCall |}.

(** How the loop over the tool calls ends: with a [return], or by falling
    out of the loop with the messages built. *)
Inductive Flow : Type :=
| Return (msg : Msg)
| Continue (messages : Conversation).

Local Open Scope monad_scope.

Fixpoint executeToolCalls (calls : list openai.ToolCall) (messages : Conversation)
  : M Net Flow :=
  match calls with
  | [] => ret (Continue messages)
  | toolCall :: rest =>
    match suspendOn toolCall messages with
    | Some msg => ret (Return msg)
    | None =>
      r <- inWorld (agent.ExecuteToolByName (toolFunctions P)
                      (openai.Name (openai.Function toolCall))
                      (openai.Arguments (openai.Function toolCall))) ;;
      executeToolCalls rest (messages ++ [toolMsg toolCall (toolResult r)])
    end
  end.

Definition assistantMsg (content : string) (calls : list openai.ToolCall)
  : openai.ChatCompletionMessage :=
  {| openai.Role := openai.ChatMessageRoleAssistant;
     openai.Content := content;
     openai.ToolCalls := calls;
     openai.ToolCallID := "" |}.

Definition errMaxIterations : error :=
  "max iterations reached - possible infinite loop".

(** The request of one iteration: the model, the messages so far and
    the tool list. *)
Definition request (modelName : string) (messages : Conversation)
  : openai.ChatCompletionRequest :=
  {| openai.Model := modelName;
     openai.Messages := messages;
     openai.Tools :=
       convertToolsToOpenAI (agent.GetAllToolDefinitions (toolFunctions P)) |}.

(** The [for iteration := 0; iteration < 10; iteration++] loop, with
    [remaining] = 10 - [iteration]. *)
Fixpoint agenticLoop (remaining : nat) (modelName : string) (messages : Conversation)
  : M Net Msg :=
  match remaining with
  | O => ret (ErrMsg errMaxIterations)
  | S remaining' =>
    resp <- callClient (request modelName messages) ;;
    match resp with
    | Err err => ret (ErrMsg ("API error: " ++ err)%string)
    | Ok resp =>
      match openai.Choices resp with
      | [] => ret (ErrMsg "no response from model")
      | choice :: _ =>
        let message := openai.Message choice in
        match openai.ToolCalls message with
        | _ :: _ =>
          let messages :=
            messages ++ [assistantMsg (openai.Content message)
                                      (openai.ToolCalls message)] in
          flow <- executeToolCalls (openai.ToolCalls message) messages ;;
          match flow with
          | Return msg => ret msg
          | Continue messages => agenticLoop remaining' modelName messages
          end
        | [] =>
          let content := openai.Content message in
          ret (AiResponseMsg content (messages ++ [assistantMsg content []]))
        end
      end
    end
  end.

Definition maxIterations : nat := 10.

(** The function [InvokeAI] returns, run on the history of the model it
    was called on. *)
Definition InvokeAI (history : Conversation) : M Net Msg :=
  fun s =>
    let modelName := Getenv P "PROVIDER_MODEL" (world s) in
    if String.eqb modelName "" then
      (ErrMsg "PROVIDER_MODEL not set in .env", s)
    else agenticLoop maxIterations modelName history s.

End AgentLoop.

(** ** The UI state machine, [Update] *)

#[local] Set Warnings "-register-all".

(** The commands [Update] hands to the runtime. [InvokeAICmd h] is
    [m.InvokeAI()] taken on a model whose history is [h]; [Emit msg] is a
    function literal returning [msg]; [tiCmd], [vpCmd] and [spCmd] are
    whatever the text area, the viewport and the spinner returned. *)
Inductive Cmd : Type :=
| Nil
| Quit
| Emit (msg : Msg)
| InvokeAICmd (history : Conversation)
| RunProcess (command : string) (args : list string) (toolCallID : string)
| WaitForProcessOutput
| tiCmd
| vpCmd
| spCmd
| Batch (cmds : list Cmd).

(** The text area of the input line, a component of the UI library: a
    state, the text it holds, and what its methods do. *)
Record TextArea : Type := {
  textarea : Type;
  Value : textarea -> string;
  SetValue : string -> textarea -> textarea;
  Reset : textarea -> textarea;
  SetWidth : Z -> textarea -> textarea;
  UpdateInput : textarea -> Msg -> textarea
}.

Definition newline : string := String (ascii_of_nat 10) EmptyString.

Section StateMachine.

Variable TA : TextArea.

(** The fields of [Model] that the transitions read. The viewports and
    the spinner only hold what is drawn; [Client], [ProcessChan] and
    [Filtered] are never changed by [Update]. *)
Record Model : Type := {
  State : SessionState;
  Input : textarea TA;
  Files : list string;
  History : Conversation;
  PendingQueue : list string;
  ProcessOutput : string;
  ShowAutocomplete : bool;
  AutocompleteIdx : Z;
  AutocompleteList : list string;
  Width : Z;
  Height : Z;
  ShowSidebar : bool
}.

Definition setState (v : SessionState) (m : Model) : Model :=
  {| State := v; Input := Input m; Files := Files m; History := History m;
     PendingQueue := PendingQueue m; ProcessOutput := ProcessOutput m;
     ShowAutocomplete := ShowAutocomplete m;
     AutocompleteIdx := AutocompleteIdx m;
     AutocompleteList := AutocompleteList m;
     Width := Width m; Height := Height m; ShowSidebar := ShowSidebar m |}.

Definition setInput (v : textarea TA) (m : Model) : Model :=
  {| State := State m; Input := v; Files := Files m; History := History m;
     PendingQueue := PendingQueue m; ProcessOutput := ProcessOutput m;
     ShowAutocomplete := ShowAutocomplete m;
     AutocompleteIdx := AutocompleteIdx m;
     AutocompleteList := AutocompleteList m;
     Width := Width m; Height := Height m; ShowSidebar := ShowSidebar m |}.

Definition setHistory (v : Conversation) (m : Model) : Model :=
  {| State := State m; Input := Input m; Files := Files m; History := v;
     PendingQueue := PendingQueue m; ProcessOutput := ProcessOutput m;
     ShowAutocomplete := ShowAutocomplete m;
     AutocompleteIdx := AutocompleteIdx m;
     AutocompleteList := AutocompleteList m;
     Width := Width m; Height := Height m; ShowSidebar := ShowSidebar m |}.

Definition setPendingQueue (v : list string) (m : Model) : Model :=
  {| State := State m; Input := Input m; Files := Files m; History := History m;
     PendingQueue := v; ProcessOutput := ProcessOutput m;
     ShowAutocomplete := ShowAutocomplete m;
     AutocompleteIdx := AutocompleteIdx m;
     AutocompleteList := AutocompleteList m;
     Width := Width m; Height := Height m; ShowSidebar := ShowSidebar m |}.

Definition setProcessOutput (v : string) (m : Model) : Model :=
  {| State := State m; Input := Input m; Files := Files m; History := History m;
     PendingQueue := PendingQueue m; ProcessOutput := v;
     ShowAutocomplete := ShowAutocomplete m;
     AutocompleteIdx := AutocompleteIdx m;
     AutocompleteList := AutocompleteList m;
     Width := Width m; Height := Height m; ShowSidebar := ShowSidebar m |}.

Definition setShowAutocomplete (v : bool) (m : Model) : Model :=
  {| State := State m; Input := Input m; Files := Files m; History := History m;
     PendingQueue := PendingQueue m; ProcessOutput := ProcessOutput m;
     ShowAutocomplete := v;
     AutocompleteIdx := AutocompleteIdx m;
     AutocompleteList := AutocompleteList m;
     Width := Width m; Height := Height m; ShowSidebar := ShowSidebar m |}.

Definition setAutocompleteIdx (v : Z) (m : Model) : Model :=
  {| State := State m; Input := Input m; Files := Files m; History := History m;
     PendingQueue := PendingQueue m; ProcessOutput := ProcessOutput m;
     ShowAutocomplete := ShowAutocomplete m;
     AutocompleteIdx := v;
     AutocompleteList := AutocompleteList m;
     Width := Width m; Height := Height m; ShowSidebar := ShowSidebar m |}.

Definition setAutocompleteList (v : list string) (m : Model) : Model :=
  {| State := State m; Input := Input m; Files := Files m; History := History m;
     PendingQueue := PendingQueue m; ProcessOutput := ProcessOutput m;
     ShowAutocomplete := ShowAutocomplete m;
     AutocompleteIdx := AutocompleteIdx m;
     AutocompleteList := v;
     Width := Width m; Height := Height m; ShowSidebar := ShowSidebar m |}.

Definition setSize (w h : Z) (m : Model) : Model :=
  {| State := State m; Input := Input m; Files := Files m; History := History m;
     PendingQueue := PendingQueue m; ProcessOutput := ProcessOutput m;
     ShowAutocomplete := ShowAutocomplete m;
     AutocompleteIdx := AutocompleteIdx m;
     AutocompleteList := AutocompleteList m;
     Width := w; Height := h; ShowSidebar := ShowSidebar m |}.

Definition setShowSidebar (v : bool) (m : Model) : Model :=
  {| State := State m; Input := Input m; Files := Files m; History := History m;
     PendingQueue := PendingQueue m; ProcessOutput := ProcessOutput m;
     ShowAutocomplete := ShowAutocomplete m;
     AutocompleteIdx := AutocompleteIdx m;
     AutocompleteList := AutocompleteList m;
     Width := Width m; Height := Height m; ShowSidebar := v |}.


(** *** Message tagging, [resolveFileTags] *)

(** The inner loop with its [break]: whether [path] is a known file. *)
Definition knownFile (files : list string) (path : string) : bool :=
  existsb (fun f => String.eqb f path) files.

Fixpoint referenced (files words : list string) : list string :=
  match words with
  | [] => []
  | word :: rest =>
    if strings.HasPrefix word "@" then
      let path := strings.TrimPrefix word "@" in
      if knownFile files path
      then path :: referenced files rest
      else referenced files rest
    else referenced files rest
  end.

Definition resolveFileTags (m : Model) (input : string) : string :=
  let words := strings.Fields input in
  match referenced (Files m) words with
  | [] => input
  | referencedFiles =>
    (input ++ newline ++ newline ++ "[User has referenced these files: "
       ++ strings.Join referencedFiles ", "
       ++ ". Use the read_file tool to view their contents.]")%string
  end.

(** *** Autocomplete *)

(** [words[len(words)-1]], when [len(words) > 0]. *)
Fixpoint lastWord (words : list string) : option string :=
  match words with
  | [] => None
  | [w] => Some w
  | _ :: rest => lastWord rest
  end.

(** [words[len(words)-1] = w] *)
Fixpoint setLastWord (words : list string) (w : string) : list string :=
  match words with
  | [] => []
  | [_] => [w]
  | x :: rest => x :: setLastWord rest w
  end.

(** The loop that fills [AutocompleteList], with its [break] at 10;
    [acc] is the list built so far. *)
Fixpoint collectMatches (files : list string) (search : string)
         (acc : list string) : list string :=
  match files with
  | [] => acc
  | f :: rest =>
    if String.eqb search "" || strings.Contains f search then
      let acc := acc ++ [f] in
      if Nat.leb 10 (length acc) then acc
      else collectMatches rest search acc
    else collectMatches rest search acc
  end.

Definition len {A : Type} (l : list A) : Z := Z.of_nat (length l).

(** "Check if we should show autocomplete", the block after the text
    area has seen the message. *)
Definition refreshAutocomplete (m : Model) : Model :=
  let inputVal := Value TA (Input m) in
  let words := strings.Fields inputVal in
  match lastWord words with
  | Some lastWord =>
    if strings.HasPrefix lastWord "@" then
      let search := strings.TrimPrefix lastWord "@" in
      if knownFile (Files m) search then setShowAutocomplete false m
      else
        let m := setAutocompleteList (collectMatches (Files m) search []) m in
        if (len (AutocompleteList m) >? 0)%Z then
          let m := setShowAutocomplete true m in
          if (AutocompleteIdx m >=? len (AutocompleteList m))%Z
          then setAutocompleteIdx 0%Z m
          else m
        else setShowAutocomplete false m
    else setShowAutocomplete false m
  | None => setShowAutocomplete false m
  end.

(** [l[i]]; [None] is the run-time panic of an index out of range. *)
Definition index (l : list string) (i : Z) : option string :=
  if (i <? 0)%Z then None else nth_error l (Z.to_nat i).

(** The body shared by "tab" and "enter" when the candidates are shown:
    the last word of the input becomes the selected file. *)
Definition acceptCandidate (m : Model) : option (Model * Cmd) :=
  match index (AutocompleteList m) (AutocompleteIdx m) with
  | None => None
  | Some selected =>
    let currentVal := Value TA (Input m) in
    let words := strings.Fields currentVal in
    let m :=
      match words with
      | [] => m
      | _ :: _ =>
        let words := setLastWord words ("@" ++ selected)%string in
        setInput (SetValue TA (strings.Join words " " ++ " ")%string (Input m)) m
      end in
    Some (setShowAutocomplete false m, Nil)
  end.

Definition userMsg (content : string) : openai.ChatCompletionMessage :=
  {| openai.Role := openai.ChatMessageRoleUser;
     openai.Content := content;
     openai.ToolCalls := [];
     openai.ToolCallID := "" |}.

Definition toolResultMsg (content toolCallID : string)
  : openai.ChatCompletionMessage :=
  {| openai.Role := openai.ChatMessageRoleTool;
     openai.Content := content;
     openai.ToolCalls := [];
     openai.ToolCallID := toolCallID |}.

Definition errorMsg (e : error) : openai.ChatCompletionMessage :=
  {| openai.Role := openai.ChatMessageRoleAssistant;
     openai.Content := ("**Error:** " ++ e)%string;
     openai.ToolCalls := [];
     openai.ToolCallID := "" |}.

(** The branch of "enter" that submits the input. *)
Definition submit (m : Model) : Model * Cmd :=
  let userMsg_ := Value TA (Input m) in
  let finalContent := resolveFileTags m userMsg_ in
  let m := setHistory (History m ++ [userMsg finalContent]) m in
  let m := setInput (Reset TA (Input m)) m in
  match State m with
  | StateIdle =>
    let m := setState StateThinking m in
    (m, Batch [InvokeAICmd (History m)])
  | StateThinking =>
    let m := setPendingQueue (PendingQueue m ++ [finalContent]) m in
    (m, Batch [])
  end.

(** From [m.Input, tiCmd = m.Input.Update(msg)] to the end of [Update];
    [cmds] is what the [switch] collected. *)
Definition finish (m : Model) (msg : Msg) (cmds : list Cmd) : Model * Cmd :=
  let m := setInput (UpdateInput TA (Input m) msg) m in
  let m := refreshAutocomplete m in
  let spCmd :=
    match State m with
    | StateThinking => spCmd
    | StateIdle => Nil
    end in
  (m, Batch (cmds ++ [tiCmd; vpCmd; spCmd])).

Definition processResult (err : option error) : string :=
  match err with
  | None => "Process finished successfully."
  | Some e => ("Process exited with error: " ++ e)%string
  end.

Definition fullLog (output result : string) : string :=
  ("Process Output:" ++ newline ++ "```" ++ newline ++ output
     ++ "```" ++ newline ++ result)%string.

(** [m.History[len(m.History)-1].Content = content] *)
Fixpoint setLastContent (h : Conversation) (content : string) : Conversation :=
  match h with
  | [] => []
  | [x] => [ {| openai.Role := openai.Role x;
                openai.Content := content;
                openai.ToolCalls := openai.ToolCalls x;
                openai.ToolCallID := openai.ToolCallID x |} ]
  | x :: rest => x :: setLastContent rest content
  end.

Definition onKey (m : Model) (key : string) (alt : bool) (msg : Msg)
  : option (Model * Cmd) :=
  if String.eqb key "ctrl+c" || String.eqb key "esc" then
    if ShowAutocomplete m
    then Some (setShowAutocomplete false m, Nil)
    else Some (m, Quit)
  else if String.eqb key "up" then
    if ShowAutocomplete m && (AutocompleteIdx m >? 0)%Z
    then Some (setAutocompleteIdx (AutocompleteIdx m - 1)%Z m, Nil)
    else Some (finish m msg [])
  else if String.eqb key "down" then
    if ShowAutocomplete m
       && (AutocompleteIdx m <? len (AutocompleteList m) - 1)%Z
    then Some (setAutocompleteIdx (AutocompleteIdx m + 1)%Z m, Nil)
    else Some (finish m msg [])
  else if String.eqb key "tab" then
    if ShowAutocomplete m && (len (AutocompleteList m) >? 0)%Z
    then acceptCandidate m
    else Some (finish m msg [])
  else if String.eqb key "enter" then
    if ShowAutocomplete m && (len (AutocompleteList m) >? 0)%Z
    then acceptCandidate m
    else if negb alt && negb (String.eqb (Value TA (Input m)) "")
    then Some (submit m)
    else Some (finish m msg [])
  else Some (finish m msg []).

(** [Update]; [None] is a run-time panic. Writing the session file on
    quit and redrawing the chat leave the fields above as they are. *)
Definition Update (m : Model) (msg : Msg) : option (Model * Cmd) :=
  match msg with
  | WindowControlMsg action _ toolCallID history =>
    let m :=
      if String.eqb action "open" then setShowSidebar true m
      else if String.eqb action "close" then setShowSidebar false m
      else m in
    let result := ("Window action '" ++ action ++ "' triggered.")%string in
    let m := setHistory history m in
    let m := setHistory (History m ++ [toolResultMsg result toolCallID]) m in
    let m := setState StateThinking m in
    Some (m, Batch [Emit (WindowSizeMsg (Width m) (Height m));
                    InvokeAICmd (History m)])
  | WindowSizeMsg width height =>
    let m := setSize width height m in
    let m := setInput (SetWidth TA (wrapInt (width - 4)) (Input m)) m in
    Some (finish m msg [])
  | KeyMsg key alt => onKey m key alt msg
  | AiResponseMsg _ history =>
    let m := setHistory history m in
    Some (finish m msg [Emit AiCompleteMsg])
  | AiCompleteMsg =>
    let m := setState StateIdle m in
    match PendingQueue m with
    | nextContent :: queue =>
      let m := setPendingQueue queue m in
      let m := setHistory (History m ++ [userMsg nextContent]) m in
      let m := setState StateThinking m in
      Some (finish m msg [InvokeAICmd (History m)])
    | [] => Some (finish m msg [])
    end
  | ErrMsg e =>
    let m := setHistory (History m ++ [errorMsg e]) m in
    let m := setState StateIdle m in
    Some (finish m msg [])
  | RunCommandMsg command args toolCallID history =>
    let m := setHistory history m in
    let m := setProcessOutput "" m in
    Some (m, Batch [RunProcess command args toolCallID; WaitForProcessOutput])
  | ProcessOutputMsg line =>
    let m := setProcessOutput (ProcessOutput m ++ line ++ newline)%string m in
    Some (m, WaitForProcessOutput)
  | ProcessDoneMsg err toolCallID =>
    let result := processResult err in
    let m := setHistory (History m ++ [toolResultMsg result toolCallID]) m in
    let m :=
      if negb (ShowSidebar m)
      then setHistory (setLastContent (History m)
                         (fullLog (ProcessOutput m) result)) m
      else m in
    let m := setProcessOutput "" m in
    let m := setState StateThinking m in
    Some (m, InvokeAICmd (History m))
  | OtherMsg _ => Some (finish m msg [])
  end.

(** [InitialModel], for the fields kept. *)
Definition InitialModel (input : textarea TA) (files : list string)
           (systemPrompt : string) : Model :=
  {| State := StateIdle;
     Input := input;
     Files := files;
     History :=
       if String.eqb systemPrompt "" then []
       else [ {| openai.Role := "system";
                 openai.Content := systemPrompt;
                 openai.ToolCalls := [];
                 openai.ToolCallID := "" |};
              userMsg "Hello! Please introduce yourself and your tools briefly." ];
     PendingQueue := [];
     ProcessOutput := "";
     ShowAutocomplete := false;
     AutocompleteIdx := 0%Z;
     AutocompleteList := [];
     Width := 0%Z;
     Height := 0%Z;
     ShowSidebar := false |}.

End StateMachine.

End ui.

(** ** Package [agent]: the bodies of the tools *)

Module tools.

Section Bodies.

Variable World : Type.

(** What the tool bodies call outside the repository: [json.Unmarshal]
    into each input struct (the fields in their order), [utf8.Valid],
    [filepath.Dir], and the operating system: file status (only the size
    is read), reading and writing a file, creating directories, looking a
    program up, running one to its combined output, printing. *)
Record Host : Type := {
  UnmarshalReadFileInput : string -> Result string;
  UnmarshalWriteFileInput : string -> Result (string * string * string);
  UnmarshalEditFileInput : string -> Result (string * string * string);
  UnmarshalRunCommandInput : string -> Result (string * list string);
  UnmarshalManageWindowInput : string -> Result (string * string);
  utf8Valid : string -> bool;
  filepathDir : string -> string;
  Stat : string -> M World (Result Z);
  osReadFile : string -> M World (Result string);
  osWriteFile : string -> string -> M World (option error);
  MkdirAll : string -> M World (option error);
  LookPath : string -> World -> bool;
  CombinedOutput : string -> list string -> M World (string * option error);
  Printf : string -> M World unit
}.

Variable H : Host.

Local Open Scope monad_scope.

(** [%d] of a length. *)
Definition Itoa (n : nat) : string := NilEmpty.string_of_uint (Nat.to_uint n).

Definition accessDenied : error := "access denied: .env files are protected".

Definition ReadFile (input : string) : M World (Result string) :=
  match UnmarshalReadFileInput H input with
  | Err err => ret (Err err)
  | Ok path =>
    if strings.HasSuffix path ".env" then ret (Err accessDenied)
    else
      info <- Stat H path ;;
      match info with
      | Err err => ret (Err err)
      | Ok size =>
        if (size >? 100 * 1024)%Z
        then ret (Err "skipped: file too large (>100KB)")
        else
          content <- osReadFile H path ;;
          match content with
          | Err err => ret (Err err)
          | Ok content =>
            if negb (utf8Valid H content)
            then ret (Err "skipped: appears to be binary")
            else
              ret (Ok ("File: " ++ path ++ ui.newline
                         ++ "Size: " ++ Itoa (String.length content) ++ " bytes"
                         ++ ui.newline
                         ++ "Lines: " ++ Itoa (strings.Count content ui.newline + 1)
                         ++ ui.newline ++ ui.newline ++ content)%string)
          end
      end
  end.

(** [%v] of a slice of strings. *)
Definition showArgs (args : list string) : string :=
  ("[" ++ strings.Join args " " ++ "]")%string.

Definition RunCommand (input : string) : M World (Result string) :=
  match UnmarshalRunCommandInput H input with
  | Err err => ret (Err err)
  | Ok (command, args) =>
    fun w =>
      let cmdName := agent.ResolveBinary (fun bin => LookPath H bin w) command in
      (_ <- Printf H ("[Exec] " ++ cmdName ++ " " ++ showArgs args ++ ui.newline)%string ;;
       out <- CombinedOutput H cmdName args ;;
       match out with
       | (output, Some err) =>
         ret (Ok ("Error: " ++ err ++ ui.newline ++ "Output:" ++ ui.newline
                    ++ output)%string)
       | (output, None) => ret (Ok output)
       end) w
  end.

Definition EditFile (input : string) : M World (Result string) :=
  match UnmarshalEditFileInput H input with
  | Err err => ret (Err err)
  | Ok (path, searchText, replaceText) =>
    if strings.HasSuffix path ".env" then ret (Err accessDenied)
    else
      contentBytes <- osReadFile H path ;;
      match contentBytes with
      | Err err => ret (Err ("failed to read file: " ++ err)%string)
      | Ok content =>
        if negb (strings.Contains content searchText)
        then ret (Err ("search block not found in " ++ path
                         ++ ". Ensure exact match (including whitespace).")%string)
        else
          let newContent := strings.ReplaceFirst content searchText replaceText in
          written <- osWriteFile H path newContent ;;
          match written with
          | Some err => ret (Err ("failed to write file: " ++ err)%string)
          | None => ret (Ok ("Successfully edited " ++ path)%string)
          end
      end
  end.

Definition WriteFile (input : string) : M World (Result string) :=
  match UnmarshalWriteFileInput H input with
  | Err err => ret (Err err)
  | Ok (path, content, _) =>
    if strings.HasSuffix path ".env" then ret (Err accessDenied)
    else
      let dir := filepathDir H path in
      made <- MkdirAll H dir ;;
      match made with
      | Some err => ret (Err ("failed to create directory: " ++ err)%string)
      | None =>
        written <- osWriteFile H path content ;;
        match written with
        | Some err => ret (Err ("failed to write file: " ++ err)%string)
        | None =>
          ret (Ok ("Successfully wrote to " ++ path ++ " (Length: "
                     ++ Itoa (String.length content) ++ " characters)")%string)
        end
      end
  end.

Definition ManageWindow (input : string) : M World (Result string) :=
  match UnmarshalManageWindowInput H input with
  | Err err => ret (Err err)
  | Ok (action, target) =>
    if negb (String.eqb action "open") && negb (String.eqb action "close")
    then ret (Err ("invalid action: " ++ action)%string)
    else ret (Ok ("Window action '" ++ action ++ "' triggered for target '"
                    ++ target ++ "'")%string)
  end.

End Bodies.

End tools.

(** ** Package [main]: the file list *)

Module main.

Section FileList.

(** [strings.TrimSpace], of the standard library. *)
Variable TrimSpace : string -> string.

(** The test of the loop of [listProjectFiles], on a trimmed line. *)
Definition listed (l : string) : bool :=
  negb (String.eqb l "")
  && negb (strings.HasPrefix l ".git")
  && negb (String.eqb l "agent")
  && negb (String.eqb l "trace")
  && negb (strings.HasPrefix l "bin/")
  && negb (String.eqb l ".env").

Fixpoint clean (lines : list string) : list string :=
  match lines with
  | [] => []
  | l :: rest =>
    let l := TrimSpace l in
    if listed l then l :: clean rest else clean rest
  end.

(** [listProjectFiles], on what [cmd.Output()] returned for
    [git ls-files -c -o --exclude-standard]. *)
Definition listProjectFiles (output : Result string) : list string * option error :=
  match output with
  | Err err => ([], Some err)
  | Ok out => (clean (strings.Split out ui.newline), None)
  end.

End FileList.

End main.

(** ** Notions the statements below use *)


Section Kinds.

Variable World : Type.
Variable P : ui.Platform World.

(** The request for a call of an out-of-band kind: the process execution
    request for a [run_command] call, the window control request for a
    [manage_window] call, with the fields decoded from the payload, the id
    of the call and the history given. *)
Definition requestFor (c : openai.ToolCall) (history : Conversation) (msg : ui.Msg)
  : Prop :=
  (exists command args,
      openai.Name (openai.Function c) = "run_command"
      /\ ui.UnmarshalCommand P (openai.Arguments (openai.Function c))
         = Some (command, args)
      /\ msg = ui.RunCommandMsg command args (openai.ID c) history)
  \/ (exists action target,
         openai.Name (openai.Function c) = "manage_window"
         /\ ui.UnmarshalWindow P (openai.Arguments (openai.Function c))
            = Some (action, target)
         /\ msg = ui.WindowControlMsg action target (openai.ID c) history).

(** A call of an out-of-band kind: it names one of the two tools and its
    payload decodes. *)
Definition outOfBand (c : openai.ToolCall) : Prop :=
  exists msg, requestFor c [] msg.

(** Any other call; the loop executes it itself through the registry. *)
Definition synchronous (c : openai.ToolCall) : Prop :=
  ~ outOfBand c.

(** A call named as one of the two out-of-band tools whose argument
    payload does not decode. *)
Definition malformed (c : openai.ToolCall) : Prop :=
  (openai.Name (openai.Function c) = "run_command"
   /\ ui.UnmarshalCommand P (openai.Arguments (openai.Function c)) = None)
  \/ (openai.Name (openai.Function c) = "manage_window"
      /\ ui.UnmarshalWindow P (openai.Arguments (openai.Function c)) = None).

(** The calls [calls] run through the registry one after the other from
    the world [w], each in the world the one before left: [results] holds
    one tool message for each call, in order, under the id of the call,
    whose content is the text the tool returned, or for a tool that failed
    with [err] the text "Error executing tool: err"; [w'] is the world the
    last one left. *)
Inductive synchronousRun
  : list openai.ToolCall -> World -> Conversation -> World -> Prop :=
| synchronousRun_nil : forall w, synchronousRun [] w [] w
| synchronousRun_ok : forall c calls w result w1 results w2,
    agent.ExecuteToolByName (ui.toolFunctions P)
      (openai.Name (openai.Function c)) (openai.Arguments (openai.Function c)) w
    = (Ok result, w1) ->
    synchronousRun calls w1 results w2 ->
    synchronousRun (c :: calls) w
      ({| openai.Role := openai.ChatMessageRoleTool;
          openai.Content := result;
          openai.ToolCalls := [];
          openai.ToolCallID := openai.ID c |} :: results) w2
| synchronousRun_err : forall c calls w err w1 results w2,
    agent.ExecuteToolByName (ui.toolFunctions P)
      (openai.Name (openai.Function c)) (openai.Arguments (openai.Function c)) w
    = (Err err, w1) ->
    synchronousRun calls w1 results w2 ->
    synchronousRun (c :: calls) w
      ({| openai.Role := openai.ChatMessageRoleTool;
          openai.Content := ("Error executing tool: " ++ err)%string;
          openai.ToolCalls := [];
          openai.ToolCallID := openai.ID c |} :: results) w2.

(** A reply that asks for tools, all of them synchronous. *)
Definition toolCallOnly (r : openai.ChatCompletionResponse) : Prop :=
  exists choice rest,
    openai.Choices r = choice :: rest
    /\ openai.ToolCalls (openai.Message choice) <> []
    /\ Forall synchronous (openai.ToolCalls (openai.Message choice)).

(** A reply without tool calls, with the given text. *)
Definition contentReply (content : string) (r : openai.ChatCompletionResponse) : Prop :=
  exists choice rest,
    openai.Choices r = choice :: rest
    /\ openai.ToolCalls (openai.Message choice) = []
    /\ openai.Content (openai.Message choice) = content.

End Kinds.

(** The tool messages left by the calls [calls]: one for each, in order,
    with the id of its call. *)
Definition toolResults (calls : list openai.ToolCall) (results : Conversation) : Prop :=
  map openai.ToolCallID results = map openai.ID calls
  /\ Forall (fun r => openai.Role r = openai.ChatMessageRoleTool) results.

(** The ids of the calls of the last assistant message of [h], [open] when
    it has none. *)
Fixpoint openCalls (open : list string) (h : Conversation) : list string :=
  match h with
  | [] => open
  | m :: rest =>
    if String.eqb (openai.Role m) openai.ChatMessageRoleAssistant
    then openCalls (map openai.ID (openai.ToolCalls m)) rest
    else openCalls open rest
  end.

(** Every tool message of [h] carries the id of a call of the nearest
    assistant message before it; [open] stands for the calls of an
    assistant message before [h]. *)
Fixpoint answersCalls (open : list string) (h : Conversation) : Prop :=
  match h with
  | [] => True
  | m :: rest =>
    if String.eqb (openai.Role m) openai.ChatMessageRoleTool
    then In (openai.ToolCallID m) open /\ answersCalls open rest
    else if String.eqb (openai.Role m) openai.ChatMessageRoleAssistant
         then answersCalls (map openai.ID (openai.ToolCalls m)) rest
         else answersCalls open rest
  end.

(** The text the output lines of a process make in the buffer. *)
Fixpoint linesText (lines : list string) : string :=
  match lines with
  | [] => ""
  | l :: rest => (l ++ ui.newline ++ linesText rest)%string
  end.

Section Session.

Variable TA : ui.TextArea.

(** Two states with the same session: history, queue, phase, output
    buffer, sidebar flag and file list. *)
Definition sameSession (m m' : ui.Model TA) : Prop :=
  ui.History m' = ui.History m
  /\ ui.PendingQueue m' = ui.PendingQueue m
  /\ ui.State m' = ui.State m
  /\ ui.ProcessOutput m' = ui.ProcessOutput m
  /\ ui.ShowSidebar m' = ui.ShowSidebar m
  /\ ui.Files m' = ui.Files m.

End Session.

(** A name the project file list may hold. *)
Definition projectFile (f : string) : Prop :=
  f <> "" /\ f <> ".env" /\ f <> "agent" /\ f <> "trace"
  /\ (forall rest, f <> (".git" ++ rest)%string)
  /\ (forall rest, f <> ("bin/" ++ rest)%string).

(** Histories each of which adds messages at the end of the one before,
    the first to [prev]. *)
Fixpoint extends (prev : Conversation) (hs : list Conversation) : Prop :=
  match hs with
  | [] => True
  | h :: rest => (exists more, more <> [] /\ h = prev ++ more) /\ extends h rest
  end.

(** One list inside another, in the same order. *)
Inductive Subsequence {A : Type} : list A -> list A -> Prop :=
| Subsequence_nil : forall l, Subsequence [] l
| Subsequence_take : forall x l1 l2, Subsequence l1 l2 -> Subsequence (x :: l1) (x :: l2)
| Subsequence_skip : forall x l1 l2, Subsequence l1 l2 -> Subsequence l1 (x :: l2).

Section Invariant.

Variable TA : ui.TextArea.

(** While the candidates are shown there is one under the selection. *)
Definition autocompleteOK (m : ui.Model TA) : Prop :=
  ui.ShowAutocomplete m = true ->
  ui.AutocompleteList m <> []
  /\ (0 <= ui.AutocompleteIdx m < ui.len (ui.AutocompleteList m))%Z.

(** The same, with what keeps it true while the candidates are hidden:
    the selection never goes below zero. *)
Definition autocompleteInv (m : ui.Model TA) : Prop :=
  (0 <= ui.AutocompleteIdx m)%Z /\ autocompleteOK m.

(** The state after a sequence of messages; [None] if one of the
    transitions panics. *)
Fixpoint run (m : ui.Model TA) (msgs : list ui.Msg) : option (ui.Model TA) :=
  match msgs with
  | [] => Some m
  | msg :: rest =>
    match ui.Update m msg with
    | Some (m', _) => run m' rest
    | None => None
    end
  end.

End Invariant.

(** ** Stand-ins for the collaborators, to run the code on examples *)

Module Scripted.

(** A client that answers from a script: the world is the list of replies
    still to come, and a call past its end fails. *)
Definition World : Type := list (Result openai.ChatCompletionResponse).

Definition CreateChatCompletion (_ : openai.ChatCompletionRequest)
  : M World (Result openai.ChatCompletionResponse) :=
  fun w =>
    match w with
    | [] => (Err "EOF", [])
    | r :: rest => (r, rest)
    end.

Definition Getenv (name : string) (_ : World) : string :=
  if String.eqb name "PROVIDER_MODEL" then "gpt-4o" else "".

(** Decoders that know one payload, the empty object, which
    [json.Unmarshal] decodes to the zero value of any struct, and one
    malformed payload kind, everything else. *)
Definition UnmarshalCommand (args : string) : option (string * list string) :=
  if String.eqb args "{}" then Some ("", []) else None.

Definition UnmarshalWindow (args : string) : option (string * string) :=
  if String.eqb args "{}" then Some ("", "") else None.

Definition succeed (text : string) : agent.ToolFunction World :=
  fun _ w => (Ok text, w).

Definition fail (text : error) : agent.ToolFunction World :=
  fun _ w => (Err text, w).

Definition toolFunctions : agent.ToolFunctions World :=
  {| agent.ReadFile := fail "open notes.txt: no such file or directory";
     agent.ListFiles := succeed "Project";
     agent.RunCommand := fail "unexpected end of JSON input";
     agent.InitProject := succeed "Initialized project";
     agent.WriteFile := succeed "Successfully wrote";
     agent.EditFile := succeed "Successfully edited";
     agent.ManageWindow := fail "unexpected end of JSON input" |}.

Definition platform : ui.Platform World :=
  {| ui.Getenv := Getenv;
     ui.CreateChatCompletion := CreateChatCompletion;
     ui.UnmarshalCommand := UnmarshalCommand;
     ui.UnmarshalWindow := UnmarshalWindow;
     ui.toolFunctions := toolFunctions |}.

Definition call (id name args : string) : openai.ToolCall :=
  {| openai.ID := id;
     openai.Function := {| openai.Name := name; openai.Arguments := args |} |}.

Definition reply (content : string) (calls : list openai.ToolCall)
  : openai.ChatCompletionResponse :=
  {| openai.Choices :=
       [ {| openai.Message :=
              {| openai.Role := openai.ChatMessageRoleAssistant;
                 openai.Content := content;
                 openai.ToolCalls := calls;
                 openai.ToolCallID := "" |};
            openai.FinishReason := match calls with [] => "stop" | _ => "tool_calls" end |} ] |}.

(** A reply that only asks for the file list. *)
Definition listFilesReply : openai.ChatCompletionResponse :=
  reply "" [call "call_1" "list_files" "{}"].

Definition hello : Conversation :=
  [ {| openai.Role := openai.ChatMessageRoleUser;
       openai.Content := "hello";
       openai.ToolCalls := [];
       openai.ToolCallID := "" |} ].

(** A reply asking for the file list, then a command, then a file. *)
Definition mixedReply : openai.ChatCompletionResponse :=
  reply "" [ call "call_1" "list_files" "{}";
             call "call_2" "run_command" "{}";
             call "call_3" "read_file" "{}" ].

(** A reply asking for a file, which the scripted tool fails to open. *)
Definition readFileReply : openai.ChatCompletionResponse :=
  reply "" [call "call_1" "read_file" "{}"].

Definition start (script : World) : ui.Net World :=
  {| ui.world := script; ui.sent := [] |}.

(** A text area that is just its text: a key of one byte is typed at the
    end, nothing else changes it. *)
Definition textArea : ui.TextArea :=
  {| ui.textarea := string;
     ui.Value := fun t => t;
     ui.SetValue := fun v _ => v;
     ui.Reset := fun _ => "";
     ui.SetWidth := fun _ t => t;
     ui.UpdateInput := fun t msg =>
       match msg with
       | ui.KeyMsg key _ =>
         if Nat.eqb (String.length key) 1 then (t ++ key)%string else t
       | _ => t
       end |}.

(** A machine on which only [git] starts: it prints two lines and exits
    cleanly. *)
Definition os : ui.OS :=
  {| ui.LookPath := fun bin => String.eqb bin "git";
     ui.Start := fun bin _ =>
       if String.eqb bin "git"
       then Ok {| ui.stdout := ["a"; "b"]; ui.stderr := []; ui.wait := None |}
       else Err ("exec: " ++ bin ++ ": executable file not found in $PATH")%string |}.

Definition goFiles : list string := ["main.go"; "model.go"; "styles.go"].

Definition model (state : ui.SessionState) (input : string) : ui.Model textArea :=
  ui.setState state (ui.setInput (input : ui.textarea textArea)
                       (ui.InitialModel textArea ("" : ui.textarea textArea) goFiles "")).

End Scripted.
(** ** A file system in memory, to run the tool bodies on examples *)

Module InMemory.

(** The files, by path. *)
Definition World : Type := list (string * string).

Fixpoint lookup (path : string) (w : World) : option string :=
  match w with
  | [] => None
  | (p, content) :: rest =>
    if String.eqb p path then Some content else lookup path rest
  end.

Fixpoint store (path content : string) (w : World) : World :=
  match w with
  | [] => [(path, content)]
  | (p, c) :: rest =>
    if String.eqb p path then (p, content) :: rest
    else (p, c) :: store path content rest
  end.

Definition noSuchFile (op path : string) : error :=
  (op ++ " " ++ path ++ ": no such file or directory")%string.

Definition Stat (path : string) : M World (Result Z) :=
  fun w =>
    match lookup path w with
    | Some content => (Ok (Z.of_nat (String.length content)), w)
    | None => (Err (noSuchFile "stat" path), w)
    end.

Definition osReadFile (path : string) : M World (Result string) :=
  fun w =>
    match lookup path w with
    | Some content => (Ok content, w)
    | None => (Err (noSuchFile "open" path), w)
    end.

Definition osWriteFile (path content : string) : M World (option error) :=
  fun w => (None, store path content w).

(** JSON texts are written with [quote] for the double quote. *)
Definition quote : string := String (ascii_of_nat 34) EmptyString.

Definition member (key value : string) : string :=
  (quote ++ key ++ quote ++ ":" ++ quote ++ value ++ quote)%string.

Definition object (members : list string) : string :=
  ("{" ++ strings.Join members "," ++ "}")%string.

(** A decoder that knows the payloads of a table, each with the value
    [json.Unmarshal] gives for it, and takes any other text as cut short. *)
Definition decode {A : Type} (table : list (string * A)) (input : string) : Result A :=
  match find (fun e => String.eqb (fst e) input) table with
  | Some e => Ok (snd e)
  | None => Err "unexpected end of JSON input"
  end.

Definition readNotes : string := object [member "path" "notes.txt"].
Definition readEnv : string := object [member "path" "config/.env"].

(** The two edits of [TestEditFile]; "\n" is the escape, in the payload. *)
Definition editLine2 : string :=
  object [member "path" "notes.txt"; member "search_text" "Line 2\n";
          member "replace_text" "Line 2 Modified\n"].
Definition editNonExistent : string :=
  object [member "path" "notes.txt"; member "search_text" "NonExistent";
          member "replace_text" "Line 2 Modified\n"].

Definition writeOut : string :=
  object [member "path" "out/a.txt"; member "content" "hi"].

Definition runGit : string :=
  ("{" ++ quote ++ "command" ++ quote ++ ":" ++ quote ++ "git" ++ quote ++ ","
       ++ quote ++ "args" ++ quote ++ ":[" ++ quote ++ "status" ++ quote ++ "]}")%string.

Definition windowOpen : string := object [member "action" "open"].
Definition windowToggle : string := object [member "action" "toggle"].

Definition line (text : string) : string := (text ++ ui.newline)%string.

(** Texts of ASCII bytes are valid UTF-8; the stand-in for [utf8.Valid]
    accepts these only. *)
Fixpoint asciiOnly (s : string) : bool :=
  match s with
  | EmptyString => true
  | String c s' => Nat.ltb (nat_of_ascii c) 128 && asciiOnly s'
  end.

Definition host : tools.Host World :=
  {| tools.UnmarshalReadFileInput :=
       decode [(readNotes, "notes.txt"); (readEnv, "config/.env")];
     tools.UnmarshalWriteFileInput := decode [(writeOut, ("out/a.txt", "hi", ""))];
     tools.UnmarshalEditFileInput :=
       decode [(editLine2, ("notes.txt", line "Line 2", line "Line 2 Modified"));
               (editNonExistent, ("notes.txt", "NonExistent", line "Line 2 Modified"))];
     tools.UnmarshalRunCommandInput := decode [(runGit, ("git", ["status"]))];
     tools.UnmarshalManageWindowInput :=
       decode [(windowOpen, ("open", "")); (windowToggle, ("toggle", ""))];
     tools.utf8Valid := asciiOnly;
     tools.filepathDir := fun path => if String.eqb path "out/a.txt" then "out" else ".";
     tools.Stat := Stat;
     tools.osReadFile := osReadFile;
     tools.osWriteFile := osWriteFile;
     tools.MkdirAll := fun _ w => (None, w);
     tools.LookPath := fun _ _ => false;
     tools.CombinedOutput := fun name _ w =>
       ("", Some ("exec: " ++ name ++ ": executable file not found in $PATH")%string, w);
     tools.Printf := fun _ w => (tt, w) |}.

(** The file of [TestEditFile]. *)
Definition notes : World :=
  [("notes.txt", (line "Line 1" ++ line "Line 2" ++ line "Line 3")%string)].

(** The registry over the bodies above, the two tools left out of
    [tools] failing. *)
Definition toolFunctions : agent.ToolFunctions World :=
  {| agent.ReadFile := tools.ReadFile host;
     agent.ListFiles := fun _ w => (Err "exit status 128", w);
     agent.RunCommand := tools.RunCommand host;
     agent.InitProject := fun _ w => (Err "git init failed: ", w);
     agent.WriteFile := tools.WriteFile host;
     agent.EditFile := tools.EditFile host;
     agent.ManageWindow := tools.ManageWindow host |}.

Definition toOption {A : Type} (r : Result A) : option A :=
  match r with
  | Ok a => Some a
  | Err _ => None
  end.

(** A platform whose loop decodes with the decoders of the tools, and
    whose endpoint is down. *)
Definition platform : ui.Platform World :=
  {| ui.Getenv := fun _ _ => "gpt-4o";
     ui.CreateChatCompletion := fun _ w => (Err "connection refused", w);
     ui.UnmarshalCommand := fun a => toOption (tools.UnmarshalRunCommandInput host a);
     ui.UnmarshalWindow := fun a => toOption (tools.UnmarshalManageWindowInput host a);
     ui.toolFunctions := toolFunctions |}.

(** Trimming of ASCII white space, the stand-in for [strings.TrimSpace]. *)
Fixpoint trimLeft (s : string) : string :=
  match s with
  | EmptyString => s
  | String c s' => if strings.asciiSpace c then trimLeft s' else s
  end.

Fixpoint reverse (s : string) : string :=
  match s with
  | EmptyString => s
  | String c s' => (reverse s' ++ String c EmptyString)%string
  end.

Definition TrimSpace (s : string) : string :=
  reverse (trimLeft (reverse (trimLeft s))).

(** An output of [git ls-files]. *)
Definition gitOutput : string :=
  (line "main.go" ++ line ".env" ++ line ".gitignore" ++ line "bin/trace"
        ++ line " notes.txt ")%string.

(** A call of [run_command] whose payload is cut short. *)
Definition brokenCall : openai.ToolCall :=
  {| openai.ID := "call_5";
     openai.Function := {| openai.Name := "run_command"; openai.Arguments := "{" |} |}.

End InMemory.

(** * Properties *)

(** ** The agent loop *)

Section AgentLoopFacts.

Variable World : Type.
Variable P : ui.Platform World.

Local Ltac run_bind :=
  unfold bind, ret, ui.inWorld, ui.callClient; simpl.

(** What the two [if] blocks decide, in terms of the kind of the call. *)
Lemma suspendOn_spec (c : openai.ToolCall) (messages : Conversation) :
  match ui.suspendOn P c messages with
  | Some msg => requestFor P c messages msg
  | None => synchronous P c
  end.
Proof.
  unfold ui.suspendOn, synchronous, outOfBand, requestFor.
  destruct (String.eqb_spec (openai.Name (openai.Function c)) "run_command")
    as [Hrun|Hrun].
  - destruct (ui.UnmarshalCommand P _) as [[command args]|] eqn:Hu.
    + left. exists command, args. repeat split; assumption.
    + rewrite Hrun. simpl.
      intros [msg [[x [y [_ [Hd _]]]]|[x [y [Hn _]]]]]; discriminate.
  - destruct (String.eqb_spec (openai.Name (openai.Function c)) "manage_window")
      as [Hwin|Hwin].
    + destruct (ui.UnmarshalWindow P _) as [[action target]|] eqn:Hu.
      * right. exists action, target. repeat split; assumption.
      * intros [msg [[x [y [Hn _]]]|[x [y [_ [Hd _]]]]]];
          [contradiction | discriminate].
    + intros [msg [[x [y [Hn _]]]|[x [y [Hn _]]]]]; contradiction.
Qed.

Lemma requestFor_any_history (c : openai.ToolCall) (h h' : Conversation) (msg : ui.Msg) :
  requestFor P c h msg -> exists msg', requestFor P c h' msg'.
Proof.
  intros [[command [args [Hn [Hu _]]]]|[action [target [Hn [Hu _]]]]].
  - eexists. left. exists command, args. repeat split; eassumption.
  - eexists. right. exists action, target. repeat split; eassumption.
Qed.

Lemma suspendOn_synchronous (c : openai.ToolCall) (messages : Conversation) :
  synchronous P c -> ui.suspendOn P c messages = None.
Proof.
  intro Hsync. pose proof (suspendOn_spec c messages) as Hspec.
  destruct (ui.suspendOn P c messages) as [msg|]; [|reflexivity].
  exfalso. apply Hsync. exact (requestFor_any_history [] Hspec).
Qed.

Lemma suspendOn_outOfBand (c : openai.ToolCall) (messages : Conversation) :
  outOfBand P c ->
  exists msg, ui.suspendOn P c messages = Some msg /\ requestFor P c messages msg.
Proof.
  intro Hout. pose proof (suspendOn_spec c messages) as Hspec.
  destruct (ui.suspendOn P c messages) as [msg|].
  - exists msg. split; [reflexivity | exact Hspec].
  - contradiction.
Qed.


(** Running tools sends nothing to the endpoint. *)
Lemma executeToolCalls_sent (calls : list openai.ToolCall) :
  forall messages s,
    ui.sent (snd (ui.executeToolCalls P calls messages s)) = ui.sent s.
Proof.
  induction calls as [|c calls IH]; intros messages s; simpl.
  - reflexivity.
  - destruct (ui.suspendOn P c messages); [reflexivity|].
    run_bind.
    destruct (agent.ExecuteToolByName _ _ _ _) as [r w].
    rewrite IH. reflexivity.
Qed.

(** One iteration, spelled out on the state. *)
Lemma agenticLoop_S (n : nat) (modelName : string) (messages : Conversation)
      (s : ui.Net World) :
  ui.agenticLoop P (S n) modelName messages s =
  let (resp, w) :=
    ui.CreateChatCompletion P (ui.request P modelName messages) (ui.world s) in
  let s1 := {| ui.world := w;
               ui.sent := ui.sent s ++ [ui.request P modelName messages] |} in
  match resp with
  | Err err => (ui.ErrMsg ("API error: " ++ err)%string, s1)
  | Ok resp =>
    match openai.Choices resp with
    | [] => (ui.ErrMsg "no response from model", s1)
    | choice :: _ =>
      let message := openai.Message choice in
      match openai.ToolCalls message with
      | [] =>
        (ui.AiResponseMsg (openai.Content message)
           (messages ++ [ui.assistantMsg (openai.Content message) []]), s1)
      | _ :: _ =>
        match ui.executeToolCalls P (openai.ToolCalls message)
                (messages ++ [ui.assistantMsg (openai.Content message)
                                              (openai.ToolCalls message)]) s1 with
        | (ui.Return msg, s2) => (msg, s2)
        | (ui.Continue messages', s2) => ui.agenticLoop P n modelName messages' s2
        end
      end
    end
  end.
Proof.
  simpl. run_bind.
  destruct (ui.CreateChatCompletion P _ _) as [[resp|err] w]; [|reflexivity].
  destruct (openai.Choices resp) as [|choice rest]; [reflexivity|].
  destruct (openai.ToolCalls (openai.Message choice)) as [|c calls]; [reflexivity|].
  destruct (ui.executeToolCalls _ _ _ _) as [[msg|messages'] s2]; reflexivity.
Qed.

(** Each iteration adds exactly its own request to the log, so a loop of
    [n] iterations adds at most [n]. *)
Lemma agenticLoop_sent (n : nat) :
  forall modelName messages s,
    exists extra,
      ui.sent (snd (ui.agenticLoop P n modelName messages s)) = ui.sent s ++ extra
      /\ length extra <= n.
Proof.
  induction n as [|n IH]; intros modelName messages s.
  - exists []. simpl. rewrite app_nil_r. split; [reflexivity | lia].
  - rewrite agenticLoop_S.
    destruct (ui.CreateChatCompletion P _ _) as [[resp|err] w].
    2: { exists [ui.request P modelName messages]. split; [reflexivity | simpl; lia]. }
    destruct (openai.Choices resp) as [|choice rest].
    { exists [ui.request P modelName messages]. split; [reflexivity | simpl; lia]. }
    cbv zeta.
    destruct (openai.ToolCalls (openai.Message choice)) as [|c calls].
    { exists [ui.request P modelName messages]. split; [reflexivity | simpl; lia]. }
    match goal with
    | |- context [ui.executeToolCalls P ?cs ?ms ?st] =>
      pose proof (executeToolCalls_sent cs ms st) as Hs;
      destruct (ui.executeToolCalls P cs ms st) as [[msg|messages'] s2]
    end; cbn [snd ui.sent] in Hs.
    + exists [ui.request P modelName messages]. cbn [snd]. rewrite Hs.
      split; [reflexivity | simpl; lia].
    + destruct (IH modelName messages' s2) as [extra [He1 He2]].
      exists (ui.request P modelName messages :: extra).
      rewrite He1, Hs, <- app_assoc.
      split; [reflexivity | simpl; lia].
Qed.


(** The loop over the calls of a reply, cut in two. *)
Lemma executeToolCalls_app (pre rest : list openai.ToolCall) :
  forall messages s,
    ui.executeToolCalls P (pre ++ rest) messages s =
    match ui.executeToolCalls P pre messages s with
    | (ui.Continue messages1, s1) => ui.executeToolCalls P rest messages1 s1
    | (ui.Return msg, s1) => (ui.Return msg, s1)
    end.
Proof.
  induction pre as [|c pre IH]; intros messages s; simpl.
  - reflexivity.
  - destruct (ui.suspendOn P c messages); [reflexivity|].
    run_bind.
    destruct (agent.ExecuteToolByName _ _ _ _) as [r w].
    apply IH.
Qed.

(** Synchronous calls run to the end of the list; each leaves one tool
    message with its id. *)
Lemma executeToolCalls_synchronous (calls : list openai.ToolCall) :
  Forall (synchronous P) calls ->
  forall messages s,
    exists results s',
      ui.executeToolCalls P calls messages s = (ui.Continue (messages ++ results), s')
      /\ map openai.ToolCallID results = map openai.ID calls
      /\ Forall (fun r => openai.Role r = openai.ChatMessageRoleTool) results.
Proof.
  induction 1 as [|c calls Hc _ IH]; intros messages s; simpl.
  - exists [], s. rewrite app_nil_r. repeat split; constructor.
  - rewrite (suspendOn_synchronous messages Hc). run_bind.
    destruct (agent.ExecuteToolByName _ _ _ _) as [r w].
    destruct (IH (messages ++ [ui.toolMsg c (ui.toolResult r)])
                 {| ui.world := w; ui.sent := ui.sent s |})
      as [results [s' [He [Hids Hroles]]]].
    exists (ui.toolMsg c (ui.toolResult r) :: results), s'.
    rewrite He, <- app_assoc. simpl. rewrite Hids.
    repeat split. constructor; [reflexivity | assumption].
Qed.

(** The same with the content of the tool messages: the calls run through
    the registry in order, and nothing is sent meanwhile. *)
Lemma executeToolCalls_results (calls : list openai.ToolCall) :
  Forall (synchronous P) calls ->
  forall messages s,
    exists results s',
      ui.executeToolCalls P calls messages s = (ui.Continue (messages ++ results), s')
      /\ synchronousRun P calls (ui.world s) results (ui.world s')
      /\ ui.sent s' = ui.sent s.
Proof.
  induction 1 as [|c calls Hc _ IH]; intros messages s; simpl.
  - exists [], s. rewrite app_nil_r. repeat split. constructor.
  - rewrite (suspendOn_synchronous messages Hc). run_bind.
    destruct (agent.ExecuteToolByName _ _ _ _) as [r w] eqn:Hx.
    destruct (IH (messages ++ [ui.toolMsg c (ui.toolResult r)])
                 {| ui.world := w; ui.sent := ui.sent s |})
      as [results [s' [He [Hrun Hsent]]]].
    exists (ui.toolMsg c (ui.toolResult r) :: results), s'.
    rewrite He, <- app_assoc. split; [reflexivity|]. split; [|exact Hsent].
    cbn [ui.world] in Hrun.
    destruct r as [result|err].
    + apply synchronousRun_ok with (w1 := w); assumption.
    + apply synchronousRun_err with (w1 := w); assumption.
Qed.


(** Claim C4. With the model name set, when the first reply of the
    endpoint has no tool call, [InvokeAI] on a history [h] returns the
    final response whose history is [h] followed by exactly one assistant
    message, the reply's text; one request was sent, and it carried [h]. *)
Theorem invoke_final_response
        (h : Conversation) (s : ui.Net World)
        (resp : openai.ChatCompletionResponse) (w : World)
        (choice : openai.ChatCompletionChoice)
        (rest : list openai.ChatCompletionChoice) :
  let modelName := ui.Getenv P "PROVIDER_MODEL" (ui.world s) in
  String.eqb modelName "" = false ->
  ui.CreateChatCompletion P (ui.request P modelName h) (ui.world s) = (Ok resp, w) ->
  openai.Choices resp = choice :: rest ->
  openai.ToolCalls (openai.Message choice) = [] ->
  let content := openai.Content (openai.Message choice) in
  ui.InvokeAI P h s =
  (ui.AiResponseMsg content (h ++ [ui.assistantMsg content []]),
   {| ui.world := w; ui.sent := ui.sent s ++ [ui.request P modelName h] |})
  /\ openai.Role (ui.assistantMsg content []) = openai.ChatMessageRoleAssistant.
Proof.
  intros modelName Hname Hcall Hchoices Hcalls content.
  split; [|reflexivity].
  unfold ui.InvokeAI. fold modelName. rewrite Hname.
  unfold ui.maxIterations. rewrite agenticLoop_S.
  rewrite Hcall, Hchoices. cbv zeta. rewrite Hcalls. reflexivity.
Qed.

(** Claim C5. When a reply carries the tool calls [pre ++ c :: post], [c]
    being the first call of an out-of-band kind ([run_command] or
    [manage_window], with a payload that decodes), the loop runs the calls
    of [pre] through the registry in order and returns at [c] the request
    of its kind, carrying the id of [c] and the history so far: the history
    received, then the assistant message with the content and the calls of
    the reply, then one tool message for each call of [pre], in order,
    under the id of its call, holding the text its tool returned or, for a
    failed tool, "Error executing tool: " and its error. The state is the
    one [pre] left, nothing more was sent, and the outcome is the same for
    every [post]: no call after [c] is processed. *)
Theorem suspend_at_first_out_of_band
        (n : nat) (modelName : string) (h : Conversation) (s : ui.Net World)
        (resp : openai.ChatCompletionResponse) (w : World)
        (choice : openai.ChatCompletionChoice)
        (rest : list openai.ChatCompletionChoice)
        (pre : list openai.ToolCall) (c : openai.ToolCall)
        (post : list openai.ToolCall) :
  ui.CreateChatCompletion P (ui.request P modelName h) (ui.world s) = (Ok resp, w) ->
  openai.Choices resp = choice :: rest ->
  openai.ToolCalls (openai.Message choice) = pre ++ c :: post ->
  Forall (synchronous P) pre ->
  outOfBand P c ->
  let h1 := h ++ [ {| openai.Role := openai.ChatMessageRoleAssistant;
                      openai.Content := openai.Content (openai.Message choice);
                      openai.ToolCalls := pre ++ c :: post;
                      openai.ToolCallID := "" |} ] in
  let s1 := {| ui.world := w; ui.sent := ui.sent s ++ [ui.request P modelName h] |} in
  exists results s2 msg,
    ui.executeToolCalls P pre h1 s1 = (ui.Continue (h1 ++ results), s2)
    /\ synchronousRun P pre w results (ui.world s2)
    /\ ui.sent s2 = ui.sent s1
    /\ map openai.ToolCallID results = map openai.ID pre
    /\ Forall (fun r => openai.Role r = openai.ChatMessageRoleTool) results
    /\ requestFor P c (h1 ++ results) msg
    /\ ui.agenticLoop P (S n) modelName h s = (msg, s2)
    /\ forall post',
        ui.executeToolCalls P (pre ++ c :: post') h1 s1 = (ui.Return msg, s2).
Proof.
  intros Hcall Hchoices Hcalls Hpre Hc h1 s1.
  destruct (executeToolCalls_results Hpre h1 s1)
    as [results [s2 [He [Hran Hsent]]]].
  destruct (executeToolCalls_synchronous Hpre h1 s1)
    as [results' [s2' [He' [Hids Hroles]]]].
  assert (Hsame : results' = results).
  { rewrite He in He'. injection He' as Hr _.
    apply app_inv_head in Hr. symmetry. exact Hr. }
  subst results'. clear He' s2'.
  destruct (suspendOn_outOfBand (h1 ++ results) Hc) as [msg [Hs Hreq]].
  assert (Hany : forall post',
             ui.executeToolCalls P (pre ++ c :: post') h1 s1 = (ui.Return msg, s2)).
  { intro post'. rewrite executeToolCalls_app, He. simpl. rewrite Hs. reflexivity. }
  exists results, s2, msg.
  split; [exact He|]. split; [exact Hran|]. split; [exact Hsent|].
  split; [exact Hids|]. split; [exact Hroles|]. split; [exact Hreq|].
  split; [|exact Hany].
  rewrite agenticLoop_S, Hcall, Hchoices. cbv zeta. rewrite Hcalls.
  pose proof (Hany post) as Hp. subst h1 s1.
  change {| openai.Role := openai.ChatMessageRoleAssistant;
            openai.Content := openai.Content (openai.Message choice);
            openai.ToolCalls := pre ++ c :: post;
            openai.ToolCallID := "" |}
    with (ui.assistantMsg (openai.Content (openai.Message choice))
                          (pre ++ c :: post)) in Hp.
  destruct pre; cbn [app] in Hp |- *; rewrite Hp; reflexivity.
Qed.

(** Claim C9. A call named [run_command] or [manage_window] whose payload
    does not decode neither suspends the loop nor ends it: the tool
    registered under that name is run on the payload, and its outcome is
    recorded as the tool message of the call, under the id of the call,
    whose content is the text the tool returned or, when it failed,
    "Error executing tool: " and its error; the loop goes on with the
    remaining calls from the world the tool left, nothing being sent. *)
Theorem malformed_out_of_band_falls_through
        (c : openai.ToolCall) (post : list openai.ToolCall)
        (messages : Conversation) (s : ui.Net World) :
  malformed P c ->
  let fn := openai.Function c in
  let attempt :=
    if String.eqb (openai.Name fn) "run_command"
    then agent.RunCommand (ui.toolFunctions P)
    else agent.ManageWindow (ui.toolFunctions P) in
  let (r, w) := attempt (openai.Arguments fn) (ui.world s) in
  let outcome :=
    {| openai.Role := openai.ChatMessageRoleTool;
       openai.Content := match r with
                         | Ok result => result
                         | Err err => ("Error executing tool: " ++ err)%string
                         end;
       openai.ToolCalls := [];
       openai.ToolCallID := openai.ID c |} in
  ui.suspendOn P c messages = None
  /\ ui.executeToolCalls P (c :: post) messages s =
     ui.executeToolCalls P post (messages ++ [outcome])
                         {| ui.world := w; ui.sent := ui.sent s |}.
Proof.
  intros Hm fn attempt. subst fn attempt.
  assert (Hs : ui.suspendOn P c messages = None).
  { unfold ui.suspendOn.
    destruct Hm as [[Hn Hu]|[Hn Hu]]; rewrite Hn, Hu; reflexivity. }
  assert (Hx : agent.ExecuteToolByName (ui.toolFunctions P)
                 (openai.Name (openai.Function c))
                 (openai.Arguments (openai.Function c)) =
               (if String.eqb (openai.Name (openai.Function c)) "run_command"
                then agent.RunCommand (ui.toolFunctions P)
                else agent.ManageWindow (ui.toolFunctions P))
                 (openai.Arguments (openai.Function c))).
  { destruct Hm as [[Hn _]|[Hn _]]; rewrite Hn; reflexivity. }
  destruct ((if String.eqb (openai.Name (openai.Function c)) "run_command"
             then agent.RunCommand (ui.toolFunctions P)
             else agent.ManageWindow (ui.toolFunctions P))
              (openai.Arguments (openai.Function c)) (ui.world s)) as [r w] eqn:Ha.
  cbv zeta. split; [exact Hs|].
  simpl. rewrite Hs. run_bind. rewrite Hx, Ha.
  destruct r; reflexivity.
Qed.


(** Whatever the endpoint and the tools answer, one run of [InvokeAI]
    sends at most ten requests. *)
Lemma invoke_sent_bound (h : Conversation) (s : ui.Net World) :
  exists extra,
    ui.sent (snd (ui.InvokeAI P h s)) = ui.sent s ++ extra
    /\ length extra <= 10.
Proof.
  unfold ui.InvokeAI.
  destruct (String.eqb _ _).
  - exists []. simpl. rewrite app_nil_r. split; [reflexivity | lia].
  - apply agenticLoop_sent.
Qed.

End AgentLoopFacts.

(** ** The iteration bound, on scripted replies *)

Section ScriptedFacts.

Let P := Scripted.platform.

(** Tools that leave the world alone make a registry that does. *)
Lemma executeIn_pure (defs : list (agent.ToolDefinition Scripted.World)) :
  Forall (fun d => forall a w, snd (agent.Function d a w) = w) defs ->
  forall name args w, snd (agent.executeIn defs name args w) = w.
Proof.
  induction 1 as [|d defs Hd _ IH]; intros name args w; simpl.
  - reflexivity.
  - destruct (String.eqb (agent.Name d) name); [apply Hd | apply IH].
Qed.

(** The scripted tools leave the script alone. *)
Lemma scripted_tools_pure (name args : string) (w : Scripted.World) :
  snd (agent.ExecuteToolByName Scripted.toolFunctions name args w) = w.
Proof.
  apply executeIn_pure.
  repeat constructor.
Qed.

Lemma scripted_executeToolCalls_state (calls : list openai.ToolCall) :
  forall messages s, snd (ui.executeToolCalls P calls messages s) = s.
Proof.
  induction calls as [|c calls IH]; intros messages s; simpl.
  - reflexivity.
  - destruct (ui.suspendOn P c messages); [reflexivity|].
    unfold bind, ui.inWorld.
    pose proof (scripted_tools_pure (openai.Name (openai.Function c))
                  (openai.Arguments (openai.Function c)) (ui.world s)) as Hw.
    simpl ui.toolFunctions.
    destruct (agent.ExecuteToolByName _ _ _ _) as [r w]. simpl in Hw. subst w.
    rewrite IH. destruct s; reflexivity.
Qed.

(** A loop of [n] iterations on a script that opens with tool-call-only
    replies, followed by a reply with text only: with more iterations than
    such replies the text is the final response, one request per reply
    read; otherwise the loop gives up after [n] requests. *)
Lemma scripted_agenticLoop (toolReplies : list openai.ChatCompletionResponse) :
  Forall (toolCallOnly P) toolReplies ->
  forall (final : openai.ChatCompletionResponse) (content : string)
         (rest : Scripted.World),
    contentReply content final ->
    forall (n : nat) (modelName : string) (h : Conversation)
           (l : list openai.ChatCompletionRequest),
      let run := ui.agenticLoop P n modelName h
                   {| ui.world := map Ok toolReplies ++ Ok final :: rest;
                      ui.sent := l |} in
      (length toolReplies < n ->
       (exists h', fst run = ui.AiResponseMsg content h')
       /\ length (ui.sent (snd run)) = length l + length toolReplies + 1)
      /\ (n <= length toolReplies ->
          fst run = ui.ErrMsg ui.errMaxIterations
          /\ length (ui.sent (snd run)) = length l + n).
Proof.
  induction 1 as [|r rs Hr _ IH];
    intros final content rest Hfinal n modelName h l run; subst run.
  - destruct n as [|n].
    + split; [simpl; lia|]. intros _. simpl. split; [reflexivity | lia].
    + split; [|simpl; lia]. intros _.
      rewrite agenticLoop_S.
      destruct Hfinal as [choice [others [Hch [Hcalls Hcontent]]]].
      simpl. rewrite Hch. simpl. rewrite Hcalls, Hcontent. simpl.
      split; [eexists; reflexivity|]. rewrite length_app. simpl. lia.
  - destruct n as [|n].
    + split; [simpl; lia|]. intros _. simpl. split; [reflexivity | lia].
    + rewrite agenticLoop_S.
      destruct Hr as [choice [others [Hch [Hne Hsync]]]].
      simpl ui.CreateChatCompletion. cbv beta iota zeta. simpl ui.world.
      change (Scripted.CreateChatCompletion (ui.request P modelName h)
                (map Ok (r :: rs) ++ Ok final :: rest))
        with (Ok r, map Ok rs ++ Ok final :: rest).
      cbv beta iota. rewrite Hch.
      destruct (openai.ToolCalls (openai.Message choice)) as [|c cs] eqn:Hcs;
        [contradiction|].
      match goal with
      | |- context [ui.executeToolCalls P ?cs ?ms ?st] =>
        pose proof (scripted_executeToolCalls_state cs ms st) as Hst;
        destruct (executeToolCalls_synchronous Hsync ms st)
          as [results [s' [He _]]];
        rewrite He in Hst |- *; cbn [snd] in Hst; subst s'
      end.
      specialize (IH final content rest Hfinal n modelName
                     ((h ++ [ui.assistantMsg (openai.Content (openai.Message choice))
                                             (c :: cs)]) ++ results)
                     (l ++ [ui.request P modelName h])).
      cbv zeta in IH. rewrite length_app in IH. simpl length in IH |- *.
      destruct IH as [IH1 IH2]. split; intro Hlen; simpl in Hlen.
      * destruct IH1 as [Hmsg Hcount]; [lia|].
        split; [exact Hmsg | etransitivity; [exact Hcount | lia]].
      * destruct IH2 as [Hmsg Hcount]; [lia|].
        split; [exact Hmsg | etransitivity; [exact Hcount | lia]].
Qed.

Lemma listFilesReply_toolCallOnly : toolCallOnly P Scripted.listFilesReply.
Proof.
  eexists _, _. split; [reflexivity|]. split; [discriminate|].
  constructor; [|constructor].
  intros [msg [[x [y [Hn _]]]|[x [y [Hn _]]]]]; discriminate Hn.
Qed.

Lemma repeat_listFilesReply (k : nat) :
  Forall (toolCallOnly P) (repeat Scripted.listFilesReply k).
Proof.
  apply Forall_forall. intros r Hr. apply repeat_spec in Hr. subst r.
  exact listFilesReply_toolCallOnly.
Qed.

Lemma reply_contentReply (content : string) :
  contentReply content (Scripted.reply content []).
Proof.
  eexists _, _. repeat split.
Qed.

End ScriptedFacts.

(** Claim C1, as the code has it. Whatever the endpoint and the tools answer,
    one run of [InvokeAI] sends at most ten requests (and it ends: the loop
    is a recursion on the iterations left, and on the calls of a reply).
    On a script of replies that ask for synchronous tools only, followed by
    a reply with text only: up to nine such replies, the text comes back as
    the final response, after one request per reply read, at most ten; with
    ten or more, the run ends on the max-iterations failure after exactly
    ten requests, and no eleventh reply is asked for. *)
Theorem invoke_at_most_ten_calls :
  (forall (World : Type) (P : ui.Platform World) (h : Conversation) (s : ui.Net World),
      exists extra,
        ui.sent (snd (ui.InvokeAI P h s)) = ui.sent s ++ extra
        /\ length extra <= 10)
  /\ (forall (toolReplies : list openai.ChatCompletionResponse)
             (final : openai.ChatCompletionResponse) (content : string)
             (rest : Scripted.World) (h : Conversation),
         Forall (toolCallOnly Scripted.platform) toolReplies ->
         contentReply content final ->
         let run := ui.InvokeAI Scripted.platform h
                      (Scripted.start (map Ok toolReplies ++ Ok final :: rest)) in
         (length toolReplies <= 9 ->
          (exists h', fst run = ui.AiResponseMsg content h')
          /\ length (ui.sent (snd run)) = length toolReplies + 1)
         /\ (10 <= length toolReplies ->
             fst run = ui.ErrMsg ui.errMaxIterations
             /\ length (ui.sent (snd run)) = 10)).
Proof.
  split.
  - intros World P h s. apply invoke_sent_bound.
  - intros toolReplies final content rest h Htools Hfinal run.
    destruct (scripted_agenticLoop Htools rest Hfinal ui.maxIterations "gpt-4o" h [])
      as [Hlt Hge].
    subst run. unfold ui.InvokeAI, Scripted.start. simpl ui.Getenv.
    change (String.eqb (Scripted.Getenv "PROVIDER_MODEL"
                          (map Ok toolReplies ++ Ok final :: rest)) "")
      with false.
    cbv iota. unfold ui.maxIterations in *. split; intro Hlen.
    + apply Hlt. lia.
    + apply Hge. lia.
Qed.

Lemma invoke_at_most_ten_calls_witness :
  let run := ui.InvokeAI Scripted.platform Scripted.hello
               (Scripted.start (map Ok (repeat Scripted.listFilesReply 9)
                                  ++ [Ok (Scripted.reply "done" [])])) in
  (exists h', fst run = ui.AiResponseMsg "done" h')
  /\ length (ui.sent (snd run)) = 10.
Proof.
  refine (proj1 (proj2 invoke_at_most_ten_calls
                   (repeat Scripted.listFilesReply 9) (Scripted.reply "done" [])
                   "done" [] Scripted.hello
                   (repeat_listFilesReply 9) (reply_contentReply "done")) _).
  simpl. lia.
Defined.

(** Claim C1, as the specification words it, fails: after ten replies that
    only ask for a tool the loop has used its ten iterations, and the reply
    with text that follows is never read. *)
Lemma ten_tool_replies_exhaust_the_loop :
  let run := ui.InvokeAI Scripted.platform Scripted.hello
               (Scripted.start (map Ok (repeat Scripted.listFilesReply 10)
                                  ++ [Ok (Scripted.reply "done" [])])) in
  Forall (toolCallOnly Scripted.platform) (repeat Scripted.listFilesReply 10)
  /\ fst run = ui.ErrMsg ui.errMaxIterations
  /\ length (ui.sent (snd run)) = 10
  /\ ~ (exists content h', fst run = ui.AiResponseMsg content h').
Proof.
  intro run.
  assert (Hrun : fst run = ui.ErrMsg ui.errMaxIterations) by (vm_compute; reflexivity).
  split; [apply repeat_listFilesReply|].
  split; [exact Hrun|].
  split; [vm_compute; reflexivity|].
  intros [content [h' Hfinal]]. rewrite Hrun in Hfinal. discriminate Hfinal.
Qed.

Lemma invoke_final_response_witness :
  ui.InvokeAI Scripted.platform Scripted.hello
    (Scripted.start [Ok (Scripted.reply "hi" [])])
  = (ui.AiResponseMsg "hi" (Scripted.hello ++ [ui.assistantMsg "hi" []]),
     {| ui.world := [];
        ui.sent := [ui.request Scripted.platform "gpt-4o" Scripted.hello] |})
  /\ openai.Role (ui.assistantMsg "hi" []) = openai.ChatMessageRoleAssistant.
Proof.
  exact (@invoke_final_response _ Scripted.platform Scripted.hello
           (Scripted.start [Ok (Scripted.reply "hi" [])])
           (Scripted.reply "hi" []) [] _ []
           eq_refl eq_refl eq_refl eq_refl).
Defined.

Lemma suspend_at_first_out_of_band_witness :
  let calls := [Scripted.call "call_1" "list_files" "{}";
                Scripted.call "call_2" "run_command" "{}";
                Scripted.call "call_3" "read_file" "{}"] in
  let asked := {| openai.Role := "assistant"; openai.Content := "";
                  openai.ToolCalls := calls; openai.ToolCallID := "" |} in
  let listing := {| openai.Role := "tool"; openai.Content := "Project";
                    openai.ToolCalls := []; openai.ToolCallID := "call_1" |} in
  fst (ui.agenticLoop Scripted.platform 1 "gpt-4o" Scripted.hello
         (Scripted.start [Ok Scripted.mixedReply]))
  = ui.RunCommandMsg "" [] "call_2" (Scripted.hello ++ [asked; listing]).
Proof.
  intros calls asked listing.
  assert (Hpre : Forall (synchronous Scripted.platform)
                        [Scripted.call "call_1" "list_files" "{}"]).
  { constructor; [|constructor].
    intros [msg [[x [y [Hn _]]]|[x [y [Hn _]]]]]; discriminate Hn. }
  assert (Hc : outOfBand Scripted.platform
                         (Scripted.call "call_2" "run_command" "{}")).
  { eexists. left. exists "", []. repeat split. }
  destruct (@suspend_at_first_out_of_band _ Scripted.platform 0 "gpt-4o"
              Scripted.hello (Scripted.start [Ok Scripted.mixedReply])
              Scripted.mixedReply [] _ []
              [Scripted.call "call_1" "list_files" "{}"]
              (Scripted.call "call_2" "run_command" "{}")
              [Scripted.call "call_3" "read_file" "{}"]
              eq_refl eq_refl eq_refl Hpre Hc)
    as [results [s2 [msg [He [_ [_ [_ [_ [Hreq [Hloop _]]]]]]]]]].
  injection He as Hr _. subst results.
  rewrite Hloop. cbn [fst].
  destruct Hreq as [[command [args [_ [Hu Hm]]]]|[action [target [Hn _]]]];
    [|discriminate Hn].
  injection Hu as <- <-. exact Hm.
Defined.

Lemma malformed_out_of_band_falls_through_witness :
  let c := Scripted.call "call_9" "run_command" "{" in
  ui.executeToolCalls Scripted.platform [c] Scripted.hello (Scripted.start [])
  = (ui.Continue
       (Scripted.hello
          ++ [ {| openai.Role := "tool";
                  openai.Content := "Error executing tool: unexpected end of JSON input";
                  openai.ToolCalls := [];
                  openai.ToolCallID := "call_9" |} ]),
     Scripted.start []).
Proof.
  intro c.
  pose proof (@malformed_out_of_band_falls_through _ Scripted.platform c []
                Scripted.hello (Scripted.start [])
                (or_introl (conj eq_refl eq_refl))) as H.
  exact (proj2 H).
Defined.


(** ** The process runner *)

(** Claim C8. When the command cannot be started, the run has no reader
    routine, so that no output event is ever published, and the one message
    it returns is the completion carrying the start error and the call id;
    when it starts, the message returned is the completion carrying what
    waiting for the process returned, nil on a clean exit, and the call
    id. *)
Theorem start_failure_short_circuits
        (os : ui.OS) (command : string) (args : list string) (toolCallID : string) :
  let run := ui.RunProcessCmd os command args toolCallID in
  let resolved := agent.ResolveBinary (ui.LookPath os) command in
  (forall err, ui.Start os resolved args = Err err ->
               ui.returned run = ui.ProcessDoneMsg (Some err) toolCallID
               /\ forall evs, ui.published (ui.readers run) evs -> evs = [])
  /\ (forall p, ui.Start os resolved args = Ok p ->
                ui.returned run = ui.ProcessDoneMsg (ui.wait p) toolCallID
                /\ (ui.wait p = None ->
                    ui.returned run = ui.ProcessDoneMsg None toolCallID)).
Proof.
  intros run resolved. subst run resolved. unfold ui.RunProcessCmd.
  split.
  - intros err Hstart. rewrite Hstart. simpl. split; [reflexivity|].
    intros evs Hpub. inversion Hpub as [rs|before l ls after evs' _ Hrs]; [reflexivity|].
    destruct before; discriminate Hrs.
  - intros p Hstart. rewrite Hstart. simpl. split; [reflexivity|].
    intro Hwait. rewrite Hwait. reflexivity.
Qed.

Lemma start_failure_short_circuits_witness :
  let run := ui.RunProcessCmd Scripted.os "python" ["-V"] "call_7" in
  (ui.returned run
   = ui.ProcessDoneMsg (Some "exec: python: executable file not found in $PATH") "call_7"
   /\ forall evs, ui.published (ui.readers run) evs -> evs = [])
  /\ ui.returned (ui.RunProcessCmd Scripted.os "git" ["status"] "call_8")
     = ui.ProcessDoneMsg None "call_8".
Proof.
  split.
  - exact (proj1 (start_failure_short_circuits Scripted.os "python" ["-V"] "call_7")
                 _ eq_refl).
  - exact (proj2 (proj2 (start_failure_short_circuits Scripted.os "git" ["status"] "call_8")
                        _ eq_refl) eq_refl).
Defined.

(** ** Strings and lists *)

Lemma string_length_append (a b : string) :
  String.length (a ++ b) = String.length a + String.length b.
Proof.
  induction a as [|c a IH]; simpl; [reflexivity | rewrite IH; reflexivity].
Qed.

Lemma substring_all (s : string) : String.substring 0 (String.length s) s = s.
Proof.
  induction s as [|c s IH]; simpl; [reflexivity | rewrite IH; reflexivity].
Qed.

Lemma TrimPrefix_at (partial : string) :
  strings.HasPrefix ("@" ++ partial) "@" = true
  /\ strings.TrimPrefix ("@" ++ partial) "@" = partial.
Proof.
  unfold strings.TrimPrefix, strings.HasPrefix.
  assert (Hp : String.prefix "@" ("@" ++ partial) = true).
  { simpl. destruct partial; reflexivity. }
  rewrite Hp. split; [reflexivity|].
  simpl. rewrite Nat.sub_0_r. apply substring_all.
Qed.

Lemma Contains_empty (s : string) : strings.Contains s "" = true.
Proof.
  destruct s; reflexivity.
Qed.

Lemma Subsequence_firstn_filter {A : Type} (keep : A -> bool) (l : list A) :
  forall n, Subsequence (firstn n (filter keep l)) l.
Proof.
  induction l as [|x l IH]; intro n; simpl.
  - rewrite firstn_nil. constructor.
  - destruct (keep x).
    + destruct n as [|n]; simpl; constructor. apply IH.
    + constructor. apply IH.
Qed.

(** ** The UI state machine *)

Section StateMachineFacts.

Variable TA : ui.TextArea.

Let Model := ui.Model TA.

Lemma setLastContent_last (h : Conversation) (x : openai.ChatCompletionMessage)
      (content : string) :
  ui.setLastContent (h ++ [x]) content =
  h ++ [ {| openai.Role := openai.Role x;
            openai.Content := content;
            openai.ToolCalls := openai.ToolCalls x;
            openai.ToolCallID := openai.ToolCallID x |} ].
Proof.
  induction h as [|y h IH]; simpl; [reflexivity|].
  rewrite IH. destruct (h ++ [x]) eqn:Hh; [|reflexivity].
  destruct h; discriminate Hh.
Qed.

Lemma fullLog_differs (output result : string) :
  ui.fullLog output result <> result.
Proof.
  intro H. apply (f_equal String.length) in H.
  unfold ui.fullLog in H. rewrite !string_length_append in H.
  simpl in H. lia.
Qed.

(** Claim C6. On a process completion, whether the sidebar is shown or
    not, the output buffer is emptied, one tool message with the call id
    is added to the history, the phase is Thinking and the agent loop is
    invoked on the new history. The completion text is "Process finished
    successfully." or "Process exited with error: " and the error. The
    content of the tool message is the completion text alone when the
    sidebar is shown; when it is not, it is "Process Output:", a line
    opening a code block, the whole buffer as it was, the line closing the
    block, and the completion text: the buffer is folded in exactly when
    the sidebar is not shown. *)
Theorem process_done_clears_buffer (m : Model) (err : option error)
        (toolCallID : string) :
  exists m',
    ui.Update m (ui.ProcessDoneMsg err toolCallID)
    = Some (m', ui.InvokeAICmd (ui.History m'))
    /\ ui.ProcessOutput m' = ""
    /\ ui.State m' = ui.StateThinking
    /\ ui.ShowSidebar m' = ui.ShowSidebar m
    /\ ui.PendingQueue m' = ui.PendingQueue m
    /\ (let result :=
          match err with
          | None => "Process finished successfully."
          | Some e => ("Process exited with error: " ++ e)%string
          end in
        let nl := String "010" "" in
        let folded :=
          ("Process Output:" ++ nl ++ "```" ++ nl
             ++ ui.ProcessOutput m ++ "```" ++ nl ++ result)%string in
        let content := if ui.ShowSidebar m then result else folded in
        ui.History m'
        = ui.History m
            ++ [ {| openai.Role := openai.ChatMessageRoleTool;
                    openai.Content := content;
                    openai.ToolCalls := [];
                    openai.ToolCallID := toolCallID |} ]
        /\ (content = folded <-> ui.ShowSidebar m = false)).
Proof.
  eexists. split; [reflexivity|].
  destruct m as [st inp files h q out show idx cands wd ht sidebar].
  cbn -[ui.setLastContent ui.fullLog ui.processResult].
  split; [reflexivity|]. split; [reflexivity|].
  split; [destruct sidebar; reflexivity|].
  split; [destruct sidebar; reflexivity|].
  split.
  - destruct sidebar; cbn -[ui.setLastContent ui.fullLog ui.processResult];
      [destruct err; reflexivity|].
    rewrite setLastContent_last. destruct err; reflexivity.
  - split.
    + destruct sidebar; [|reflexivity].
      intro H. symmetry in H.
      apply (@fullLog_differs out (ui.processResult err)) in H. contradiction.
    + intro H. rewrite H. reflexivity.
Qed.

(** *** Autocomplete candidates *)

Lemma collectMatches_firstn (files : list string) (search : string) :
  forall acc,
    length acc < 10 ->
    ui.collectMatches files search acc =
    acc ++ firstn (10 - length acc)
                  (filter (fun f => strings.Contains f search) files).
Proof.
  induction files as [|f files IH]; intros acc Hacc;
    cbn [ui.collectMatches filter].
  - rewrite firstn_nil, app_nil_r. reflexivity.
  - assert (Hm : String.eqb search "" || strings.Contains f search
                 = strings.Contains f search).
    { destruct (String.eqb_spec search "") as [->|_]; [|reflexivity].
      rewrite Contains_empty. reflexivity. }
    rewrite Hm. destruct (strings.Contains f search).
    + rewrite length_app. cbn [length].
      destruct (Nat.leb_spec 10 (length acc + 1)) as [Hfull|Hroom].
      * replace (10 - length acc) with 1 by lia. reflexivity.
      * rewrite IH by (rewrite length_app; cbn [length]; lia).
        rewrite length_app. cbn [length].
        replace (10 - length acc) with (S (10 - (length acc + 1))) by lia.
        cbn [firstn]. rewrite <- app_assoc. reflexivity.
    + apply IH. exact Hacc.
Qed.

Lemma refreshAutocomplete_candidates (m : Model) (partial : string) :
  ui.lastWord (strings.Fields (ui.Value TA (ui.Input m))) = Some ("@" ++ partial)%string ->
  ui.knownFile (ui.Files m) partial = false ->
  ui.AutocompleteList (ui.refreshAutocomplete m)
  = ui.collectMatches (ui.Files m) partial [].
Proof.
  intros Hlast Hknown. unfold ui.refreshAutocomplete. rewrite Hlast.
  destruct (TrimPrefix_at partial) as [Hp Ht]. rewrite Hp, Ht, Hknown.
  cbn [ui.AutocompleteList ui.setAutocompleteList ui.Files ui.AutocompleteIdx].
  destruct (_ >? 0)%Z; [|reflexivity].
  destruct (_ >=? _)%Z; reflexivity.
Qed.

(** Claim C3, as the code has it. For every file list and partial, the
    candidates are the first ten of the known files that contain the
    partial, in the order of the file list: never more than ten, and a
    subsequence of the file list. They are what the recomputation stores
    when the last word of the input is the trigger followed by a partial
    that is not itself a known file. With the files main.go, model.go,
    styles.go the partial "ma" gives main.go alone (model.go does not
    contain "ma"), and the partial "m" gives main.go, model.go. *)
Theorem autocomplete_candidates :
  (forall (files : list string) (search : string),
      ui.collectMatches files search []
      = firstn 10 (filter (fun f => strings.Contains f search) files)
      /\ length (ui.collectMatches files search []) <= 10
      /\ Subsequence (ui.collectMatches files search []) files)
  /\ (forall (m : Model) (partial : string),
         ui.lastWord (strings.Fields (ui.Value TA (ui.Input m)))
         = Some ("@" ++ partial)%string ->
         ui.knownFile (ui.Files m) partial = false ->
         ui.AutocompleteList (ui.refreshAutocomplete m)
         = ui.collectMatches (ui.Files m) partial [])
  /\ (forall m : Model,
         ui.Files m = ["main.go"; "model.go"; "styles.go"] ->
         ui.lastWord (strings.Fields (ui.Value TA (ui.Input m))) = Some "@ma" ->
         ui.AutocompleteList (ui.refreshAutocomplete m) = ["main.go"])
  /\ (forall m : Model,
         ui.Files m = ["main.go"; "model.go"; "styles.go"] ->
         ui.lastWord (strings.Fields (ui.Value TA (ui.Input m))) = Some "@m" ->
         ui.AutocompleteList (ui.refreshAutocomplete m) = ["main.go"; "model.go"]).
Proof.
  assert (Hall : forall files search,
             ui.collectMatches files search []
             = firstn 10 (filter (fun f => strings.Contains f search) files)).
  { intros files search.
    rewrite collectMatches_firstn by (simpl; lia). reflexivity. }
  split; [|split; [|split]].
  - intros files search. rewrite Hall. split; [reflexivity|]. split.
    + apply firstn_le_length.
    + apply Subsequence_firstn_filter.
  - exact refreshAutocomplete_candidates.
  - intros m Hfiles Hlast.
    rewrite (@refreshAutocomplete_candidates m "ma" Hlast); rewrite Hfiles; reflexivity.
  - intros m Hfiles Hlast.
    rewrite (@refreshAutocomplete_candidates m "m" Hlast); rewrite Hfiles; reflexivity.
Qed.

(** *** The selection stays inside the candidates *)

(** The invariant reads three fields only. *)
Lemma autocompleteInv_fields (m m' : Model) :
  ui.ShowAutocomplete m' = ui.ShowAutocomplete m ->
  ui.AutocompleteIdx m' = ui.AutocompleteIdx m ->
  ui.AutocompleteList m' = ui.AutocompleteList m ->
  autocompleteInv m -> autocompleteInv m'.
Proof.
  unfold autocompleteInv, autocompleteOK.
  intros Hs Hi Hl. rewrite Hs, Hi, Hl. exact (fun H => H).
Qed.

Lemma autocompleteInv_hidden (m : Model) :
  ui.ShowAutocomplete m = false ->
  (0 <= ui.AutocompleteIdx m)%Z ->
  autocompleteInv m.
Proof.
  intros Hs Hi. split; [exact Hi|]. intro H. rewrite Hs in H. discriminate H.
Qed.

Lemma refreshAutocomplete_inv (m : Model) :
  (0 <= ui.AutocompleteIdx m)%Z ->
  autocompleteInv (ui.refreshAutocomplete m).
Proof.
  intro Hi. unfold ui.refreshAutocomplete.
  destruct (ui.lastWord _) as [word|];
    [|apply autocompleteInv_hidden; [reflexivity | exact Hi]].
  destruct (strings.HasPrefix word "@");
    [|apply autocompleteInv_hidden; [reflexivity | exact Hi]].
  destruct (ui.knownFile _ _);
    [apply autocompleteInv_hidden; [reflexivity | exact Hi]|].
  cbn [ui.AutocompleteList ui.setAutocompleteList ui.Files
       ui.AutocompleteIdx ui.setShowAutocomplete].
  set (candidates := ui.collectMatches _ _ _).
  destruct (Z.gtb_spec (ui.len candidates) 0) as [Hpos|_];
    [|apply autocompleteInv_hidden; [reflexivity | exact Hi]].
  assert (Hne : candidates <> []).
  { intro He. rewrite He in Hpos. unfold ui.len in Hpos. simpl in Hpos. lia. }
  destruct (Z.geb_spec (ui.AutocompleteIdx m) (ui.len candidates)) as [_|Hlt];
    (split; [|intros _; split; [exact Hne|]]); simpl; lia.
Qed.

Lemma finish_inv (m : Model) (msg : ui.Msg) (cmds : list ui.Cmd) :
  (0 <= ui.AutocompleteIdx m)%Z ->
  autocompleteInv (fst (ui.finish m msg cmds)).
Proof.
  intro Hi. unfold ui.finish. cbn [fst].
  apply refreshAutocomplete_inv. exact Hi.
Qed.

Lemma index_in_range (l : list string) (i : Z) :
  (0 <= i < ui.len l)%Z -> exists x, ui.index l i = Some x.
Proof.
  intros [Hlo Hhi]. unfold ui.index.
  destruct (Z.ltb_spec i 0) as [Hneg|_]; [lia|].
  destruct (nth_error l (Z.to_nat i)) as [x|] eqn:Hn; [exists x; reflexivity|].
  apply nth_error_None in Hn. unfold ui.len in Hhi. lia.
Qed.

(** Confirming a selection reads the candidate under it, and hides the
    candidates. *)
Lemma acceptCandidate_inv (m : Model) :
  autocompleteInv m ->
  ui.ShowAutocomplete m = true ->
  exists m' cmd, ui.acceptCandidate m = Some (m', cmd) /\ autocompleteInv m'.
Proof.
  intros [Hi Hok] Hshow. destruct (Hok Hshow) as [_ Hrange].
  destruct (index_in_range _ Hrange) as [selected Hsel].
  unfold ui.acceptCandidate. rewrite Hsel.
  eexists _, _. split; [reflexivity|].
  apply autocompleteInv_hidden; [reflexivity|].
  destruct (strings.Fields _); exact Hi.
Qed.

Lemma submit_inv (m : Model) :
  autocompleteInv m -> autocompleteInv (fst (ui.submit m)).
Proof.
  apply autocompleteInv_fields;
    unfold ui.submit; cbn [ui.State ui.setInput ui.setHistory];
    destruct (ui.State m); reflexivity.
Qed.

Local Ltac finish_case Hinv :=
  eexists _, _; split;
  [ rewrite <- surjective_pairing; reflexivity
  | apply finish_inv; exact (proj1 Hinv) ].

Lemma onKey_inv (m : Model) (key : string) (alt : bool) (msg : ui.Msg) :
  autocompleteInv m ->
  exists m' cmd, ui.onKey m key alt msg = Some (m', cmd) /\ autocompleteInv m'.
Proof.
  intro Hinv. pose proof Hinv as [Hi Hok]. unfold ui.onKey.
  destruct (String.eqb key "ctrl+c" || String.eqb key "esc").
  { destruct (ui.ShowAutocomplete m) eqn:Hshow; eexists _, _;
      (split; [reflexivity|]).
    - apply autocompleteInv_hidden; [reflexivity | exact Hi].
    - exact Hinv. }
  destruct (String.eqb key "up").
  { destruct (ui.ShowAutocomplete m) eqn:Hshow; cbn [andb]; [|finish_case Hinv].
    destruct (Z.gtb_spec (ui.AutocompleteIdx m) 0) as [Hpos|_]; [|finish_case Hinv].
    eexists _, _. split; [reflexivity|].
    destruct (Hok Hshow) as [Hne Hrange].
    split; [simpl; lia|]. intros _. split; [exact Hne | simpl; lia]. }
  destruct (String.eqb key "down").
  { destruct (ui.ShowAutocomplete m) eqn:Hshow; cbn [andb]; [|finish_case Hinv].
    destruct (Z.ltb_spec (ui.AutocompleteIdx m) (ui.len (ui.AutocompleteList m) - 1))
      as [Hroom|_]; [|finish_case Hinv].
    eexists _, _. split; [reflexivity|].
    destruct (Hok Hshow) as [Hne Hrange].
    split; [simpl; lia|]. intros _. split; [exact Hne | simpl; lia]. }
  destruct (String.eqb key "tab").
  { destruct (ui.ShowAutocomplete m) eqn:Hshow; cbn [andb]; [|finish_case Hinv].
    destruct (_ >? 0)%Z; [|finish_case Hinv].
    apply acceptCandidate_inv; assumption. }
  destruct (String.eqb key "enter"); [|finish_case Hinv].
  destruct (ui.ShowAutocomplete m) eqn:Hshow; cbn [andb].
  { destruct (_ >? 0)%Z.
    - apply acceptCandidate_inv; assumption.
    - destruct (negb alt && _).
      + eexists _, _. split; [rewrite <- surjective_pairing; reflexivity|].
        apply submit_inv. exact Hinv.
      + finish_case Hinv. }
  destruct (negb alt && _); [|finish_case Hinv].
  eexists _, _. split; [rewrite <- surjective_pairing; reflexivity|].
  apply submit_inv. exact Hinv.
Qed.

(** Every transition keeps the invariant, and none panics from a state
    that has it. *)
Lemma Update_inv (m : Model) (msg : ui.Msg) :
  autocompleteInv m ->
  exists m' cmd, ui.Update m msg = Some (m', cmd) /\ autocompleteInv m'.
Proof.
  intro Hinv. pose proof Hinv as [Hi Hok].
  destruct msg as [action target id history | width height | key alt
                   | content history | | e | command args id history
                   | line | err id | tag];
    cbn [ui.Update];
    try (apply onKey_inv; exact Hinv);
    try (eexists _, _; split;
         [ rewrite <- surjective_pairing; reflexivity
         | apply finish_inv; exact Hi ]).
  - eexists _, _. split; [reflexivity|].
    apply autocompleteInv_fields with (m := m); try exact Hinv;
      destruct (String.eqb action "open"); try reflexivity;
      destruct (String.eqb action "close"); reflexivity.
  - destruct (ui.PendingQueue m) as [|next queue] eqn:Hq; cbn [ui.PendingQueue ui.setState].
    + rewrite Hq. eexists _, _.
      split; [rewrite <- surjective_pairing; reflexivity|].
      apply finish_inv. exact Hi.
    + rewrite Hq. eexists _, _.
      split; [rewrite <- surjective_pairing; reflexivity|].
      apply finish_inv. exact Hi.
  - eexists _, _. split; [reflexivity|].
    apply autocompleteInv_fields with (m := m); try exact Hinv; reflexivity.
  - eexists _, _. split; [reflexivity|].
    apply autocompleteInv_fields with (m := m); try exact Hinv; reflexivity.
  - eexists _, _. split; [reflexivity|].
    apply autocompleteInv_fields with (m := m); try exact Hinv;
      cbn; destruct (ui.ShowSidebar m); reflexivity.
Qed.

Lemma run_inv (msgs : list ui.Msg) :
  forall m : Model,
    autocompleteInv m -> exists m', run m msgs = Some m' /\ autocompleteInv m'.
Proof.
  induction msgs as [|msg msgs IH]; intros m Hinv; simpl.
  - exists m. split; [reflexivity | exact Hinv].
  - destruct (Update_inv msg Hinv) as [m1 [cmd [Hstep Hinv1]]].
    rewrite Hstep. apply IH. exact Hinv1.
Qed.

(** Claim C10. After every sequence of messages from the initial model,
    no transition has panicked on an index out of range, and in the state
    reached, if the candidates are shown then their list is not empty and
    the selected index is at least 0 and below its length. *)
Theorem autocomplete_selection_in_bounds
        (input : ui.textarea TA) (files : list string) (systemPrompt : string)
        (msgs : list ui.Msg) :
  exists m : Model,
    run (ui.InitialModel TA input files systemPrompt) msgs = Some m
    /\ (ui.ShowAutocomplete m = true ->
        ui.AutocompleteList m <> []
        /\ (0 <= ui.AutocompleteIdx m < ui.len (ui.AutocompleteList m))%Z
        /\ exists selected,
            ui.index (ui.AutocompleteList m) (ui.AutocompleteIdx m) = Some selected).
Proof.
  destruct (@run_inv msgs (ui.InitialModel TA input files systemPrompt))
    as [m [Hrun [_ Hok]]].
  { apply autocompleteInv_hidden; [reflexivity | simpl; lia]. }
  exists m. split; [exact Hrun|]. intro Hshow.
  destruct (Hok Hshow) as [Hne Hrange].
  split; [exact Hne|]. split; [exact Hrange|].
  apply index_in_range. exact Hrange.
Qed.

(** *** Submitting the input *)

(** "enter" submits when no candidate is to be confirmed, Alt is not held
    and the input is not empty. *)
Lemma enter_submits (m : Model) :
  ui.ShowAutocomplete m && (ui.len (ui.AutocompleteList m) >? 0)%Z = false ->
  String.eqb (ui.Value TA (ui.Input m)) "" = false ->
  ui.Update m (ui.KeyMsg "enter" false) = Some (ui.submit m).
Proof.
  intros Hshow Hinput. cbn [ui.Update]. unfold ui.onKey.
  cbn [String.eqb Ascii.eqb Bool.eqb orb].
  rewrite Hshow, Hinput. reflexivity.
Qed.

(** What a submission does, in each phase: the tagged input joins the
    history in both; while idle the phase becomes Thinking and the loop is
    invoked, the queue being left alone; while thinking the tagged input
    joins the queue as well and the phase stays. *)
Lemma submit_effect (m : Model) :
  let tagged := ui.resolveFileTags m (ui.Value TA (ui.Input m)) in
  let m' := fst (ui.submit m) in
  ui.History m' = ui.History m ++ [ui.userMsg tagged]
  /\ ui.State m' = ui.StateThinking
  /\ match ui.State m with
     | ui.StateIdle =>
       ui.PendingQueue m' = ui.PendingQueue m
       /\ snd (ui.submit m) = ui.Batch [ui.InvokeAICmd (ui.History m')]
     | ui.StateThinking =>
       ui.PendingQueue m' = ui.PendingQueue m ++ [tagged]
       /\ snd (ui.submit m) = ui.Batch []
     end.
Proof.
  destruct m as [st inp files h q out show idx cands wd ht sidebar].
  destruct st; cbn; repeat split.
Qed.

End StateMachineFacts.

Lemma autocomplete_candidates_witness :
  ui.AutocompleteList
    (ui.refreshAutocomplete (Scripted.model ui.StateIdle "look at @ma"))
  = ["main.go"]
  /\ ui.AutocompleteList
       (ui.refreshAutocomplete (Scripted.model ui.StateIdle "look at @m"))
     = ["main.go"; "model.go"].
Proof.
  split.
  - exact (proj1 (proj2 (proj2 (autocomplete_candidates Scripted.textArea)))
                 (Scripted.model ui.StateIdle "look at @ma") eq_refl eq_refl).
  - exact (proj2 (proj2 (proj2 (autocomplete_candidates Scripted.textArea)))
                 (Scripted.model ui.StateIdle "look at @m") eq_refl eq_refl).
Defined.

(** Claim C3, as the specification words it, fails: typing "a" after "@m"
    with the files main.go, model.go, styles.go leaves main.go as the only
    candidate, since "ma" does not occur in model.go. *)
Lemma ma_does_not_occur_in_model_go :
  match ui.Update (Scripted.model ui.StateIdle "look at @m") (ui.KeyMsg "a" false) with
  | Some (m', _) =>
    ui.Files m' = ["main.go"; "model.go"; "styles.go"]
    /\ ui.lastWord (strings.Fields (ui.Value Scripted.textArea (ui.Input m')))
       = Some "@ma"
    /\ strings.Contains "model.go" "ma" = false
    /\ ui.AutocompleteList m' = ["main.go"]
    /\ ui.AutocompleteList m' <> ["main.go"; "model.go"]
  | None => False
  end.
Proof.
  vm_compute. repeat split. discriminate.
Qed.

(** Claim C2, where the code departs from it. A message submitted while the
    phase is Thinking joins the queue and the phase stays, but it is written
    to the history at once too; the completion that takes it off the queue
    writes it a second time. *)
Theorem submission_while_thinking_reaches_history_twice :
  let m := Scripted.model ui.StateThinking "bar" in
  exists m1 c1 m2 c2,
    ui.History m = [] /\ ui.PendingQueue m = []
    /\ ui.Update m (ui.KeyMsg "enter" false) = Some (m1, c1)
    /\ ui.State m1 = ui.StateThinking
    /\ ui.PendingQueue m1 = ["bar"]
    /\ ui.History m1 = [ui.userMsg "bar"]
    /\ ui.Update m1 ui.AiCompleteMsg = Some (m2, c2)
    /\ ui.PendingQueue m2 = []
    /\ ui.History m2 = [ui.userMsg "bar"; ui.userMsg "bar"].
Proof.
  intro m. eexists _, _, _, _.
  split; [reflexivity|]. split; [reflexivity|].
  split; [vm_compute; reflexivity|].
  split; [reflexivity|]. split; [reflexivity|]. split; [reflexivity|].
  split; [vm_compute; reflexivity|].
  split; reflexivity.
Qed.

Lemma autocomplete_selection_in_bounds_witness :
  exists m : ui.Model Scripted.textArea,
    run (ui.InitialModel Scripted.textArea ("" : ui.textarea Scripted.textArea)
                         Scripted.goFiles "")
        [ui.KeyMsg "@" false; ui.KeyMsg "m" false; ui.KeyMsg "down" false] = Some m
    /\ ui.ShowAutocomplete m = true
    /\ ui.index (ui.AutocompleteList m) (ui.AutocompleteIdx m) = Some "model.go".
Proof.
  destruct (autocomplete_selection_in_bounds
              Scripted.textArea ("" : ui.textarea Scripted.textArea)
              Scripted.goFiles ""
              [ui.KeyMsg "@" false; ui.KeyMsg "m" false; ui.KeyMsg "down" false])
    as [m [Hrun _]].
  exists m. split; [exact Hrun|].
  vm_compute in Hrun. injection Hrun as Hm. rewrite <- Hm.
  split; reflexivity.
Defined.

(** * Further properties of the code *)

(** ** Strings *)

Lemma prefix_append (a b : string) :
  String.prefix a b = true <-> exists post, b = (a ++ post)%string.
Proof.
  revert a. induction b as [|d b IH]; intros [|c a]; simpl.
  - split; [intros _; exists ""; reflexivity | reflexivity].
  - split; [discriminate | intros [post Hp]; discriminate Hp].
  - split; [intros _; eexists; reflexivity | reflexivity].
  - destruct (ascii_dec c d) as [->|Hne].
    + rewrite IH. split; intros [post Hp]; exists post.
      * rewrite Hp. reflexivity.
      * injection Hp as Hp. exact Hp.
    + split; [discriminate|]. intros [post Hp]. injection Hp as Hc _.
      symmetry in Hc. contradiction.
Qed.

Lemma from_append (a b : string) :
  strings.from (String.length a) (a ++ b) = b.
Proof.
  unfold strings.from. induction a as [|c a IH]; simpl.
  - rewrite Nat.sub_0_r. apply substring_all.
  - exact IH.
Qed.

Lemma split_at (s : string) :
  forall n, n <= String.length s ->
            s = (String.substring 0 n s ++ strings.from n s)%string.
Proof.
  unfold strings.from.
  induction s as [|c s IH]; intros n Hn; simpl in Hn.
  - assert (n = 0) by lia. subst n. reflexivity.
  - destruct n as [|n]; simpl.
    + rewrite substring_all. reflexivity.
    + rewrite <- IH by lia. reflexivity.
Qed.

Lemma HasSuffix_append (s suffix : string) :
  strings.HasSuffix s suffix = true <-> exists pre, s = (pre ++ suffix)%string.
Proof.
  unfold strings.HasSuffix. split.
  - intro Hs. apply andb_prop in Hs. destruct Hs as [Hlen Heq].
    apply Nat.leb_le in Hlen. apply String.eqb_eq in Heq.
    exists (String.substring 0 (String.length s - String.length suffix) s).
    assert (Hsplit := @split_at s (String.length s - String.length suffix)).
    rewrite Heq in Hsplit. apply Hsplit. lia.
  - intros [pre ->]. rewrite string_length_append.
    replace (String.length pre + String.length suffix - String.length suffix)
      with (String.length pre) by lia.
    rewrite from_append, String.eqb_refl.
    replace (Nat.leb _ _) with true; [reflexivity|].
    symmetry. apply Nat.leb_le. lia.
Qed.

Lemma Contains_append (s sub : string) :
  strings.Contains s sub = true
  <-> exists pre post, s = (pre ++ sub ++ post)%string.
Proof.
  induction s as [|c s IH]; cbn [strings.Contains].
  - rewrite orb_false_r, prefix_append. split.
    + intros [post Hp]. exists "", post. exact Hp.
    + intros [pre [post Hp]]. destruct pre; [exists post; exact Hp | discriminate Hp].
  - rewrite orb_true_iff, prefix_append, IH. split.
    + intros [[post Hp]|[pre [post Hp]]].
      * exists "", post. exact Hp.
      * exists (String c pre), post. rewrite Hp. reflexivity.
    + intros [pre [post Hp]]. destruct pre as [|d pre].
      * left. exists post. exact Hp.
      * right. injection Hp as _ Hp. exists pre, post. exact Hp.
Qed.

(** Replacing once rewrites the first occurrence and nothing else. *)
Lemma ReplaceFirst_first (s old new : string) :
  strings.Contains s old = true ->
  exists pre post,
    s = (pre ++ old ++ post)%string
    /\ strings.ReplaceFirst s old new = (pre ++ new ++ post)%string
    /\ forall pre' post',
        s = (pre' ++ old ++ post')%string ->
        String.length pre <= String.length pre'.
Proof.
  induction s as [|c s IH]; intro Hc.
  - cbn [strings.Contains] in Hc. rewrite orb_false_r in Hc.
    pose proof Hc as Hp. apply prefix_append in Hp. destruct Hp as [post Hp].
    exists "", post. cbn [strings.ReplaceFirst]. rewrite Hc.
    split; [exact Hp|]. split; [|intros; simpl; lia].
    rewrite Hp at 1. rewrite from_append. reflexivity.
  - cbn [strings.ReplaceFirst].
    destruct (String.prefix old (String c s)) eqn:Hpre.
    + pose proof Hpre as Hp. apply prefix_append in Hp. destruct Hp as [post Hp].
      exists "", post. split; [exact Hp|]. split; [|intros; simpl; lia].
      rewrite Hp at 1. rewrite from_append. reflexivity.
    + cbn [strings.Contains] in Hc. rewrite Hpre in Hc. cbn [orb] in Hc.
      destruct (IH Hc) as [pre [post [Hs [Hr Hmin]]]].
      exists (String c pre), post. split; [rewrite Hs at 1; reflexivity|].
      split; [rewrite Hr; reflexivity|].
      intros pre' post' Hs'. destruct pre' as [|d pre'].
      * exfalso. assert (Ht : String.prefix old (String c s) = true).
        { apply prefix_append. exists post'. exact Hs'. }
        rewrite Hpre in Ht. discriminate Ht.
      * injection Hs' as _ Hs'. simpl. apply le_n_S. exact (Hmin _ _ Hs').
Qed.

(** ** The bodies of the tools *)

Section ToolFacts.

Variable World : Type.
Variable H : tools.Host World.

Local Ltac run_tool := unfold bind, ret; simpl.

(** A path that ends in ".env" is refused by the three file tools before
    anything is asked of the operating system: the error is the same and
    the world is the one the tool was called in. *)
Theorem env_files_are_refused (input dir : string) (w : World) :
  let path := (dir ++ ".env")%string in
  (tools.UnmarshalReadFileInput H input = Ok path ->
   tools.ReadFile H input w = (Err tools.accessDenied, w))
  /\ (forall content ext,
         tools.UnmarshalWriteFileInput H input = Ok (path, content, ext) ->
         tools.WriteFile H input w = (Err tools.accessDenied, w))
  /\ (forall searchText replaceText,
         tools.UnmarshalEditFileInput H input = Ok (path, searchText, replaceText) ->
         tools.EditFile H input w = (Err tools.accessDenied, w)).
Proof.
  intro path.
  assert (Hs : strings.HasSuffix path ".env" = true).
  { apply HasSuffix_append. exists dir. reflexivity. }
  split; [|split].
  - intro Hd. unfold tools.ReadFile. rewrite Hd, Hs. reflexivity.
  - intros content ext Hd. unfold tools.WriteFile. rewrite Hd, Hs. reflexivity.
  - intros searchText replaceText Hd. unfold tools.EditFile. rewrite Hd, Hs. reflexivity.
Qed.

(** When [ReadFile] succeeds, the path decoded does not end in ".env", the
    size reported by the file status is at most 100 KB, the content read is
    valid UTF-8, and the text returned is a header naming the path, the
    number of bytes and one more than the number of newlines, followed by
    the content unchanged. *)
Theorem ReadFile_success (input text : string) (w w' : World) :
  tools.ReadFile H input w = (Ok text, w') ->
  exists path size content w1,
    tools.UnmarshalReadFileInput H input = Ok path
    /\ (forall dir, path <> (dir ++ ".env")%string)
    /\ tools.Stat H path w = (Ok size, w1)
    /\ (size <= 102400)%Z
    /\ tools.osReadFile H path w1 = (Ok content, w')
    /\ tools.utf8Valid H content = true
    /\ text = ("File: " ++ path ++ ui.newline
                 ++ "Size: " ++ tools.Itoa (String.length content) ++ " bytes"
                 ++ ui.newline
                 ++ "Lines: " ++ tools.Itoa (strings.Count content ui.newline + 1)
                 ++ ui.newline ++ ui.newline ++ content)%string.
Proof.
  unfold tools.ReadFile. intro Hrun.
  destruct (tools.UnmarshalReadFileInput H input) as [path|e]; [|discriminate Hrun].
  destruct (strings.HasSuffix path ".env") eqn:Hs; [discriminate Hrun|].
  unfold bind, ret in Hrun.
  destruct (tools.Stat H path w) as [[size|e] w1] eqn:Hstat; [|discriminate Hrun].
  destruct (Z.gtb_spec size (100 * 1024)) as [Hbig|Hsmall]; [discriminate Hrun|].
  destruct (tools.osReadFile H path w1) as [[content|e] w2] eqn:Hread;
    [|discriminate Hrun].
  destruct (tools.utf8Valid H content) eqn:Hvalid; [|discriminate Hrun].
  cbn [negb] in Hrun. injection Hrun as Htext Hw. subst w2.
  exists path, size, content, w1.
  split; [reflexivity|]. split.
  { intros dir Hp. assert (Ht : strings.HasSuffix path ".env" = true).
    { apply HasSuffix_append. exists dir. exact Hp. }
    rewrite Hs in Ht. discriminate Ht. }
  split; [exact Hstat|]. split; [lia|]. split; [exact Hread|].
  split; [exact Hvalid|]. symmetry. exact Htext.
Qed.

(** [EditFile] writes at most once, and only the content it read with the
    first occurrence of the search text replaced. Whatever it returns, the
    world it leaves is the one it was called in (with an error), or the one
    left by reading the file (with an error: the file cannot be read or the
    search text is not in it), or the one left by writing, after that
    reading, the content [pre ++ replaceText ++ post], where the content
    read is [pre ++ searchText ++ post] and no occurrence starts before
    [pre] ends. *)
Theorem EditFile_writes_first_occurrence (input : string) (w w' : World)
        (r : Result string) :
  tools.EditFile H input w = (r, w') ->
  (w' = w /\ exists e, r = Err e)
  \/ (exists path searchText replaceText,
         tools.UnmarshalEditFileInput H input = Ok (path, searchText, replaceText)
         /\ ((w' = snd (tools.osReadFile H path w)
              /\ (forall content, fst (tools.osReadFile H path w) = Ok content ->
                                  strings.Contains content searchText = false)
              /\ exists e, r = Err e)
             \/ exists content w1 pre post,
                 tools.osReadFile H path w = (Ok content, w1)
                 /\ content = (pre ++ searchText ++ post)%string
                 /\ (forall pre' post',
                        content = (pre' ++ searchText ++ post')%string ->
                        String.length pre <= String.length pre')
                 /\ w' = snd (tools.osWriteFile H path
                                (pre ++ replaceText ++ post)%string w1)
                 /\ (r = Ok ("Successfully edited " ++ path)%string
                     \/ exists e, r = Err ("failed to write file: " ++ e)%string))).
Proof.
  unfold tools.EditFile. intro Hrun.
  destruct (tools.UnmarshalEditFileInput H input) as [[[path searchText] replaceText]|e].
  2: { injection Hrun as Hr Hw. left. split; [symmetry; exact Hw|].
       eexists. symmetry. exact Hr. }
  destruct (strings.HasSuffix path ".env").
  { injection Hrun as Hr Hw. left. split; [symmetry; exact Hw|].
    eexists. symmetry. exact Hr. }
  right. exists path, searchText, replaceText. split; [reflexivity|].
  unfold bind, ret in Hrun.
  destruct (tools.osReadFile H path w) as [[content|e] w1] eqn:Hread.
  2: { injection Hrun as Hr Hw. left. cbn [snd fst].
       split; [symmetry; exact Hw|]. split; [discriminate|].
       eexists. symmetry. exact Hr. }
  destruct (strings.Contains content searchText) eqn:Hc; cbn [negb] in Hrun.
  2: { injection Hrun as Hr Hw. left. cbn [snd fst].
       split; [symmetry; exact Hw|]. split.
       - intros c Hok. injection Hok as <-. exact Hc.
       - eexists. symmetry. exact Hr. }
  right.
  destruct (@ReplaceFirst_first content searchText replaceText Hc) as [pre [post [Hs [Hr Hmin]]]].
  exists content, w1, pre, post.
  split; [reflexivity|]. split; [exact Hs|]. split; [exact Hmin|].
  rewrite Hr in Hrun.
  destruct (tools.osWriteFile H path (pre ++ replaceText ++ post)%string w1)
    as [[e|] w2]; injection Hrun as Hres Hw; cbn [snd].
  - split; [symmetry; exact Hw|]. right. exists e. symmetry. exact Hres.
  - split; [symmetry; exact Hw|]. left. symmetry. exact Hres.
Qed.

(** [WriteFile] succeeds only after it created the directory of the path and
    then wrote the content there, in that order; the path does not end in
    ".env" and the text returned reports the length of the content. *)
Theorem WriteFile_success (input text : string) (w w' : World) :
  tools.WriteFile H input w = (Ok text, w') ->
  exists path content ext w1,
    tools.UnmarshalWriteFileInput H input = Ok (path, content, ext)
    /\ (forall dir, path <> (dir ++ ".env")%string)
    /\ tools.MkdirAll H (tools.filepathDir H path) w = (None, w1)
    /\ tools.osWriteFile H path content w1 = (None, w')
    /\ text = ("Successfully wrote to " ++ path ++ " (Length: "
                 ++ tools.Itoa (String.length content) ++ " characters)")%string.
Proof.
  unfold tools.WriteFile. intro Hrun.
  destruct (tools.UnmarshalWriteFileInput H input) as [[[path content] ext]|e];
    [|discriminate Hrun].
  destruct (strings.HasSuffix path ".env") eqn:Hs; [discriminate Hrun|].
  unfold bind, ret in Hrun.
  destruct (tools.MkdirAll H (tools.filepathDir H path) w) as [[e|] w1] eqn:Hdir;
    [discriminate Hrun|].
  destruct (tools.osWriteFile H path content w1) as [[e|] w2] eqn:Hwrite;
    [discriminate Hrun|].
  injection Hrun as Htext Hw. subst w2.
  exists path, content, ext, w1.
  split; [reflexivity|]. split.
  { intros dir Hp. assert (Ht : strings.HasSuffix path ".env" = true).
    { apply HasSuffix_append. exists dir. exact Hp. }
    rewrite Hs in Ht. discriminate Ht. }
  split; [exact Hdir|]. split; [exact Hwrite|]. symmetry. exact Htext.
Qed.

(** [RunCommand] returns an error only for a payload that does not decode,
    and then it has run and printed nothing. Once the payload decodes the
    command is run and the call succeeds, whatever the command did: a
    command that fails gives a text that starts with "Error: ", never an
    error of the tool. *)
Theorem RunCommand_fails_only_on_payload (input : string) (w : World) :
  (forall e w', tools.RunCommand H input w = (Err e, w') ->
                tools.UnmarshalRunCommandInput H input = Err e /\ w' = w)
  /\ (forall command args,
         tools.UnmarshalRunCommandInput H input = Ok (command, args) ->
         exists text, fst (tools.RunCommand H input w) = Ok text)
  /\ (forall command args output err w1 w2,
         tools.UnmarshalRunCommandInput H input = Ok (command, args) ->
         let cmdName :=
           agent.ResolveBinary (fun bin => tools.LookPath H bin w) command in
         tools.Printf H ("[Exec] " ++ cmdName ++ " " ++ tools.showArgs args
                           ++ ui.newline)%string w = (tt, w1) ->
         tools.CombinedOutput H cmdName args w1 = (output, Some err, w2) ->
         tools.RunCommand H input w
         = (Ok ("Error: " ++ err ++ ui.newline ++ "Output:" ++ ui.newline
                  ++ output)%string, w2)).
Proof.
  unfold tools.RunCommand.
  destruct (tools.UnmarshalRunCommandInput H input) as [[command args]|e0].
  - split; [|split].
    + intros e w' Hrun. exfalso. unfold bind, ret in Hrun.
      destruct (tools.Printf H _ w) as [u w1].
      destruct (tools.CombinedOutput H _ args w1) as [[output [err|]] w2];
        discriminate Hrun.
    + intros c a _. unfold bind, ret.
      destruct (tools.Printf H _ w) as [u w1].
      destruct (tools.CombinedOutput H _ args w1) as [[output [err|]] w2];
        eexists; reflexivity.
    + intros c a output err w1 w2 Hd Hp Hc.
      injection Hd as <- <-. unfold bind, ret.
      rewrite Hp, Hc. reflexivity.
  - split; [|split].
    + intros e w' Hrun. injection Hrun as <- <-. split; reflexivity.
    + intros c a Hd. discriminate Hd.
    + intros c a output err w1 w2 Hd. discriminate Hd.
Qed.

(** [ManageWindow] succeeds exactly for a payload that decodes with the
    action "open" or "close"; it leaves the world as it is in every case. *)
Theorem ManageWindow_accepts_open_and_close (input : string) (w : World) :
  snd (tools.ManageWindow H input w) = w
  /\ forall text,
      fst (tools.ManageWindow H input w) = Ok text
      <-> exists action target,
          tools.UnmarshalManageWindowInput H input = Ok (action, target)
          /\ (action = "open" \/ action = "close")
          /\ text = ("Window action '" ++ action ++ "' triggered for target '"
                       ++ target ++ "'")%string.
Proof.
  unfold tools.ManageWindow.
  destruct (tools.UnmarshalManageWindowInput H input) as [[action target]|e].
  - destruct (String.eqb_spec action "open") as [Ho|Ho];
      [|destruct (String.eqb_spec action "close") as [Hc|Hc]];
      cbn [negb andb]; (split; [reflexivity|]); intro text; cbn [fst ret]; split.
    + intro Ht. injection Ht as <-. exists action, target.
      split; [reflexivity|]. split; [left; exact Ho | reflexivity].
    + intros [a [t [Hd [_ Ht]]]]. injection Hd as <- <-. rewrite Ht. reflexivity.
    + intro Ht. injection Ht as <-. exists action, target.
      split; [reflexivity|]. split; [right; exact Hc | reflexivity].
    + intros [a [t [Hd [_ Ht]]]]. injection Hd as <- <-. rewrite Ht. reflexivity.
    + discriminate.
    + intros [a [t [Hd [[Ha|Ha] _]]]]; injection Hd as <- <-; contradiction.
  - split; [reflexivity|]. intro text. cbn [fst ret]. split; [discriminate|].
    intros [a [t [Hd _]]]. discriminate Hd.
Qed.

End ToolFacts.

(** ** The registry and the binary fallback *)

Section RegistryFacts.

Variable World : Type.
Variable fns : agent.ToolFunctions World.

Lemma executeIn_unknown (defs : list (agent.ToolDefinition World))
      (name args : string) (w : World) :
  ~ In name (map (@agent.Name World) defs) ->
  agent.executeIn defs name args w = (Err ("unknown tool: " ++ name)%string, w).
Proof.
  induction defs as [|d defs IH]; intro Hn; simpl.
  - reflexivity.
  - destruct (String.eqb_spec (agent.Name d) name) as [He|_].
    + exfalso. apply Hn. left. exact He.
    + apply IH. intro Hin. apply Hn. right. exact Hin.
Qed.

Lemma executeIn_known (defs : list (agent.ToolDefinition World))
      (d : agent.ToolDefinition World) (args : string) :
  NoDup (map (@agent.Name World) defs) ->
  In d defs ->
  agent.executeIn defs (agent.Name d) args = agent.Function d args.
Proof.
  induction defs as [|a defs IH]; intros Hnd Hin; simpl.
  - contradiction.
  - inversion Hnd as [|x l Hfresh Hrest]; subst.
    destruct Hin as [->|Hin].
    + rewrite String.eqb_refl. reflexivity.
    + destruct (String.eqb_spec (agent.Name a) (agent.Name d)) as [He|_].
      * exfalso. apply Hfresh. rewrite He. apply in_map. exact Hin.
      * apply IH; assumption.
Qed.

(** The seven tools are registered under seven different names, so that
    each is the one [ExecuteToolByName] runs for its name; for any other
    name the call fails with "unknown tool: " and the name, and nothing has
    run. *)
Theorem registry_dispatch :
  NoDup (map (@agent.Name World) (agent.GetAllToolDefinitions fns))
  /\ (forall d args,
         In d (agent.GetAllToolDefinitions fns) ->
         agent.ExecuteToolByName fns (agent.Name d) args = agent.Function d args)
  /\ (forall name args w,
         ~ In name ["read_file"; "list_files"; "run_command"; "init_project";
                    "write_file"; "edit_file"; "manage_window"] ->
         agent.ExecuteToolByName fns name args w
         = (Err ("unknown tool: " ++ name)%string, w)).
Proof.
  assert (Hnd : NoDup (map (@agent.Name World) (agent.GetAllToolDefinitions fns))).
  { simpl. repeat constructor; simpl; intuition discriminate. }
  split; [exact Hnd|]. split.
  - intros d args Hin. apply executeIn_known; assumption.
  - intros name args w Hn. apply executeIn_unknown. exact Hn.
Qed.

End RegistryFacts.

(** [ResolveBinary] answers the name it was given when that name is found,
    and otherwise only ever replaces "python" by "python3" and "pip" by
    "pip3", and only when the replacement is found; resolving its answer
    again changes nothing. *)
Theorem ResolveBinary_fallback (LookPath : string -> bool) (bin : string) :
  let resolved := agent.ResolveBinary LookPath bin in
  (LookPath bin = true -> resolved = bin)
  /\ (resolved <> bin ->
      LookPath bin = false /\ LookPath resolved = true
      /\ ((bin = "python" /\ resolved = "python3")
          \/ (bin = "pip" /\ resolved = "pip3")))
  /\ agent.ResolveBinary LookPath resolved = resolved.
Proof.
  intro resolved. subst resolved.
  assert (Hcases :
            (LookPath bin = true /\ agent.ResolveBinary LookPath bin = bin)
            \/ (LookPath bin = false /\ agent.ResolveBinary LookPath bin = bin)
            \/ (LookPath bin = false /\ LookPath "python3" = true
                /\ bin = "python" /\ agent.ResolveBinary LookPath bin = "python3")
            \/ (LookPath bin = false /\ LookPath "pip3" = true
                /\ bin = "pip" /\ agent.ResolveBinary LookPath bin = "pip3")).
  { unfold agent.ResolveBinary.
    destruct (LookPath bin) eqn:Hbin; [left; split; reflexivity|].
    right.
    destruct (String.eqb_spec bin "python") as [Hpy|Hpy].
    - destruct (LookPath "python3") eqn:H3.
      + right. left. repeat split; assumption.
      + left. split; reflexivity.
    - destruct (String.eqb_spec bin "pip") as [Hpip|Hpip].
      + destruct (LookPath "pip3") eqn:H3.
        * right. right. repeat split; assumption.
        * left. split; reflexivity.
      + left. split; reflexivity. }
  destruct Hcases as [[Hb Hr]|[[Hb Hr]|[[Hb [H3 [Hn Hr]]]|[Hb [H3 [Hn Hr]]]]]];
    rewrite Hr.
  - split; [reflexivity|]. split; [intro Hne; contradiction | exact Hr].
  - split; [reflexivity|]. split; [intro Hne; contradiction | exact Hr].
  - split; [intro Ht; rewrite Hb in Ht; discriminate Ht|]. split.
    + intros _. split; [exact Hb|]. split; [exact H3|]. left. split; [exact Hn | reflexivity].
    + unfold agent.ResolveBinary. rewrite H3. reflexivity.
  - split; [intro Ht; rewrite Hb in Ht; discriminate Ht|]. split.
    + intros _. split; [exact Hb|]. split; [exact H3|]. right. split; [exact Hn | reflexivity].
    + unfold agent.ResolveBinary. rewrite H3. reflexivity.
Qed.

(** ** What the agent loop returns *)

Section LoopOutcomes.

Variable World : Type.
Variable P : ui.Platform World.

(** The loop over the calls of a reply, whatever the calls. If it runs to
    the end, every call was synchronous and left its tool message, in
    order. If it returns, it is on the first out-of-band call, with the
    request of that call, whose history holds the tool messages of the
    calls before it and nothing for the calls after it. *)
Lemma executeToolCalls_cases (calls : list openai.ToolCall) :
  forall (messages : Conversation) (s : ui.Net World),
    match fst (ui.executeToolCalls P calls messages s) with
    | ui.Continue messages' =>
      Forall (synchronous P) calls
      /\ exists results,
          messages' = messages ++ results /\ toolResults calls results
    | ui.Return msg =>
      exists pre c post results,
        calls = pre ++ c :: post
        /\ Forall (synchronous P) pre
        /\ outOfBand P c
        /\ toolResults pre results
        /\ requestFor P c (messages ++ results) msg
    end.
Proof.
  induction calls as [|c calls IH]; intros messages s; simpl.
  - split; [constructor|]. exists []. rewrite app_nil_r.
    split; [reflexivity|]. split; constructor.
  - pose proof (suspendOn_spec P c messages) as Hspec.
    destruct (ui.suspendOn P c messages) as [msg|]; simpl.
    + exists [], c, calls, []. rewrite app_nil_r.
      split; [reflexivity|]. split; [constructor|].
      split; [exact (requestFor_any_history [] Hspec)|].
      split; [split; constructor | exact Hspec].
    + unfold bind, ui.inWorld.
      destruct (agent.ExecuteToolByName _ _ _ _) as [r w].
      specialize (IH (messages ++ [ui.toolMsg c (ui.toolResult r)])
                     {| ui.world := w; ui.sent := ui.sent s |}).
      destruct (fst (ui.executeToolCalls _ _ _ _)) as [msg|messages'].
      * destruct IH as [pre [d [post [results [Hc [Hpre [Hd [[Hids Hroles] Hreq]]]]]]]].
        exists (c :: pre), d, post, (ui.toolMsg c (ui.toolResult r) :: results).
        split; [rewrite Hc; reflexivity|].
        split; [constructor; assumption|]. split; [exact Hd|].
        split.
        -- split; [simpl; rewrite Hids; reflexivity|].
           constructor; [reflexivity | exact Hroles].
        -- rewrite <- app_assoc in Hreq. exact Hreq.
      * destruct IH as [Hsync [results [Hm [Hids Hroles]]]].
        split; [constructor; assumption|].
        exists (ui.toolMsg c (ui.toolResult r) :: results).
        split; [rewrite Hm, <- app_assoc; reflexivity|].
        split; [simpl; rewrite Hids; reflexivity|].
        constructor; [reflexivity | exact Hroles].
Qed.

Section Induction.

(** A property of the message returned, relative to the history received,
    holds of every run of the loop if it holds of each way out of an
    iteration, and is carried back over an iteration that goes on. *)
Variable Q : Conversation -> ui.Msg -> Prop.

Hypothesis Qmax : forall h, Q h (ui.ErrMsg ui.errMaxIterations).
Hypothesis Qapi : forall h err, Q h (ui.ErrMsg ("API error: " ++ err)%string).
Hypothesis Qnone : forall h, Q h (ui.ErrMsg "no response from model").
Hypothesis Qfinal :
  forall h content,
    Q h (ui.AiResponseMsg content (h ++ [ui.assistantMsg content []])).
Hypothesis Qsuspend :
  forall h content pre c post results msg,
    toolResults pre results ->
    requestFor P c ((h ++ [ui.assistantMsg content (pre ++ c :: post)]) ++ results) msg ->
    Q h msg.
Hypothesis Qstep :
  forall h content calls results msg,
    toolResults calls results ->
    Q ((h ++ [ui.assistantMsg content calls]) ++ results) msg ->
    Q h msg.

Lemma agenticLoop_outcome (n : nat) :
  forall modelName h s, Q h (fst (ui.agenticLoop P n modelName h s)).
Proof.
  induction n as [|n IH]; intros modelName h s.
  - apply Qmax.
  - rewrite agenticLoop_S.
    destruct (ui.CreateChatCompletion P _ _) as [[resp|err] w]; [|apply Qapi].
    destruct (openai.Choices resp) as [|choice rest]; [apply Qnone|].
    cbv zeta.
    destruct (openai.ToolCalls (openai.Message choice)) as [|c calls] eqn:Hcalls;
      [apply Qfinal|].
    match goal with
    | |- context [ui.executeToolCalls P ?cs ?ms ?st] =>
      pose proof (executeToolCalls_cases cs ms st) as Hout;
      destruct (ui.executeToolCalls P cs ms st) as [[msg|messages'] s2]
    end; cbn [fst] in Hout |- *.
    + destruct Hout as [pre [d [post [results [Hc [_ [_ [Hres Hreq]]]]]]]].
      rewrite Hc in Hreq. eapply Qsuspend; eassumption.
    + destruct Hout as [_ [results [Hm Hres]]]. subst messages'.
      eapply Qstep; [exact Hres | apply IH].
Qed.

End Induction.

(** [InvokeAI] never returns anything but a final response, one of the two
    out-of-band requests, or an error with one of four texts. The history
    of a final response is the history received, then what the loop added,
    then the assistant message with the text returned last; the history of
    an out-of-band request is the history received followed by at least the
    assistant message that asked for the tool. The loop never drops or
    rewrites a message it was given. *)
Theorem invoke_returns (h : Conversation) (s : ui.Net World) :
  match fst (ui.InvokeAI P h s) with
  | ui.AiResponseMsg content h' =>
    exists more, h' = (h ++ more) ++ [ui.assistantMsg content []]
  | ui.RunCommandMsg _ _ _ h' | ui.WindowControlMsg _ _ _ h' =>
    exists more, h' = h ++ more /\ more <> []
  | ui.ErrMsg e =>
    e = "PROVIDER_MODEL not set in .env"
    \/ e = "no response from model"
    \/ e = ui.errMaxIterations
    \/ exists err, e = ("API error: " ++ err)%string
  | _ => False
  end.
Proof.
  unfold ui.InvokeAI.
  destruct (String.eqb _ _); [left; reflexivity|].
  apply agenticLoop_outcome
    with (Q := fun h msg =>
                 match msg with
                 | ui.AiResponseMsg content h' =>
                   exists more, h' = (h ++ more) ++ [ui.assistantMsg content []]
                 | ui.RunCommandMsg _ _ _ h' | ui.WindowControlMsg _ _ _ h' =>
                   exists more, h' = h ++ more /\ more <> []
                 | ui.ErrMsg e =>
                   e = "PROVIDER_MODEL not set in .env"
                   \/ e = "no response from model"
                   \/ e = ui.errMaxIterations
                   \/ exists err, e = ("API error: " ++ err)%string
                 | _ => False
                 end).
  - intros h0. right. right. left. reflexivity.
  - intros h0 err. right. right. right. exists err. reflexivity.
  - intros h0. right. left. reflexivity.
  - intros h0 content. exists []. rewrite app_nil_r. reflexivity.
  - intros h0 content pre c post results msg _ Hreq.
    destruct Hreq as [[command [args [_ [_ ->]]]]|[action [target [_ [_ ->]]]]];
      (exists ([ui.assistantMsg content (pre ++ c :: post)] ++ results);
       split; [rewrite app_assoc; reflexivity | discriminate]).
  - intros h0 content calls results msg _ Hq.
    destruct msg as [a t i h'|? ?|? ?|c0 h'| |e|cm ar i h'|?|? ?|?]; try exact Hq.
    + destruct Hq as [more [Hh Hne]].
      exists (([ui.assistantMsg content calls] ++ results) ++ more).
      split; [rewrite Hh, !app_assoc; reflexivity|].
      discriminate.
    + destruct Hq as [more Hh].
      exists (([ui.assistantMsg content calls] ++ results) ++ more).
      rewrite Hh, !app_assoc. reflexivity.
    + destruct Hq as [more [Hh Hne]].
      exists (([ui.assistantMsg content calls] ++ results) ++ more).
      split; [rewrite Hh, !app_assoc; reflexivity|].
      discriminate.
Qed.

Lemma openCalls_app (a b : Conversation) :
  forall open, openCalls open (a ++ b) = openCalls (openCalls open a) b.
Proof.
  induction a as [|m a IH]; intro open; simpl; [reflexivity|].
  destruct (String.eqb _ _); apply IH.
Qed.

Lemma answersCalls_app (a b : Conversation) :
  forall open,
    answersCalls open (a ++ b)
    <-> answersCalls open a /\ answersCalls (openCalls open a) b.
Proof.
  induction a as [|m a IH]; intro open; simpl.
  - tauto.
  - destruct (String.eqb (openai.Role m) openai.ChatMessageRoleTool) eqn:Ht.
    + assert (Ha : String.eqb (openai.Role m) openai.ChatMessageRoleAssistant = false).
      { apply String.eqb_eq in Ht. rewrite Ht. reflexivity. }
      rewrite Ha, IH. tauto.
    + destruct (String.eqb (openai.Role m) openai.ChatMessageRoleAssistant); apply IH.
Qed.

(** Tool messages that answer calls among the open ones keep the history
    paired, and leave the same calls open. *)
Lemma toolResults_answer (open : list string) (results : Conversation) :
  Forall (fun r => openai.Role r = openai.ChatMessageRoleTool) results ->
  incl (map openai.ToolCallID results) open ->
  answersCalls open results /\ openCalls open results = open.
Proof.
  induction 1 as [|r results Hr _ IH]; intro Hincl; simpl.
  - split; [exact I | reflexivity].
  - rewrite Hr. cbn [String.eqb Ascii.eqb Bool.eqb openai.ChatMessageRoleTool
                       openai.ChatMessageRoleAssistant andb].
    destruct IH as [Ha Ho].
    { intros x Hx. apply Hincl. right. exact Hx. }
    split; [|exact Ho]. split; [|exact Ha]. apply Hincl. left. reflexivity.
Qed.

Lemma iteration_keeps_paired (h : Conversation) (content : string)
      (calls pre : list openai.ToolCall) (results : Conversation) :
  incl pre calls ->
  toolResults pre results ->
  answersCalls [] h ->
  answersCalls [] ((h ++ [ui.assistantMsg content calls]) ++ results)
  /\ openCalls [] ((h ++ [ui.assistantMsg content calls]) ++ results)
     = map openai.ID calls.
Proof.
  intros Hincl [Hids Hroles] Hh.
  destruct (@toolResults_answer (map openai.ID calls) results Hroles) as [Ha Ho].
  { rewrite Hids. intros x Hx. apply in_map_iff in Hx. destruct Hx as [c [<- Hc]].
    apply in_map. apply Hincl. exact Hc. }
  assert (Hopen : openCalls [] (h ++ [ui.assistantMsg content calls])
                  = map openai.ID calls).
  { rewrite openCalls_app. reflexivity. }
  split.
  - apply answersCalls_app. rewrite Hopen. split; [|exact Ha].
    apply answersCalls_app. split; [exact Hh|]. simpl. exact I.
  - rewrite openCalls_app, Hopen. exact Ho.
Qed.

(** The loop keeps the tool messages paired with their calls: if in the
    history received every tool message carries the id of a call of the
    nearest assistant message before it, the same holds of the history
    returned, in a final response as in an out-of-band request; and the id
    an out-of-band request carries is the id of a call of the last
    assistant message of its history, which is the message the caller's
    tool result will answer. *)
Theorem invoke_keeps_tool_messages_paired (h : Conversation) (s : ui.Net World) :
  answersCalls [] h ->
  match fst (ui.InvokeAI P h s) with
  | ui.AiResponseMsg _ h' => answersCalls [] h'
  | ui.RunCommandMsg _ _ id h' | ui.WindowControlMsg _ _ id h' =>
    answersCalls [] h' /\ In id (openCalls [] h')
  | _ => True
  end.
Proof.
  unfold ui.InvokeAI.
  destruct (String.eqb _ _); [intros _; exact I|].
  apply agenticLoop_outcome
    with (Q := fun h msg =>
                 answersCalls [] h ->
                 match msg with
                 | ui.AiResponseMsg _ h' => answersCalls [] h'
                 | ui.RunCommandMsg _ _ id h' | ui.WindowControlMsg _ _ id h' =>
                   answersCalls [] h' /\ In id (openCalls [] h')
                 | _ => True
                 end).
  - intros h0 _. exact I.
  - intros h0 err _. exact I.
  - intros h0 _. exact I.
  - intros h0 content Hh. apply answersCalls_app. split; [exact Hh | simpl; exact I].
  - intros h0 content pre c post results msg Hres Hreq Hh.
    destruct (@iteration_keeps_paired h0 content (pre ++ c :: post) pre results)
      as [Ha Ho]; try assumption.
    { intros x Hx. apply in_or_app. left. exact Hx. }
    assert (Hid : In (openai.ID c) (map openai.ID (pre ++ c :: post))).
    { apply in_map. apply in_or_app. right. left. reflexivity. }
    destruct Hreq as [[command [args [_ [_ ->]]]]|[action [target [_ [_ ->]]]]];
      (split; [exact Ha | rewrite Ho; exact Hid]).
  - intros h0 content calls results msg Hres Hq Hh. apply Hq.
    apply (@iteration_keeps_paired h0 content calls calls results);
      [apply incl_refl | exact Hres | exact Hh].
Qed.

End LoopOutcomes.

(** ** The loop over the registry of the tool bodies *)

(** When the loop decodes the payloads of [run_command] and [manage_window]
    as the bodies of the two tools do, a call with one of these names never
    gets the body past its decoding: either the payload decodes, and the
    loop returns the request to its caller without calling the registry,
    or it does not, and the body run through the registry fails on the same
    payload, leaving its error as the tool message. In both cases the world
    is untouched by the call: from the loop, [RunCommand] never runs a
    command and [ManageWindow] never judges an action. *)
Theorem loop_never_runs_the_out_of_band_bodies
        (World : Type) (P : ui.Platform World) (H : tools.Host World)
        (c : openai.ToolCall) (post : list openai.ToolCall)
        (messages : Conversation) (s : ui.Net World) :
  (forall a p, ui.UnmarshalCommand P a = Some p
               <-> tools.UnmarshalRunCommandInput H a = Ok p) ->
  (forall a p, ui.UnmarshalWindow P a = Some p
               <-> tools.UnmarshalManageWindowInput H a = Ok p) ->
  agent.RunCommand (ui.toolFunctions P) = tools.RunCommand H ->
  agent.ManageWindow (ui.toolFunctions P) = tools.ManageWindow H ->
  openai.Name (openai.Function c) = "run_command"
  \/ openai.Name (openai.Function c) = "manage_window" ->
  (exists msg,
      requestFor P c messages msg
      /\ ui.executeToolCalls P (c :: post) messages s = (ui.Return msg, s))
  \/ (exists e,
         ((openai.Name (openai.Function c) = "run_command"
           /\ tools.UnmarshalRunCommandInput H (openai.Arguments (openai.Function c))
              = Err e)
          \/ (openai.Name (openai.Function c) = "manage_window"
              /\ tools.UnmarshalManageWindowInput H (openai.Arguments (openai.Function c))
                 = Err e))
         /\ ui.executeToolCalls P (c :: post) messages s
            = ui.executeToolCalls P post
                (messages ++ [ui.toolMsg c ("Error executing tool: " ++ e)%string]) s).
Proof.
  intros Hcommand Hwindow Hrun Hwin Hname.
  pose proof (suspendOn_spec P c messages) as Hspec.
  destruct (ui.suspendOn P c messages) as [msg|] eqn:Hs.
  - left. exists msg. split; [exact Hspec|]. simpl. rewrite Hs. reflexivity.
  - right. destruct s as [w sent].
    destruct Hname as [Hn|Hn].
    + destruct (tools.UnmarshalRunCommandInput H (openai.Arguments (openai.Function c)))
        as [p|e] eqn:Hd.
      * exfalso. apply Hspec. destruct p as [command args].
        eexists. left.
        exists command, args. split; [exact Hn|]. split; [|reflexivity].
        apply Hcommand. exact Hd.
      * exists e. split; [left; split; [exact Hn | reflexivity]|].
        simpl. rewrite Hs. unfold bind, ui.inWorld. rewrite Hn.
        unfold agent.ExecuteToolByName. cbn [agent.executeIn agent.GetAllToolDefinitions
          agent.Name agent.Function agent.ReadFileDefinition agent.ListFilesDefinition
          agent.RunCommandDefinition String.eqb Ascii.eqb Bool.eqb].
        rewrite Hrun. unfold tools.RunCommand. rewrite Hd. reflexivity.
    + destruct (tools.UnmarshalManageWindowInput H (openai.Arguments (openai.Function c)))
        as [p|e] eqn:Hd.
      * exfalso. apply Hspec. destruct p as [action target].
        eexists. right.
        exists action, target. split; [exact Hn|]. split; [|reflexivity].
        apply Hwindow. exact Hd.
      * exists e. split; [right; split; [exact Hn | reflexivity]|].
        simpl. rewrite Hs. unfold bind, ui.inWorld. rewrite Hn.
        unfold agent.ExecuteToolByName. cbn [agent.executeIn agent.GetAllToolDefinitions
          agent.Name agent.Function agent.ReadFileDefinition agent.ListFilesDefinition
          agent.RunCommandDefinition agent.InitProjectDefinition
          agent.WriteFileDefinition agent.EditFileDefinition
          agent.ManageWindowDefinition String.eqb Ascii.eqb Bool.eqb].
        rewrite Hwin. unfold tools.ManageWindow. rewrite Hd. reflexivity.
Qed.

(** ** The session through the transitions *)

Section SessionFacts.

Variable TA : ui.TextArea.

Let Model := ui.Model TA.

Local Ltac same_session := unfold sameSession; repeat split; reflexivity.

Lemma refreshAutocomplete_session (m : Model) :
  sameSession m (ui.refreshAutocomplete m).
Proof.
  unfold ui.refreshAutocomplete.
  destruct (ui.lastWord _) as [word|]; [|same_session].
  destruct (strings.HasPrefix word "@"); [|same_session].
  destruct (ui.knownFile _ _); [same_session|].
  cbn [ui.AutocompleteList ui.setAutocompleteList ui.AutocompleteIdx
       ui.setShowAutocomplete].
  destruct (_ >? 0)%Z; [|same_session].
  destruct (_ >=? _)%Z; same_session.
Qed.

(** The end of [Update] leaves the session alone. *)
Lemma finish_session (m : Model) (msg : ui.Msg) (cmds : list ui.Cmd) :
  sameSession m (fst (ui.finish m msg cmds)).
Proof.
  unfold ui.finish. cbn [fst].
  exact (refreshAutocomplete_session (ui.setInput (ui.UpdateInput TA (ui.Input m) msg) m)).
Qed.

Lemma acceptCandidate_session (m m' : Model) (cmd : ui.Cmd) :
  ui.acceptCandidate m = Some (m', cmd) -> sameSession m m'.
Proof.
  unfold ui.acceptCandidate.
  destruct (ui.index _ _); [|discriminate].
  intro Hm. injection Hm as <- _.
  destruct (strings.Fields _); same_session.
Qed.

Lemma finish_returned_session (m m' : Model) (msg : ui.Msg) (cmds : list ui.Cmd)
      (cmd : ui.Cmd) :
  Some (ui.finish m msg cmds) = Some (m', cmd) -> sameSession m m'.
Proof.
  intro Hm.
  assert (He : ui.finish m msg cmds = (m', cmd)) by congruence.
  pose proof (finish_session m msg cmds) as Hs. rewrite He in Hs. exact Hs.
Qed.

(** A key either leaves the session alone or is the "enter" that submits
    the input. *)
Lemma onKey_session (m m' : Model) (key : string) (alt : bool) (msg : ui.Msg)
      (cmd : ui.Cmd) :
  ui.onKey m key alt msg = Some (m', cmd) ->
  sameSession m m'
  \/ (key = "enter" /\ alt = false
      /\ ui.Value TA (ui.Input m) <> "" /\ (m', cmd) = ui.submit m).
Proof.
  unfold ui.onKey.
  destruct (String.eqb key "ctrl+c" || String.eqb key "esc").
  { destruct (ui.ShowAutocomplete m); intro Hm; injection Hm as <- _;
      left; same_session. }
  destruct (String.eqb key "up").
  { destruct (ui.ShowAutocomplete m && _); intro Hm; left;
      [injection Hm as <- _; same_session | exact (finish_returned_session Hm)]. }
  destruct (String.eqb key "down").
  { destruct (ui.ShowAutocomplete m && _); intro Hm; left;
      [injection Hm as <- _; same_session | exact (finish_returned_session Hm)]. }
  destruct (String.eqb key "tab").
  { destruct (ui.ShowAutocomplete m && _); intro Hm; left;
      [exact (acceptCandidate_session _ Hm) | exact (finish_returned_session Hm)]. }
  destruct (String.eqb_spec key "enter") as [Hkey|_].
  2: { intro Hm. left. exact (finish_returned_session Hm). }
  destruct (ui.ShowAutocomplete m && _).
  { intro Hm. left. exact (acceptCandidate_session _ Hm). }
  destruct alt; cbn [negb andb].
  { intro Hm. left. exact (finish_returned_session Hm). }
  destruct (String.eqb_spec (ui.Value TA (ui.Input m)) "") as [_|Hne]; cbn [negb].
  { intro Hm. left. exact (finish_returned_session Hm). }
  intro Hm. injection Hm as Hsub. right.
  split; [exact Hkey|]. split; [reflexivity|]. split; [exact Hne|].
  symmetry. exact Hsub.
Qed.

(** The session after each kind of message. *)
Lemma Update_session (m m' : Model) (msg : ui.Msg) (cmd : ui.Cmd) :
  ui.Update m msg = Some (m', cmd) ->
  match msg with
  | ui.WindowControlMsg action _ id h =>
    ui.History m'
    = h ++ [ui.toolResultMsg ("Window action '" ++ action ++ "' triggered.")%string id]
    /\ ui.PendingQueue m' = ui.PendingQueue m
    /\ ui.State m' = ui.StateThinking
    /\ ui.ProcessOutput m' = ui.ProcessOutput m
  | ui.AiResponseMsg _ h =>
    ui.History m' = h
    /\ ui.PendingQueue m' = ui.PendingQueue m
    /\ ui.State m' = ui.State m
    /\ ui.ProcessOutput m' = ui.ProcessOutput m
  | ui.RunCommandMsg _ _ _ h =>
    ui.History m' = h
    /\ ui.PendingQueue m' = ui.PendingQueue m
    /\ ui.State m' = ui.State m
    /\ ui.ProcessOutput m' = ""
  | ui.AiCompleteMsg =>
    match ui.PendingQueue m with
    | [] =>
      ui.History m' = ui.History m /\ ui.PendingQueue m' = []
      /\ ui.State m' = ui.StateIdle
    | next :: queue =>
      ui.History m' = ui.History m ++ [ui.userMsg next]
      /\ ui.PendingQueue m' = queue
      /\ ui.State m' = ui.StateThinking
    end
    /\ ui.ProcessOutput m' = ui.ProcessOutput m
  | ui.ErrMsg e =>
    ui.History m' = ui.History m ++ [ui.errorMsg e]
    /\ ui.PendingQueue m' = ui.PendingQueue m
    /\ ui.State m' = ui.StateIdle
    /\ ui.ProcessOutput m' = ui.ProcessOutput m
  | ui.ProcessOutputMsg line =>
    ui.History m' = ui.History m
    /\ ui.PendingQueue m' = ui.PendingQueue m
    /\ ui.State m' = ui.State m
    /\ ui.ProcessOutput m' = (ui.ProcessOutput m ++ line ++ ui.newline)%string
  | ui.ProcessDoneMsg err id =>
    ui.History m'
    = ui.History m
        ++ [ui.toolResultMsg
              (if ui.ShowSidebar m then ui.processResult err
               else ui.fullLog (ui.ProcessOutput m) (ui.processResult err)) id]
    /\ ui.PendingQueue m' = ui.PendingQueue m
    /\ ui.State m' = ui.StateThinking
    /\ ui.ProcessOutput m' = ""
  | ui.KeyMsg key alt =>
    sameSession m m'
    \/ (key = "enter" /\ alt = false
        /\ ui.Value TA (ui.Input m) <> "" /\ (m', cmd) = ui.submit m)
  | ui.WindowSizeMsg _ _ | ui.OtherMsg _ => sameSession m m'
  end.
Proof.
  destruct msg as [action target id h|width height|key alt|content h| |e
                   |command args id h|line|err id|tag];
    cbn [ui.Update]; intro Hm.
  - injection Hm as <- _.
    destruct (String.eqb action "open"); [repeat split|].
    destruct (String.eqb action "close"); repeat split.
  - pose proof (finish_returned_session Hm) as Hs.
    destruct Hs as [H1 [H2 [H3 [H4 [H5 H6]]]]]. repeat split; assumption.
  - exact (onKey_session _ _ _ _ Hm).
  - pose proof (finish_returned_session Hm) as Hs.
    destruct Hs as [H1 [H2 [H3 [H4 _]]]]. repeat split; assumption.
  - destruct (ui.PendingQueue m) as [|next queue] eqn:Hq;
      cbn [ui.PendingQueue ui.setState] in Hm; rewrite Hq in Hm;
      pose proof (finish_returned_session Hm) as Hs;
      destruct Hs as [H1 [H2 [H3 [H4 _]]]]; cbn in H1, H2, H3, H4.
    + rewrite Hq in H2. repeat split; assumption.
    + repeat split; assumption.
  - pose proof (finish_returned_session Hm) as Hs.
    destruct Hs as [H1 [H2 [H3 [H4 _]]]]. repeat split; assumption.
  - injection Hm as <- _. repeat split.
  - injection Hm as <- _. repeat split.
  - injection Hm as <- _.
    cbn -[ui.setLastContent ui.fullLog ui.processResult].
    destruct (ui.ShowSidebar m);
      cbn -[ui.setLastContent ui.fullLog ui.processResult];
      rewrite ?setLastContent_last; repeat split.
  - exact (finish_returned_session Hm).
Qed.

(** The history is never shortened or rewritten by the UI itself: a
    transition either takes the history a message of the agent loop carries
    (final response, process request, window request, the last with its
    acknowledgement added) or adds at most one message at the end of the
    history it had. *)
Theorem history_is_appended_or_handed_over (m m' : Model) (msg : ui.Msg)
        (cmd : ui.Cmd) :
  ui.Update m msg = Some (m', cmd) ->
  match msg with
  | ui.AiResponseMsg _ h | ui.RunCommandMsg _ _ _ h => ui.History m' = h
  | ui.WindowControlMsg action _ id h =>
    ui.History m'
    = h ++ [ui.toolResultMsg ("Window action '" ++ action ++ "' triggered.")%string id]
  | _ => exists more, ui.History m' = ui.History m ++ more /\ length more <= 1
  end.
Proof.
  intro Hm. pose proof (Update_session _ _ Hm) as Hs.
  assert (Hsame : sameSession m m' ->
                  exists more, ui.History m' = ui.History m ++ more /\ length more <= 1).
  { intros [Hh _]. exists []. rewrite app_nil_r. split; [exact Hh | simpl; lia]. }
  destruct msg; try (apply Hsame; exact Hs); try (apply (proj1 Hs)).
  - destruct Hs as [Hs|[_ [_ [_ Hsub]]]]; [apply Hsame; exact Hs|].
    destruct (submit_effect m) as [Hh _]. rewrite <- Hsub in Hh. cbn [fst] in Hh.
    eexists. split; [exact Hh | simpl; lia].
  - destruct Hs as [Hq _]. destruct (ui.PendingQueue m).
    + exists []. rewrite app_nil_r. split; [apply (proj1 Hq) | simpl; lia].
    + eexists. split; [apply (proj1 Hq) | simpl; lia].
  - eexists. split; [apply (proj1 Hs) | simpl; lia].
  - exists []. rewrite app_nil_r. split; [apply (proj1 Hs) | simpl; lia].
  - eexists. split; [apply (proj1 Hs) | simpl; lia].
Qed.

(** The queue changes in two ways only: a submission while Thinking adds
    the tagged input at its end, and a completion takes its head, which
    becomes the next user message with the phase Thinking. Nothing else
    touches it; in particular an error leaves the queued messages in it. *)
Theorem queue_changes_at_its_ends (m m' : Model) (msg : ui.Msg) (cmd : ui.Cmd) :
  ui.Update m msg = Some (m', cmd) ->
  ui.PendingQueue m' = ui.PendingQueue m
  \/ (exists alt,
         msg = ui.KeyMsg "enter" alt
         /\ ui.State m = ui.StateThinking
         /\ ui.PendingQueue m'
            = ui.PendingQueue m ++ [ui.resolveFileTags m (ui.Value TA (ui.Input m))])
  \/ (exists next,
         msg = ui.AiCompleteMsg
         /\ ui.PendingQueue m = next :: ui.PendingQueue m'
         /\ ui.History m' = ui.History m ++ [ui.userMsg next]
         /\ ui.State m' = ui.StateThinking).
Proof.
  intro Hm. pose proof (Update_session _ _ Hm) as Hs.
  destruct msg; try (left; apply (proj1 (proj2 Hs))).
  - destruct Hs as [Hs|[Hkey [_ [_ Hsub]]]]; [left; apply (proj1 (proj2 Hs))|].
    destruct (submit_effect m) as [_ [_ Hq]]. rewrite <- Hsub in Hq. cbn [fst snd] in Hq.
    destruct (ui.State m) eqn:Hst.
    + left. apply (proj1 Hq).
    + right. left. exists Alt. subst key. split; [reflexivity|].
      split; [reflexivity | apply (proj1 Hq)].
  - destruct Hs as [Hq _]. destruct (ui.PendingQueue m) as [|next queue].
    + left. apply (proj1 (proj2 Hq)).
    + right. right. exists next. destruct Hq as [Hh [Hqueue Hst]].
      split; [reflexivity|]. split; [rewrite Hqueue; reflexivity|].
      split; assumption.
Qed.

(** A session that is Thinking stays Thinking through every message but
    two: an error, and a completion that finds the queue empty; both leave
    it Idle whatever it was. A completion that finds a queued message
    leaves it Thinking. *)
Theorem thinking_ends_on_error_or_completion (m m' : Model) (msg : ui.Msg)
        (cmd : ui.Cmd) :
  ui.Update m msg = Some (m', cmd) ->
  (ui.State m = ui.StateThinking -> ui.State m' = ui.StateIdle ->
   (exists e, msg = ui.ErrMsg e)
   \/ (msg = ui.AiCompleteMsg /\ ui.PendingQueue m = []))
  /\ (forall e, msg = ui.ErrMsg e -> ui.State m' = ui.StateIdle)
  /\ (msg = ui.AiCompleteMsg ->
      ui.State m' = match ui.PendingQueue m with
                    | [] => ui.StateIdle
                    | _ :: _ => ui.StateThinking
                    end).
Proof.
  intro Hm. pose proof (Update_session _ _ Hm) as Hs.
  assert (Hkeep : ui.State m' = ui.State m ->
                  ui.State m = ui.StateThinking -> ui.State m' = ui.StateIdle ->
                  (exists e, msg = ui.ErrMsg e)
                  \/ (msg = ui.AiCompleteMsg /\ ui.PendingQueue m = [])).
  { intros He Ht Hi. rewrite He, Ht in Hi. discriminate Hi. }
  assert (Hthink : ui.State m' = ui.StateThinking ->
                   ui.State m = ui.StateThinking -> ui.State m' = ui.StateIdle ->
                   (exists e, msg = ui.ErrMsg e)
                   \/ (msg = ui.AiCompleteMsg /\ ui.PendingQueue m = [])).
  { intros He _ Hi. rewrite He in Hi. discriminate Hi. }
  destruct msg.
  - split; [apply Hthink; apply Hs|]. split; [discriminate | discriminate].
  - split; [apply Hkeep; apply Hs|]. split; [discriminate | discriminate].
  - split; [|split; [discriminate | discriminate]].
    destruct Hs as [Hs|[_ [_ [_ Hsub]]]]; [apply Hkeep; apply Hs|].
    destruct (submit_effect m) as [_ [Hst _]]. rewrite <- Hsub in Hst.
    apply Hthink. exact Hst.
  - split; [apply Hkeep; apply Hs|]. split; [discriminate | discriminate].
  - destruct Hs as [Hq _]. split; [|split; [discriminate|]].
    + destruct (ui.PendingQueue m).
      * intros _ _. right. split; reflexivity.
      * apply Hthink. apply Hq.
    + intros _. destruct (ui.PendingQueue m); apply Hq.
  - split; [intros _ _; left; eexists; reflexivity|].
    split; [intros e0 _; apply Hs | discriminate].
  - split; [apply Hkeep; apply Hs|]. split; [discriminate | discriminate].
  - split; [apply Hkeep; apply Hs|]. split; [discriminate | discriminate].
  - split; [apply Hthink; apply Hs|]. split; [discriminate | discriminate].
  - split; [apply Hkeep; apply Hs|]. split; [discriminate | discriminate].
Qed.

Lemma run_app (a b : list ui.Msg) :
  forall m : Model,
    run m (a ++ b) = match run m a with
                     | Some m1 => run m1 b
                     | None => None
                     end.
Proof.
  induction a as [|msg a IH]; intro m; simpl; [reflexivity|].
  destruct (ui.Update m msg) as [[m1 cmd]|]; [apply IH | reflexivity].
Qed.

Lemma completion_steps (m : Model) :
  exists m1 cmd, ui.Update m ui.AiCompleteMsg = Some (m1, cmd).
Proof.
  cbn [ui.Update].
  destruct (ui.PendingQueue _); eexists _, _;
    rewrite <- surjective_pairing; reflexivity.
Qed.

Lemma queue_drain (k : nat) :
  forall m : Model,
    k <= length (ui.PendingQueue m) ->
    exists m',
      run m (repeat ui.AiCompleteMsg k) = Some m'
      /\ ui.History m'
         = ui.History m ++ map ui.userMsg (firstn k (ui.PendingQueue m))
      /\ ui.PendingQueue m' = skipn k (ui.PendingQueue m)
      /\ (k <> 0 -> ui.State m' = ui.StateThinking).
Proof.
  induction k as [|k IH]; intros m Hk.
  - exists m. simpl. rewrite app_nil_r. repeat split. intro H0. contradiction.
  - destruct (completion_steps m) as [m1 [cmd Hstep]].
    pose proof (Update_session _ _ Hstep) as [Hq _].
    destruct (ui.PendingQueue m) as [|next queue] eqn:Hqueue; [simpl in Hk; lia|].
    destruct Hq as [Hh [Hq1 Hst]].
    destruct (IH m1) as [m' [Hrun [Hh' [Hq' Hst']]]].
    { rewrite Hq1. simpl in Hk. lia. }
    exists m'. cbn [repeat run]. rewrite Hstep.
    split; [exact Hrun|]. rewrite Hh', Hh, Hq', Hq1.
    split; [rewrite <- app_assoc; reflexivity|]. split; [reflexivity|].
    intros _. destruct k as [|k].
    + simpl in Hrun. injection Hrun as <-. exact Hst.
    + apply Hst'. discriminate.
Qed.

(** The queue is first in, first out: [n] completions, for [n] up to the
    length of the queue, add to the end of the history one message for each
    of its first [n] texts, in their order, with the role of the user and
    the queued text as content, and leave the rest queued, the phase being
    Thinking; one completion more than there are queued messages leaves all
    of them in the history, the queue empty and the phase Idle. *)
Theorem queue_drains_in_order (n : nat) :
  forall m : Model,
    n <= length (ui.PendingQueue m) ->
    let asUser := fun text : string =>
                    {| openai.Role := openai.ChatMessageRoleUser;
                       openai.Content := text;
                       openai.ToolCalls := [];
                       openai.ToolCallID := "" |} in
    (exists m',
        run m (repeat ui.AiCompleteMsg n) = Some m'
        /\ ui.History m' = ui.History m ++ map asUser (firstn n (ui.PendingQueue m))
        /\ ui.PendingQueue m' = skipn n (ui.PendingQueue m)
        /\ (n <> 0 -> ui.State m' = ui.StateThinking))
    /\ (n = length (ui.PendingQueue m) ->
        exists m',
          run m (repeat ui.AiCompleteMsg (S n)) = Some m'
          /\ ui.History m' = ui.History m ++ map asUser (ui.PendingQueue m)
          /\ ui.PendingQueue m' = []
          /\ ui.State m' = ui.StateIdle).
Proof.
  intros m Hn asUser. change asUser with ui.userMsg. clear asUser.
  split.
  - exact (queue_drain m Hn).
  - intro Hall. destruct (queue_drain m Hn) as [m1 [Hrun [Hh [Hq _]]]].
    destruct (completion_steps m1) as [m' [cmd Hstep]].
    pose proof (Update_session _ _ Hstep) as [Hlast _].
    rewrite Hall, skipn_all in Hq. rewrite Hq in Hlast.
    destruct Hlast as [Hh' [Hq' Hst]].
    exists m'.
    change (repeat ui.AiCompleteMsg (S n))
      with (ui.AiCompleteMsg :: repeat ui.AiCompleteMsg n).
    rewrite repeat_cons, run_app, Hrun. cbn [run]. rewrite Hstep.
    split; [reflexivity|]. rewrite Hh', Hh, Hall, firstn_all.
    repeat split; assumption.
Qed.

Lemma string_append_assoc (a b c : string) :
  ((a ++ b) ++ c = a ++ b ++ c)%string.
Proof.
  induction a as [|x a IH]; simpl; [reflexivity | rewrite IH; reflexivity].
Qed.

Lemma string_append_empty (a : string) : (a ++ "")%string = a.
Proof.
  induction a as [|x a IH]; simpl; [reflexivity | rewrite IH; reflexivity].
Qed.

Lemma output_lines_accumulate (lines : list string) :
  forall m : Model,
    exists m',
      run m (map ui.ProcessOutputMsg lines) = Some m'
      /\ ui.ProcessOutput m' = (ui.ProcessOutput m ++ linesText lines)%string
      /\ ui.History m' = ui.History m
      /\ ui.ShowSidebar m' = ui.ShowSidebar m.
Proof.
  induction lines as [|l lines IH]; intro m; simpl.
  - exists m. rewrite string_append_empty. repeat split.
  - destruct (IH (ui.setProcessOutput
                    (ui.ProcessOutput m ++ l ++ ui.newline)%string m))
      as [m' [Hrun [Hout [Hh Hside]]]].
    exists m'. split; [exact Hrun|]. rewrite Hout, Hh, Hside.
    cbn [ui.ProcessOutput ui.setProcessOutput ui.History ui.ShowSidebar].
    rewrite !string_append_assoc. repeat split.
Qed.

Lemma process_done_step (m : Model) (err : option error)
      (id : string) :
  exists m',
    ui.Update m (ui.ProcessDoneMsg err id) = Some (m', ui.InvokeAICmd (ui.History m'))
    /\ (ui.History m'
        = ui.History m
            ++ [ui.toolResultMsg
                  (if ui.ShowSidebar m then ui.processResult err
                   else ui.fullLog (ui.ProcessOutput m) (ui.processResult err)) id]
        /\ ui.PendingQueue m' = ui.PendingQueue m
        /\ ui.State m' = ui.StateThinking
        /\ ui.ProcessOutput m' = "").
Proof.
  eexists. split; [reflexivity|].
  exact (@Update_session m _ (ui.ProcessDoneMsg err id) _ eq_refl).
Qed.

(** One run of a command, from the request of the loop to the completion.
    While the lines arrive, the history is the one the request carried and
    the buffer holds the lines received so far and nothing older, each
    followed by a newline, in the order of arrival. After the completion
    the buffer is empty, the phase is Thinking, and the history is the one
    the request carried followed by one tool message under the id of the
    completion: its content is the completion text, "Process finished
    successfully." or "Process exited with error: " and the error, alone
    when the sidebar is shown, and after "Process Output:" and the lines of
    this run in a code block when it is not. *)
Theorem command_run_is_folded (m : Model) (command : string) (args : list string)
        (id : string) (h : Conversation) (lines : list string)
        (err : option error) (id' : string) :
  let nl := String "010" "" in
  (forall k,
      exists mk,
        run m (ui.RunCommandMsg command args id h
                 :: map ui.ProcessOutputMsg (firstn k lines)) = Some mk
        /\ ui.ProcessOutput mk
           = String.concat "" (map (fun l => l ++ nl)%string (firstn k lines))
        /\ ui.History mk = h)
  /\ exists m',
      run m (ui.RunCommandMsg command args id h
               :: map ui.ProcessOutputMsg lines ++ [ui.ProcessDoneMsg err id'])
      = Some m'
      /\ ui.ProcessOutput m' = ""
      /\ ui.State m' = ui.StateThinking
      /\ (let result :=
            match err with
            | None => "Process finished successfully."
            | Some e => ("Process exited with error: " ++ e)%string
            end in
          let output :=
            String.concat "" (map (fun l => l ++ nl)%string lines) in
          ui.History m'
          = h ++ [ {| openai.Role := openai.ChatMessageRoleTool;
                      openai.Content :=
                        if ui.ShowSidebar m then result
                        else ("Process Output:" ++ nl ++ "```" ++ nl
                                ++ output ++ "```" ++ nl ++ result)%string;
                      openai.ToolCalls := [];
                      openai.ToolCallID := id' |} ]).
Proof.
  intro nl. change nl with ui.newline. clear nl.
  assert (Htext : forall ls,
             linesText ls
             = String.concat "" (map (fun l => l ++ ui.newline)%string ls)).
  { assert (Hcons : forall x xs,
               String.concat "" (x :: xs) = (x ++ String.concat "" xs)%string).
    { intros x [|y ys]; simpl; [rewrite string_append_empty|]; reflexivity. }
    induction ls as [|l ls IH]; [reflexivity|].
    cbn [linesText map]. rewrite Hcons, string_append_assoc, IH. reflexivity. }
  split.
  - intro k. cbn [run ui.Update].
    destruct (output_lines_accumulate (firstn k lines)
                (ui.setProcessOutput "" (ui.setHistory h m)))
      as [mk [Hrun [Hout [Hh _]]]].
    cbn [ui.ProcessOutput ui.setProcessOutput ui.History ui.setHistory] in Hout, Hh.
    exists mk. split; [exact Hrun|]. split; [|exact Hh].
    rewrite Hout. apply Htext.
  - cbn [run ui.Update].
    destruct (output_lines_accumulate lines
                (ui.setProcessOutput "" (ui.setHistory h m)))
      as [m1 [Hrun [Hout [Hh Hside]]]].
    cbn [ui.ProcessOutput ui.setProcessOutput ui.History ui.setHistory
         ui.ShowSidebar] in Hout, Hh, Hside.
    rewrite run_app, Hrun.
    destruct (process_done_step m1 err id') as [m' [Hstep Hs]].
    exists m'. cbn [run]. rewrite Hstep.
    destruct Hs as [Hh' [_ [Hst Hout']]].
    split; [reflexivity|]. split; [exact Hout'|]. split; [exact Hst|].
    cbv zeta. rewrite Hh', Hout, Hh, Hside, <- Htext.
    destruct (ui.ShowSidebar m); destruct err; reflexivity.
Qed.

End SessionFacts.

(** ** File tags and the file list *)

Lemma HasPrefix_at (word : string) :
  strings.HasPrefix word "@" = true ->
  word = ("@" ++ strings.TrimPrefix word "@")%string.
Proof.
  intro Hp. unfold strings.HasPrefix in Hp. apply prefix_append in Hp.
  destruct Hp as [post ->].
  destruct (TrimPrefix_at post) as [_ Ht]. rewrite Ht. reflexivity.
Qed.

Lemma knownFile_In (files : list string) (path : string) :
  ui.knownFile files path = true <-> In path files.
Proof.
  unfold ui.knownFile. rewrite existsb_exists. split.
  - intros [f [Hin Heq]]. apply String.eqb_eq in Heq. subst f. exact Hin.
  - intro Hin. exists path. split; [exact Hin | apply String.eqb_refl].
Qed.

Lemma referenced_tags (files words : list string) :
  Forall (fun p => In p files) (ui.referenced files words)
  /\ Subsequence (map (fun p => "@" ++ p)%string (ui.referenced files words)) words.
Proof.
  induction words as [|word words [IHk IHs]]; simpl.
  - split; constructor.
  - destruct (strings.HasPrefix word "@") eqn:Hp.
    + destruct (ui.knownFile files (strings.TrimPrefix word "@")) eqn:Hk.
      * split.
        -- constructor; [apply knownFile_In; exact Hk | exact IHk].
        -- assert (Hw := HasPrefix_at _ Hp).
           remember (strings.TrimPrefix word "@") as path.
           rewrite Hw. simpl. constructor. exact IHs.
      * split; [exact IHk | constructor; exact IHs].
    + split; [exact IHk | constructor; exact IHs].
Qed.

Lemma referenced_none (files words : list string) :
  Forall (fun word => strings.HasPrefix word "@" = false) words ->
  ui.referenced files words = [].
Proof.
  induction 1 as [|word words Hw _ IH]; simpl; [reflexivity|].
  rewrite Hw. exact IH.
Qed.

Lemma Join_concat (elems : list string) (sep : string) :
  strings.Join elems sep = String.concat sep elems.
Proof.
  induction elems as [|e rest IH]; [reflexivity|].
  destruct rest as [|e' rest]; [reflexivity|].
  cbn [strings.Join String.concat] in IH |- *. rewrite IH. reflexivity.
Qed.

Lemma tagged_known (files : list string) (path : string) :
  existsb (String.eqb ("@" ++ path)) (map (fun f => "@" ++ f)%string files)
  = ui.knownFile files path.
Proof.
  unfold ui.knownFile.
  induction files as [|f files IH]; [reflexivity|].
  cbn [map existsb]. rewrite IH. f_equal.
  cbn [append String.eqb]. rewrite String.eqb_sym. reflexivity.
Qed.

Lemma untagged_unknown (files : list string) (word : string) :
  strings.HasPrefix word "@" = false ->
  existsb (String.eqb word) (map (fun f => "@" ++ f)%string files) = false.
Proof.
  intro Hp. destruct (existsb _ _) eqn:He; [|reflexivity].
  apply existsb_exists in He. destruct He as [x [Hin Hx]].
  apply in_map_iff in Hin. destruct Hin as [f [<- _]].
  apply String.eqb_eq in Hx. subst word.
  destruct (TrimPrefix_at f) as [Ht _]. rewrite Ht in Hp. discriminate Hp.
Qed.

(** The scan of [resolveFileTags] keeps exactly the words that are the tag
    of a known file. *)
Lemma referenced_filter (files words : list string) :
  map (fun f => "@" ++ f)%string (ui.referenced files words)
  = filter (fun word => existsb (String.eqb word)
                                (map (fun f => "@" ++ f)%string files)) words.
Proof.
  induction words as [|word words IH]; [reflexivity|].
  cbn [ui.referenced filter].
  destruct (strings.HasPrefix word "@") eqn:Hp.
  - assert (Hw := HasPrefix_at _ Hp).
    remember (strings.TrimPrefix word "@") as path eqn:Hpath.
    clear Hpath Hp. subst word. rewrite tagged_known.
    destruct (ui.knownFile files path).
    + cbn [map]. rewrite IH. reflexivity.
    + exact IH.
  - rewrite (untagged_unknown files _ Hp). exact IH.
Qed.

Section TagFacts.

Variable TA : ui.TextArea.

(** Tagging only ever adds to the end of the input, and adds exactly when
    a word of the input is the trigger followed by a known file. The files
    it names are those whose tag is a word of the input, one for each such
    word, in the order of the input; with none, the input comes back
    unchanged, in particular when no word starts with the trigger; with
    some, the input is followed by two newlines and the hint
    "[User has referenced these files: ", the files separated by ", ", and
    ". Use the read_file tool to view their contents.]". *)
Theorem resolveFileTags_adds_a_hint (m : ui.Model TA) (input : string) :
  let words := strings.Fields input in
  let tag := fun f : string => ("@" ++ f)%string in
  exists files,
    map tag files
    = filter (fun word => existsb (String.eqb word) (map tag (ui.Files m))) words
    /\ Forall (fun p => In p (ui.Files m)) files
    /\ Subsequence (map tag files) words
    /\ ui.resolveFileTags m input
       = match files with
         | [] => input
         | _ :: _ =>
           (input ++ String "010" (String "010" "")
              ++ "[User has referenced these files: "
              ++ String.concat ", " files
              ++ ". Use the read_file tool to view their contents.]")%string
         end
    /\ (exists hint, ui.resolveFileTags m input = (input ++ hint)%string)
    /\ (ui.resolveFileTags m input = input
        <-> forall f, In f (ui.Files m) -> ~ In (tag f) words)
    /\ ((forall word rest, In word words -> word <> ("@" ++ rest)%string) ->
        ui.resolveFileTags m input = input).
Proof.
  intros words tag.
  pose (files := ui.referenced (ui.Files m) words).
  assert (Hfilter := referenced_filter (ui.Files m) words).
  fold tag files in Hfilter.
  destruct (referenced_tags (ui.Files m) words) as [Hk Hs].
  fold tag files in Hk, Hs.
  assert (Hnone : files = [] -> ui.resolveFileTags m input = input).
  { intro He. unfold ui.resolveFileTags. fold words files. rewrite He. reflexivity. }
  assert (Hsome : ui.resolveFileTags m input = input -> files = []).
  { intro Hsame. unfold ui.resolveFileTags in Hsame. fold words files in Hsame.
    destruct files as [|f fs]; [reflexivity|]. exfalso.
    apply (f_equal String.length) in Hsame.
    rewrite !string_length_append in Hsame. simpl in Hsame. lia. }
  assert (Hempty : files = []
                   <-> forall f, In f (ui.Files m) -> ~ In (tag f) words).
  { split.
    - intros He f Hf Hin. rewrite He in Hfilter. cbn [map] in Hfilter.
      assert (Hkept : In (tag f)
                         (filter (fun word => existsb (String.eqb word)
                                                      (map tag (ui.Files m))) words)).
      { apply filter_In. split; [exact Hin|].
        apply existsb_exists. exists (tag f).
        split; [apply in_map; exact Hf | apply String.eqb_refl]. }
      rewrite <- Hfilter in Hkept. exact Hkept.
    - intro Hno. destruct files as [|f fs]; [reflexivity|]. exfalso.
      inversion Hk as [|f' fs' Hf _]; subst.
      apply (Hno f Hf).
      assert (Hkept : In (tag f) (map tag (f :: fs))) by (left; reflexivity).
      rewrite Hfilter in Hkept. apply filter_In in Hkept. exact (proj1 Hkept). }
  exists files.
  split; [exact Hfilter|]. split; [exact Hk|]. split; [exact Hs|].
  split; [|split; [|split; [|]]].
  - unfold ui.resolveFileTags. fold words files.
    destruct files as [|f fs]; [reflexivity|].
    rewrite Join_concat. reflexivity.
  - unfold ui.resolveFileTags. fold words files. destruct files as [|f fs].
    + exists "". rewrite string_append_empty. reflexivity.
    + eexists. reflexivity.
  - split.
    + intro Hsame. apply Hempty. apply Hsome. exact Hsame.
    + intro Hno. apply Hnone. apply Hempty. exact Hno.
  - intro Hno. apply Hnone. apply Hempty.
    intros f _ Hin. exact (Hno (tag f) f Hin eq_refl).
Qed.

End TagFacts.

Lemma Subsequence_Forall {A : Type} (Q : A -> Prop) (l1 l2 : list A) :
  Subsequence l1 l2 -> Forall Q l2 -> Forall Q l1.
Proof.
  induction 1 as [l|x l1 l2 _ IH|x l1 l2 _ IH]; intro Hall.
  - constructor.
  - inversion Hall; subst. constructor; [assumption | apply IH; assumption].
  - inversion Hall; subst. apply IH. assumption.
Qed.

Section FileListFacts.

Variable TrimSpace : string -> string.

Lemma listed_projectFile (f : string) :
  main.listed f = true -> projectFile f.
Proof.
  unfold main.listed, strings.HasPrefix. intro Hl.
  repeat (apply andb_prop in Hl; destruct Hl as [Hl ?]).
  repeat match goal with
         | Hn : negb _ = true |- _ => apply negb_true_iff in Hn
         end.
  repeat match goal with
         | Hn : String.eqb _ _ = false |- _ => apply String.eqb_neq in Hn
         end.
  unfold projectFile. repeat split; try assumption.
  - intros rest Hr.
    assert (Ht : String.prefix ".git" f = true)
      by (apply prefix_append; exists rest; exact Hr).
    congruence.
  - intros rest Hr.
    assert (Ht : String.prefix "bin/" f = true)
      by (apply prefix_append; exists rest; exact Hr).
    congruence.
Qed.

Lemma clean_listed (lines : list string) :
  Forall projectFile (main.clean TrimSpace lines)
  /\ Subsequence (main.clean TrimSpace lines) (map TrimSpace lines).
Proof.
  induction lines as [|l lines [IHf IHs]]; simpl.
  - split; constructor.
  - destruct (main.listed (TrimSpace l)) eqn:Hl.
    + split; constructor; try assumption. apply listed_projectFile. exact Hl.
    + split; [exact IHf | constructor; exact IHs].
Qed.

(** The project file list holds trimmed lines of the output of git, in
    their order, and never an empty name, ".env", "agent", "trace", a name
    that starts with ".git" (so neither ".gitignore") or with "bin/"; when
    git fails the list is empty and the error is handed on. Hence the
    autocomplete candidates and the files a tag hint names, which are drawn
    from this list, never include any of these. *)
Theorem listProjectFiles_leaves_out_private_files (output : Result string) :
  let files := fst (main.listProjectFiles TrimSpace output) in
  Forall projectFile files
  /\ (forall out, output = Ok out ->
                  Subsequence files (map TrimSpace (strings.Split out ui.newline))
                  /\ snd (main.listProjectFiles TrimSpace output) = None)
  /\ (forall err, output = Err err ->
                  main.listProjectFiles TrimSpace output = ([], Some err))
  /\ (forall search, Forall projectFile (ui.collectMatches files search []))
  /\ (forall words, Forall projectFile (ui.referenced files words)).
Proof.
  intro files.
  assert (Hfiles : Forall projectFile files).
  { subst files. destruct output as [out|err]; simpl; [|constructor].
    apply clean_listed. }
  split; [exact Hfiles|]. split; [|split; [|split]].
  - intros out ->. subst files. simpl. split; [apply clean_listed | reflexivity].
  - intros err ->. reflexivity.
  - intro search. rewrite collectMatches_firstn by (simpl; lia).
    cbn [app length]. eapply Subsequence_Forall; [|exact Hfiles].
    apply Subsequence_firstn_filter.
  - intro words. destruct (referenced_tags files words) as [Hk _].
    rewrite Forall_forall in *. intros f Hf. apply Hfiles. apply Hk. exact Hf.
Qed.

End FileListFacts.

(** ** The further properties on examples *)

Lemma env_files_are_refused_witness :
  tools.ReadFile InMemory.host InMemory.readEnv InMemory.notes
  = (Err tools.accessDenied, InMemory.notes).
Proof.
  exact (proj1 (@env_files_are_refused _ InMemory.host InMemory.readEnv "config/"
                  InMemory.notes) eq_refl).
Defined.

Lemma ReadFile_success_witness :
  exists content,
    InMemory.lookup "notes.txt" InMemory.notes = Some content
    /\ tools.utf8Valid InMemory.host content = true
    /\ (Z.of_nat (String.length content) <= 102400)%Z.
Proof.
  destruct (@ReadFile_success _ InMemory.host InMemory.readNotes _
              InMemory.notes InMemory.notes eq_refl)
    as [path [size [content [w1 [Hd [_ [Hstat [Hsize [Hread [Hvalid _]]]]]]]]]].
  injection Hd as <-.
  injection Hstat as <- <-. injection Hread as <-.
  eexists. split; [reflexivity|]. split; [reflexivity | exact Hsize].
Defined.

Lemma EditFile_writes_first_occurrence_witness :
  exists pre post w',
    snd (tools.EditFile InMemory.host InMemory.editLine2 InMemory.notes) = w'
    /\ InMemory.lookup "notes.txt" InMemory.notes
       = Some (pre ++ InMemory.line "Line 2" ++ post)%string
    /\ InMemory.lookup "notes.txt" w'
       = Some (pre ++ InMemory.line "Line 2 Modified" ++ post)%string.
Proof.
  destruct (tools.EditFile InMemory.host InMemory.editLine2 InMemory.notes)
    as [r w'] eqn:Hrun.
  pose proof (@EditFile_writes_first_occurrence _ InMemory.host InMemory.editLine2
                InMemory.notes w' r Hrun) as Hedit.
  assert (Hr : forall e, r <> Err e).
  { vm_compute in Hrun. injection Hrun as <- _. discriminate. }
  destruct Hedit as [[_ [e He]]|[path [search [repl [Hd Hcases]]]]];
    [destruct (Hr e He)|].
  injection Hd as <- <- <-.
  destruct Hcases as [[_ [_ [e He]]]|[content [w1 [pre [post [Hread [Hc [_ [Hw _]]]]]]]]];
    [destruct (Hr e He)|].
  injection Hread as <- <-.
  exists pre, post, w'. split; [reflexivity|]. cbn [snd].
  split; [rewrite <- Hc; reflexivity|].
  rewrite Hw. reflexivity.
Defined.

Lemma WriteFile_success_witness :
  exists w1,
    tools.MkdirAll InMemory.host "out" InMemory.notes = (None, w1)
    /\ InMemory.lookup "out/a.txt"
         (snd (tools.WriteFile InMemory.host InMemory.writeOut InMemory.notes))
       = Some "hi".
Proof.
  destruct (@WriteFile_success _ InMemory.host InMemory.writeOut _
              InMemory.notes _ eq_refl)
    as [path [content [ext [w1 [Hd [_ [Hdir _]]]]]]].
  injection Hd as <- <- <-.
  exists w1. split; [exact Hdir | reflexivity].
Defined.

Lemma RunCommand_fails_only_on_payload_witness :
  tools.RunCommand InMemory.host InMemory.runGit InMemory.notes
  = (Ok ("Error: exec: git: executable file not found in $PATH" ++ ui.newline
           ++ "Output:" ++ ui.newline)%string, InMemory.notes).
Proof.
  exact (proj2 (proj2 (@RunCommand_fails_only_on_payload _ InMemory.host
                         InMemory.runGit InMemory.notes))
               "git" ["status"] "" _ InMemory.notes InMemory.notes
               eq_refl eq_refl eq_refl).
Defined.

Lemma ManageWindow_accepts_open_and_close_witness :
  fst (tools.ManageWindow InMemory.host InMemory.windowOpen InMemory.notes)
  = Ok "Window action 'open' triggered for target ''"
  /\ forall text,
      fst (tools.ManageWindow InMemory.host InMemory.windowToggle InMemory.notes)
      <> Ok text.
Proof.
  split.
  - apply (proj2 (@ManageWindow_accepts_open_and_close _ InMemory.host
                    InMemory.windowOpen InMemory.notes)).
    exists "open", "". split; [reflexivity|]. split; [left; reflexivity | reflexivity].
  - intros text Hok.
    apply (proj2 (@ManageWindow_accepts_open_and_close _ InMemory.host
                    InMemory.windowToggle InMemory.notes)) in Hok.
    destruct Hok as [action [target [Hd [[Ha|Ha] _]]]];
      injection Hd as <- <-; discriminate Ha.
Defined.

Lemma registry_dispatch_witness :
  agent.ExecuteToolByName Scripted.toolFunctions "delete_file" "{}" []
  = (Err "unknown tool: delete_file", []).
Proof.
  apply (proj2 (proj2 (registry_dispatch Scripted.toolFunctions))).
  simpl. intuition discriminate.
Defined.

Lemma ResolveBinary_fallback_witness :
  agent.ResolveBinary (fun bin => String.eqb bin "python3") "python" = "python3"
  /\ agent.ResolveBinary (fun bin => String.eqb bin "python3") "python3" = "python3".
Proof.
  split.
  - reflexivity.
  - exact (proj2 (proj2 (ResolveBinary_fallback
                           (fun bin => String.eqb bin "python3") "python"))).
Defined.

Lemma invoke_keeps_tool_messages_paired_witness :
  match fst (ui.InvokeAI Scripted.platform Scripted.hello
               (Scripted.start [Ok Scripted.mixedReply])) with
  | ui.RunCommandMsg _ _ id h' => answersCalls [] h' /\ In id (openCalls [] h')
  | _ => False
  end.
Proof.
  exact (@invoke_keeps_tool_messages_paired _ Scripted.platform Scripted.hello
           (Scripted.start [Ok Scripted.mixedReply]) I).
Defined.

Lemma loop_never_runs_the_out_of_band_bodies_witness :
  ui.executeToolCalls InMemory.platform [InMemory.brokenCall] Scripted.hello
    {| ui.world := InMemory.notes; ui.sent := [] |}
  = (ui.Continue
       (Scripted.hello
          ++ [ui.toolMsg InMemory.brokenCall
                "Error executing tool: unexpected end of JSON input"]),
     {| ui.world := InMemory.notes; ui.sent := [] |}).
Proof.
  assert (Hcommand : forall a p,
             ui.UnmarshalCommand InMemory.platform a = Some p
             <-> tools.UnmarshalRunCommandInput InMemory.host a = Ok p).
  { intros a p. cbn [ui.UnmarshalCommand InMemory.platform].
    destruct (tools.UnmarshalRunCommandInput InMemory.host a); simpl;
      split; intro Hp; try discriminate Hp; injection Hp as ->; reflexivity. }
  assert (Hwindow : forall a p,
             ui.UnmarshalWindow InMemory.platform a = Some p
             <-> tools.UnmarshalManageWindowInput InMemory.host a = Ok p).
  { intros a p. cbn [ui.UnmarshalWindow InMemory.platform].
    destruct (tools.UnmarshalManageWindowInput InMemory.host a); simpl;
      split; intro Hp; try discriminate Hp; injection Hp as ->; reflexivity. }
  destruct (@loop_never_runs_the_out_of_band_bodies
              _ InMemory.platform InMemory.host InMemory.brokenCall []
              Scripted.hello {| ui.world := InMemory.notes; ui.sent := [] |}
              Hcommand Hwindow eq_refl eq_refl (or_introl eq_refl))
    as [[msg [_ Hret]]|[e [[[_ He]|[Hn _]] Hrun]]].
  - discriminate Hret.
  - injection He as <-. exact Hrun.
  - discriminate Hn.
Defined.

Lemma history_is_appended_or_handed_over_witness :
  exists m' cmd,
    ui.Update (Scripted.model ui.StateIdle "foo") (ui.KeyMsg "enter" false)
    = Some (m', cmd)
    /\ exists more, ui.History m' = [] ++ more /\ length more <= 1.
Proof.
  eexists _, _. split; [reflexivity|].
  exact (@history_is_appended_or_handed_over
           Scripted.textArea (Scripted.model ui.StateIdle "foo") _
           (ui.KeyMsg "enter" false) _ eq_refl).
Defined.

Lemma queue_changes_at_its_ends_witness :
  exists m' cmd,
    ui.Update (Scripted.model ui.StateThinking "bar") (ui.ErrMsg "API error: EOF")
    = Some (m', cmd)
    /\ ui.PendingQueue m' = [].
Proof.
  eexists _, _. split; [reflexivity|].
  destruct (@queue_changes_at_its_ends
              Scripted.textArea (Scripted.model ui.StateThinking "bar") _
              (ui.ErrMsg "API error: EOF") _ eq_refl)
    as [Hq|[[alt [Hmsg _]]|[next [Hmsg _]]]].
  - exact Hq.
  - discriminate Hmsg.
  - discriminate Hmsg.
Defined.

Lemma thinking_ends_on_error_or_completion_witness :
  exists m' cmd,
    ui.Update (Scripted.model ui.StateThinking "bar") ui.AiCompleteMsg
    = Some (m', cmd)
    /\ ui.State m' = ui.StateIdle.
Proof.
  eexists _, _. split; [reflexivity|].
  exact (proj2 (proj2 (@thinking_ends_on_error_or_completion
                         Scripted.textArea (Scripted.model ui.StateThinking "bar") _
                         ui.AiCompleteMsg _ eq_refl)) eq_refl).
Defined.

Lemma queue_drains_in_order_witness :
  let m := ui.setPendingQueue ["a"; "b"; "c"] (Scripted.model ui.StateThinking "") in
  exists m',
    run m [ui.AiCompleteMsg; ui.AiCompleteMsg] = Some m'
    /\ ui.History m'
       = [ {| openai.Role := "user"; openai.Content := "a";
              openai.ToolCalls := []; openai.ToolCallID := "" |};
           {| openai.Role := "user"; openai.Content := "b";
              openai.ToolCalls := []; openai.ToolCallID := "" |} ]
    /\ ui.PendingQueue m' = ["c"].
Proof.
  intro m.
  destruct (proj1 (@queue_drains_in_order Scripted.textArea 2 m
                     (le_S _ _ (le_n 2))))
    as [m' [Hrun [Hh [Hq _]]]].
  exists m'. split; [exact Hrun|]. split; [exact Hh | exact Hq].
Defined.

Lemma resolveFileTags_adds_a_hint_witness :
  ui.resolveFileTags (Scripted.model ui.StateIdle "") "see @main.go not @nothing"
  = ("see @main.go not @nothing" ++ String "010" (String "010" "")
       ++ "[User has referenced these files: main.go. Use the read_file tool to view their contents.]")%string
  /\ ui.resolveFileTags (Scripted.model ui.StateIdle "") "no tags here"
     = "no tags here".
Proof.
  split.
  - destruct (@resolveFileTags_adds_a_hint
                Scripted.textArea (Scripted.model ui.StateIdle "")
                "see @main.go not @nothing")
      as [files [Hfiles [_ [_ [Hhint _]]]]].
    destruct files as [|f [|f' fs]]; try discriminate Hfiles.
    injection Hfiles as Hf. subst f. exact Hhint.
  - destruct (@resolveFileTags_adds_a_hint
                Scripted.textArea (Scripted.model ui.StateIdle "")
                "no tags here")
      as [files [_ [_ [_ [_ [_ [_ Hnone]]]]]]].
    apply Hnone. intros word rest Hin.
    destruct Hin as [<-|[<-|[<-|[]]]]; discriminate.
Defined.

Lemma listProjectFiles_leaves_out_private_files_witness :
  main.listProjectFiles InMemory.TrimSpace (Ok InMemory.gitOutput)
  = (["main.go"; "notes.txt"], None)
  /\ main.listProjectFiles InMemory.TrimSpace (Err "exit status 128")
     = ([], Some "exit status 128").
Proof.
  split.
  - reflexivity.
  - exact (proj1 (proj2 (proj2 (listProjectFiles_leaves_out_private_files
                                  InMemory.TrimSpace (Err "exit status 128"))))
                 "exit status 128" eq_refl).
Defined.

(** ** The requests of one run, and the layout fields *)

Lemma agenticLoop_requests (World : Type) (P : ui.Platform World)
      (modelName : string) (n : nat) :
  forall (h : Conversation) (s : ui.Net World),
    exists hs,
      ui.sent (snd (ui.agenticLoop P (S n) modelName h s))
      = ui.sent s ++ map (ui.request P modelName) (h :: hs)
      /\ extends h hs.
Proof.
  induction n as [|n IH]; intros h s; rewrite agenticLoop_S;
    (destruct (ui.CreateChatCompletion P _ _) as [[resp|err] w];
     [|exists []; split; [reflexivity | exact I]]);
    (destruct (openai.Choices resp) as [|choice rest];
     [exists []; split; [reflexivity | exact I]|]);
    cbv zeta;
    (destruct (openai.ToolCalls (openai.Message choice)) as [|c calls];
     [exists []; split; [reflexivity | exact I]|]);
    match goal with
    | |- context [ui.executeToolCalls P ?cs ?ms ?st] =>
      pose proof (executeToolCalls_sent P cs ms st) as Hs;
      pose proof (executeToolCalls_cases P cs ms st) as Hout;
      destruct (ui.executeToolCalls P cs ms st) as [[msg|messages'] s2]
    end; cbn [fst snd ui.sent] in Hs, Hout |- *;
    try (exists []; rewrite Hs; split; [reflexivity | exact I]).
  - exists []. simpl. rewrite Hs. split; [reflexivity | exact I].
  - destruct Hout as [_ [results [Hm _]]].
    destruct (IH messages' s2) as [hs [Hsent Hext]].
    exists (messages' :: hs). rewrite Hsent, Hs, <- app_assoc.
    split; [reflexivity|]. split; [|exact Hext].
    eexists. split; [|rewrite Hm, <- app_assoc; reflexivity]. discriminate.
Qed.

(** The requests of one run of [InvokeAI] are cumulative: none is sent when
    the model name is not set; otherwise the messages of the first request
    are the history received, as it is, and the messages of each later one
    are those of the one before with messages added at the end; every
    request names the model of the environment and lists the seven tools of
    the registry, by name and description, in the order of the registry. *)
Theorem requests_are_cumulative (World : Type) (P : ui.Platform World)
        (h : Conversation) (s : ui.Net World) :
  let modelName := ui.Getenv P "PROVIDER_MODEL" (ui.world s) in
  let sent' := ui.sent (snd (ui.InvokeAI P h s)) in
  (modelName = "" -> sent' = ui.sent s)
  /\ (modelName <> "" ->
      exists new hs,
        sent' = ui.sent s ++ new
        /\ map openai.Messages new = h :: hs
        /\ extends h hs
        /\ Forall (fun req =>
                     openai.Model req = modelName
                     /\ map openai.ToolName (openai.Tools req)
                        = ["read_file"; "list_files"; "run_command";
                           "init_project"; "write_file"; "edit_file";
                           "manage_window"]
                     /\ map openai.ToolDescription (openai.Tools req)
                        = map (@agent.Description World)
                              (agent.GetAllToolDefinitions (ui.toolFunctions P)))
                  new).
Proof.
  intros modelName sent'. subst sent'. unfold ui.InvokeAI. fold modelName.
  split.
  - intros ->. reflexivity.
  - intro Hne. destruct (String.eqb_spec modelName "") as [He|_]; [contradiction|].
    destruct (agenticLoop_requests P modelName 9 h s) as [hs [Hsent Hext]].
    exists (map (ui.request P modelName) (h :: hs)), hs.
    split; [exact Hsent|]. split; [|split; [exact Hext|]].
    + rewrite map_map. cbn [ui.request openai.Messages]. apply map_id.
    + apply Forall_forall. intros req Hin.
      apply in_map_iff in Hin. destruct Hin as [messages [<- _]].
      repeat split.
Qed.

(** The file list is fixed for the session, and the sidebar flag changes on
    a window request only, to shown for the action "open" and to hidden for
    the action "close"; a window request with any other action is
    acknowledged like these but leaves the flag as it is. *)
Theorem sidebar_follows_window_requests (TA : ui.TextArea) (m m' : ui.Model TA)
        (msg : ui.Msg) (cmd : ui.Cmd) :
  ui.Update m msg = Some (m', cmd) ->
  ui.Files m' = ui.Files m
  /\ match msg with
     | ui.WindowControlMsg action _ _ _ =>
       ui.ShowSidebar m'
       = if String.eqb action "open" then true
         else if String.eqb action "close" then false
              else ui.ShowSidebar m
     | _ => ui.ShowSidebar m' = ui.ShowSidebar m
     end.
Proof.
  intro Hm.
  assert (Hsame : forall m0 : ui.Model TA,
             ui.Files m0 = ui.Files m -> ui.ShowSidebar m0 = ui.ShowSidebar m ->
             sameSession m0 m' ->
             ui.Files m' = ui.Files m /\ ui.ShowSidebar m' = ui.ShowSidebar m).
  { intros m0 Hf Hsb [_ [_ [_ [_ [Hside Hfiles]]]]].
    rewrite Hfiles, Hside. split; assumption. }
  destruct msg as [action target id h|width height|key alt|content h| |e
                   |command args id h|line|err id|tag];
    cbn [ui.Update] in Hm.
  - injection Hm as <- _.
    destruct (String.eqb action "open"); [split; reflexivity|].
    destruct (String.eqb action "close"); split; reflexivity.
  - eapply Hsame; [| |apply (finish_returned_session Hm)]; reflexivity.
  - destruct (onKey_session _ _ _ _ Hm) as [Hs|[_ [_ [_ Hsub]]]];
      [eapply Hsame; [| |exact Hs]; reflexivity|].
    assert (He : m' = fst (ui.submit m)) by (rewrite <- Hsub; reflexivity).
    rewrite He. unfold ui.submit. cbn [ui.State ui.setInput ui.setHistory].
    destruct (ui.State m); split; reflexivity.
  - eapply Hsame; [| |apply (finish_returned_session Hm)]; reflexivity.
  - destruct (ui.PendingQueue (ui.setState ui.StateIdle m));
      (eapply Hsame; [| |apply (finish_returned_session Hm)]; reflexivity).
  - eapply Hsame; [| |apply (finish_returned_session Hm)]; reflexivity.
  - injection Hm as <- _. split; reflexivity.
  - injection Hm as <- _. split; reflexivity.
  - injection Hm as <- _. clear Hsame.
    destruct (ui.ShowSidebar m) eqn:Hsb; cbn; rewrite ?Hsb; split; reflexivity.
  - eapply Hsame; [| |apply (finish_returned_session Hm)]; reflexivity.
Qed.

Lemma requests_are_cumulative_witness :
  exists new hs,
    ui.sent (snd (ui.InvokeAI Scripted.platform Scripted.hello
                    (Scripted.start [Ok Scripted.readFileReply;
                                     Ok (Scripted.reply "sorry" [])])))
    = new
    /\ map openai.Messages new = Scripted.hello :: hs
    /\ extends Scripted.hello hs
    /\ Forall (fun req => openai.Model req = "gpt-4o") new.
Proof.
  destruct (proj2 (@requests_are_cumulative _ Scripted.platform Scripted.hello
                     (Scripted.start [Ok Scripted.readFileReply;
                                      Ok (Scripted.reply "sorry" [])])))
    as [new [hs [Hsent [Hmsgs [Hext Hall]]]]].
  - discriminate.
  - exists new, hs. split; [exact Hsent|]. split; [exact Hmsgs|].
    split; [exact Hext|].
    apply Forall_forall. intros req Hin.
    rewrite Forall_forall in Hall. exact (proj1 (Hall req Hin)).
Defined.

Lemma sidebar_follows_window_requests_witness :
  exists m' cmd,
    ui.Update (Scripted.model ui.StateThinking "")
              (ui.WindowControlMsg "toggle" "terminal" "call_4" Scripted.hello)
    = Some (m', cmd)
    /\ ui.ShowSidebar m' = false.
Proof.
  eexists _, _. split; [reflexivity|].
  exact (proj2 (@sidebar_follows_window_requests
                  Scripted.textArea (Scripted.model ui.StateThinking "") _
                  (ui.WindowControlMsg "toggle" "terminal" "call_4" Scripted.hello)
                  _ eq_refl)).
Defined.
